(** * pc-checker: the hardware test workers and the update check

    A shallow embedding of the parts of [system_tests.py] and
    [update_manager.py] that carry the program's logic:

    - [SystemTests.memory_test], [disk_speed_test], [cpu_stress_test] and
      [charging_test] (the worker closures each of them starts on a thread);
    - [UpdateChecker.run] with its helpers.

    Conventions of the embedding.

    - A worker is a computation in a small state-and-exception monad.  The
      state holds the [results] dictionary of the test together with the
      worker's local variables, and a log: every statement of interest
      (an assignment to [results['progress']] or [results['status']], a
      callback, a sleep, an I/O operation) appends its label and the state
      right after it.
    - Everything the worker reads from outside (the shared flag
      [self.is_testing], which other threads write; psutil; the clock; the
      file system; the random generator) is an input, given by an
      environment record.
    - Python's [float] arithmetic is rendered by exact rational arithmetic
      ([Q]); [int(x)] truncates toward zero.
    - The only callback the program passes ([test_callback] in [script.py])
      catches every exception itself, so a callback returns normally. *)

From Stdlib Require Import ZArith QArith Qround List String Ascii Bool Lia Lqa.
From Stdlib Require Import DecimalString.
Import ListNotations.

Local Open Scope string_scope.
Local Open Scope list_scope.
Local Open Scope Z_scope.

(** ** Python helpers *)

Module Py.

(** [int(x)] on a number: truncation toward zero. *)
Definition int (q : Q) : Z := Z.quot (Qnum q) (Z.pos (Qden q)).

(** [range(n)]: empty when [n <= 0]. *)
Definition range (n : Z) : list Z := map Z.of_nat (seq 0 (Z.to_nat n)).

(** [sum(block)] over a bytearray. *)
Definition sum (l : list Z) : Z := fold_left Z.add l 0.

(** [x / y] on two integers (true division).  The workers divide by the
    number of iterations of the loop they are in, which is at least 1
    there, so the [ZeroDivisionError] of [y = 0] is out of reach; where it
    is not ([cpu_stress_test]) the model raises it. *)
Definition truediv (x y : Z) : Q := (inject_Z x / inject_Z y)%Q.

End Py.

(** ** The worker monad *)

Module Worker.

Inductive result (A : Type) : Type :=
| Normal (a : A)
| Raised (msg : string).
Arguments Normal {A} a.
Arguments Raised {A} msg.

(** Program points at which a worker reads [self.is_testing]: the guard at
    the head of iteration [i] of its [phase]-th loop, and the final
    ['Completed' if self.is_testing else 'Stopped']. *)
Inductive point : Type :=
| InLoop (phase : nat) (i : Z)
| AtEnd.

Inductive label : Type :=
| LProgress                 (* results['progress'] = ...     *)
| LStatus                   (* results['status'] = ...       *)
| LCallback                 (* callback(results)             *)
| LSleep (ms : Z)           (* time.sleep(ms / 1000)         *)
| LAlloc (i : Z)            (* memory_blocks.append(data)    *)
| LVerify (i : Z)           (* the checksum test of block i  *)
| LWrite (i : Z)            (* f.write(test_data)            *)
| LRead (i : Z)             (* f.read(1024 * 1024)           *)
| LPlugged (i : Z)          (* battery.power_plugged         *)
| LPercent (i : Z)          (* battery.percent               *)
| LSetTesting (b : bool).   (* self.is_testing = b           *)

Section Monad.
Context {S : Type}.

Record state : Type := { now : S; log : list (label * S) }.

Definition M (A : Type) : Type := state -> state * result A.

Definition ret {A} (a : A) : M A := fun s => (s, Normal a).

Definition bind {A B} (m : M A) (k : A -> M B) : M B :=
  fun s =>
    match m s with
    | (s', Normal a) => k a s'
    | (s', Raised e) => (s', Raised e)
    end.

Definition raise {A} (msg : string) : M A := fun s => (s, Raised msg).

(** [try: m except Exception as e: h e] *)
Definition try_except {A} (m : M A) (h : string -> M A) : M A :=
  fun s =>
    match m s with
    | (s', Normal a) => (s', Normal a)
    | (s', Raised e) => h e s'
    end.

Definition get : M S := fun s => (s, Normal (now s)).

Definition modify (f : S -> S) : M unit :=
  fun s => ({| now := f (now s); log := log s |}, Normal tt).

(** Appends [l] with the state as it is now. *)
Definition emit (l : label) : M unit :=
  fun s => ({| now := now s; log := log s ++ [(l, now s)] |}, Normal tt).

(** A logged statement: do the update, then record it. *)
Definition assign (l : label) (f : S -> S) : M unit :=
  bind (modify f) (fun _ => emit l).

(** An operation of the outside world that may raise. *)
Definition lift {A} (r : result A) : M A := fun s => (s, r).

Inductive ctl : Type := Continue | Break.

(** [for x in xs: body], where the body may [break] or raise. *)
Fixpoint for_each {X} (xs : list X) (body : X -> M ctl) : M unit :=
  match xs with
  | [] => ret tt
  | x :: xs' =>
      fun s =>
        match body x s with
        | (s', Normal Continue) => for_each xs' body s'
        | (s', Normal Break) => (s', Normal tt)
        | (s', Raised e) => (s', Raised e)
        end
  end.

(** [if callback: callback(results)] *)
Definition call_back (callback : bool) : M unit :=
  if callback then emit LCallback else ret tt.

Definition run {A} (m : M A) (init : S) : state * result A :=
  m {| now := init; log := [] |}.

End Monad.

Arguments state S : clear implicits.
Arguments M S A : clear implicits.

(** The labels of a log, in order. *)
Definition labels {S} (l : list (label * S)) : list label := map fst l.

(** What [if callback: callback(results)] appends to the log. *)
Definition cb_labels (callback : bool) : list label :=
  if callback then [LCallback] else [].

(** [P] holds of the current store and of every store recorded so far. *)
Definition good {S} (P : S -> Prop) (s : state S) : Prop :=
  P (now s) /\ Forall (fun e => P (snd e)) (log s).

(** The computation [m] keeps [P] true. *)
Definition preserves {S} (P : S -> Prop) {A} (m : M S A) : Prop :=
  forall s, good P s -> good P (fst (m s)).

(** [m], run under the handler [h] from a state in which [P] has held
    all along, ends in a state that satisfies [Q]. *)
Definition closes {S A} (P : S -> Prop) (Q : state S -> Prop)
  (m : M S A) (h : string -> M S A) : Prop :=
  forall s, good P s -> Q (fst (try_except m h s)).

(** The computation [m] never raises. *)
Definition returns {S A} (m : M S A) : Prop :=
  forall s, exists s' a, m s = (s', Normal a).

(** The two keys of a [results] dictionary that every worker here keeps:
    ['progress'] (which may not be there yet) and ['status']. *)
Class Progress (S : Type) : Type := {
  progress_of : S -> option Z;
  status_of : S -> string
}.

(** ['progress'], when it is there, lies in 0..100. *)
Definition bounded {S} `{Progress S} (s : S) : Prop :=
  match progress_of s with
  | Some p => 0 <= p <= 100
  | None => True
  end.

Definition running {S} `{Progress S} (s : S) : Prop :=
  status_of s = "Running".

(** The status is ['Completed'] or ['Stopped']. *)
Definition settled {S} `{Progress S} (s : S) : Prop :=
  status_of s = "Completed" \/ status_of s = "Stopped".

(** If the test has been completed or stopped, progress is 100. *)
Definition settled_at_100 {S} `{Progress S} (s : S) : Prop :=
  settled s -> progress_of s = Some 100.

(** Progress is 100 in the state right after each assignment of
    ['Completed'] or ['Stopped'] to ['status']. *)
Definition full_when_status_set {S} `{Progress S} (s : state S) : Prop :=
  forall r, In (LStatus, r) (log s) -> settled_at_100 r.

(** Progress is 100 in every state, from the statement after the
    assignment of ['Completed'] or ['Stopped'] on: at each later logged
    statement, the final callback among them, and when the worker ends. *)
Definition full_when_reported {S} `{Progress S} (s : state S) : Prop :=
  settled_at_100 (now s) /\
  forall l r, In (l, r) (log s) -> l <> LStatus -> settled_at_100 r.

Declare Scope worker_scope.
Delimit Scope worker_scope with worker.
Notation "x <- m ;; k" := (bind m (fun x => k))
  (at level 61, m at next level, right associativity) : worker_scope.
Notation "m ;; k" := (bind m (fun _ => k))
  (at level 61, right associativity) : worker_scope.

End Worker.

(** ** [SystemTests.memory_test] (system_tests.py, lines 118-207) *)

Module MemoryTest.
Import Worker.
Local Open Scope worker_scope.

(** One entry of [results['memory_usage']]. *)
Record usage_sample : Type := {
  sample_time : Z;
  used_percent : Q;
  used_gb : Q
}.

(** The [results] dictionary.  ['progress'] and ['error'] are absent from the
    dictionary until they are first assigned; the two time stamps are left
    out. *)
Record results : Type := {
  test_size_mb : Z;
  blocks_tested : Z;
  errors_found : Z;
  status : string;
  memory_usage : list usage_sample;
  progress : option Z;
  error : option string
}.

(** The dictionary together with the worker's local [memory_blocks]. *)
Record store : Type := {
  res : results;
  memory_blocks : list (list Z)
}.

#[global] Instance memory_progress : Progress store :=
  {| progress_of s := progress (res s); status_of s := status (res s) |}.

Definition with_res (f : results -> results) (s : store) : store :=
  {| res := f (res s); memory_blocks := memory_blocks s |}.

Definition set_blocks_tested (v : Z) : store -> store :=
  with_res (fun r =>
    {| test_size_mb := test_size_mb r; blocks_tested := v;
       errors_found := errors_found r; status := status r;
       memory_usage := memory_usage r; progress := progress r;
       error := error r |}).

Definition incr_errors_found : store -> store :=
  with_res (fun r =>
    {| test_size_mb := test_size_mb r; blocks_tested := blocks_tested r;
       errors_found := errors_found r + 1; status := status r;
       memory_usage := memory_usage r; progress := progress r;
       error := error r |}).

Definition set_status (v : string) : store -> store :=
  with_res (fun r =>
    {| test_size_mb := test_size_mb r; blocks_tested := blocks_tested r;
       errors_found := errors_found r; status := v;
       memory_usage := memory_usage r; progress := progress r;
       error := error r |}).

Definition append_memory_usage (v : usage_sample) : store -> store :=
  with_res (fun r =>
    {| test_size_mb := test_size_mb r; blocks_tested := blocks_tested r;
       errors_found := errors_found r; status := status r;
       memory_usage := memory_usage r ++ [v]; progress := progress r;
       error := error r |}).

Definition set_progress (v : Z) : store -> store :=
  with_res (fun r =>
    {| test_size_mb := test_size_mb r; blocks_tested := blocks_tested r;
       errors_found := errors_found r; status := status r;
       memory_usage := memory_usage r; progress := Some v;
       error := error r |}).

Definition set_error (v : string) : store -> store :=
  with_res (fun r =>
    {| test_size_mb := test_size_mb r; blocks_tested := blocks_tested r;
       errors_found := errors_found r; status := status r;
       memory_usage := memory_usage r; progress := progress r;
       error := Some v |}).

(** [memory_blocks.append(data)] *)
Definition append_block (data : list Z) (s : store) : store :=
  {| res := res s; memory_blocks := memory_blocks s ++ [data] |}.

(** [del memory_blocks]: the worker lets go of the blocks. *)
Definition del_memory_blocks (s : store) : store :=
  {| res := res s; memory_blocks := [] |}.

(** What the worker reads from outside. *)
Record env : Type := {
  (** [self.is_testing] as read at a program point *)
  is_testing : point -> bool;
  (** [random.getrandbits(8)] for byte [j] of block [i] *)
  getrandbits8 : Z -> Z -> Z;
  (** an exception (a [MemoryError], say) raised while block [i] is built *)
  alloc_error : Z -> option string;
  (** [psutil.virtual_memory()] in iteration [i]: [percent] and [used] *)
  virtual_memory : Z -> Q * Q;
  (** whether [sum(block)] raises for block [i] *)
  sum_raises : Z -> bool
}.

(** [block_size = 1024 * 1024] *)
Definition block_size : Z := 1024 * 1024.

(** The block built for index [i] when nothing goes wrong:
    [bytearray(random.getrandbits(8) for _ in range(block_size))]. *)
Definition random_block (w : env) (i : Z) : list Z :=
  map (getrandbits8 w i) (Py.range block_size).

(** The same, or the exception raised on the way. *)
Definition new_block (w : env) (i : Z) : result (list Z) :=
  match alloc_error w i with
  | Some msg => Raised msg
  | None => Normal (random_block w i)
  end.

(** [enumerate(l)] *)
Definition enumerate {A} (l : list A) : list (Z * A) :=
  combine (Py.range (Z.of_nat (List.length l))) l.

(** The value of [sum(block)], or the exception it raises. *)
Definition py_sum (w : env) (i : Z) (block : list Z) : result Z :=
  if sum_raises w i then Raised "sum" else Normal (Py.sum block).

(** Lines 169-175: the integrity check of one block. *)
Definition verify_block (w : env) (i : Z) (block : list Z) : M store unit :=
  try_except
    (s1 <- lift (py_sum w i block) ;;
     let checksum := s1 mod 256 in
     s2 <- lift (py_sum w i block) ;;
     if negb (checksum =? s2 mod 256)
     then modify incr_errors_found
     else ret tt)
    (fun _ => modify incr_errors_found).

(** Lines 138-161: the body of the allocation loop. *)
Definition allocate_step (w : env) (num_blocks : Z) (callback : bool) (i : Z)
  : M store ctl :=
  if negb (is_testing w (InLoop 0 i)) then ret Break
  else
    data <- lift (new_block w i) ;;
    assign (LAlloc i) (append_block data) ;;
    modify (set_blocks_tested (i + 1)) ;;
    assign LProgress
      (set_progress (Py.int (Py.truediv (i + 1) num_blocks * 50)%Q)) ;;
    modify (append_memory_usage
              {| sample_time := i;
                 used_percent := fst (virtual_memory w i);
                 used_gb := (snd (virtual_memory w i) / inject_Z (1024 ^ 3))%Q |}) ;;
    call_back callback ;;
    emit (LSleep 100) ;;
    ret Continue.

(** Lines 164-183: the body of the verification loop. *)
Definition test_step (w : env) (len_blocks : Z) (callback : bool)
  (ib : Z * list Z) : M store ctl :=
  let (i, block) := ib in
  if negb (is_testing w (InLoop 1 i)) then ret Break
  else
    verify_block w i block ;;
    emit (LVerify i) ;;
    assign LProgress
      (set_progress (Py.int (50 + Py.truediv (i + 1) len_blocks * 50)%Q)) ;;
    call_back callback ;;
    emit (LSleep 50) ;;
    ret Continue.

(** Lines 131-201. *)
Definition memory_test_worker (test_size_mb : Z) (callback : bool) (w : env)
  : M store unit :=
  try_except
    (let num_blocks := test_size_mb in
     for_each (Py.range num_blocks) (allocate_step w num_blocks callback) ;;
     s <- get ;;
     let blocks := memory_blocks s in
     for_each (enumerate blocks)
              (test_step w (Z.of_nat (List.length blocks)) callback) ;;
     modify del_memory_blocks ;;
     assign LProgress (set_progress 100) ;;
     assign LStatus
       (set_status (if is_testing w AtEnd then "Completed" else "Stopped")) ;;
     emit (LSetTesting false) ;;
     call_back callback)
    (fun e =>
       modify (set_error e) ;;
       assign LStatus (set_status "Error") ;;
       emit (LSetTesting false) ;;
       call_back callback).

(** Lines 120-129: the dictionary [memory_test] builds before it starts the
    worker, and the worker's empty [memory_blocks]. *)
Definition initial (size_mb : Z) : store :=
  {| res := {| test_size_mb := size_mb; blocks_tested := 0;
               errors_found := 0; status := "Running";
               memory_usage := []; progress := None; error := None |};
     memory_blocks := [] |}.

Definition memory_test (size_mb : Z) (callback : bool) (w : env)
  : state store * result unit :=
  run (memory_test_worker size_mb callback w) (initial size_mb).

(** ['progress'], when the dictionary has it, lies in [lo..hi]. *)
Definition progress_in (lo hi : Z) (s : store) : Prop :=
  match progress (res s) with
  | Some p => lo <= p <= hi
  | None => True
  end.

(** The dictionary has ['progress'], and it lies in [lo..hi]. *)
Definition progress_within (lo hi : Z) (s : store) : Prop :=
  exists p, progress (res s) = Some p /\ lo <= p <= hi.

Definition no_errors (s : store) : Prop := errors_found (res s) = 0.

(** What one full iteration of the allocation loop logs. *)
Definition alloc_labels (callback : bool) (i : Z) : list label :=
  [LAlloc i; LProgress] ++ cb_labels callback ++ [LSleep 100].

(** What one full iteration of the verification loop logs. *)
Definition test_labels (callback : bool) (i : Z) : list label :=
  [LVerify i; LProgress] ++ cb_labels callback ++ [LSleep 50].

(** How many of the blocks [xs] fail their verification, which they can do
    only by [sum(block)] raising. *)
Definition raised_sums (w : env) (xs : list Z) : Z :=
  Z.of_nat (List.length (filter (sum_raises w) xs)).

(** A machine on which nothing goes wrong and nobody presses Stop. *)
Definition quiet : env :=
  {| is_testing := fun _ => true;
     getrandbits8 := fun i j => (31 * i + 7 * j) mod 256;
     alloc_error := fun _ => None;
     virtual_memory := fun _ => (50%Q, inject_Z (8 * 1024 ^ 3));
     sum_raises := fun _ => false |}.

End MemoryTest.

(** ** [SystemTests.disk_speed_test] (system_tests.py, lines 209-313) *)

Module DiskTest.
Import Worker.
Local Open Scope worker_scope.

(** The [results] dictionary; ['progress'] is there from the start, ['error']
    only once the handler has run; the two time stamps are left out. *)
Record results : Type := {
  test_file_size_mb : Z;
  write_speed_mbps : Q;
  read_speed_mbps : Q;
  status : string;
  progress : Z;
  error : option string
}.

#[global] Instance disk_progress : Progress results :=
  {| progress_of r := Some (progress r); status_of r := status r |}.

Definition set_write_speed_mbps (v : Q) (r : results) : results :=
  {| test_file_size_mb := test_file_size_mb r; write_speed_mbps := v;
     read_speed_mbps := read_speed_mbps r; status := status r;
     progress := progress r; error := error r |}.

Definition set_read_speed_mbps (v : Q) (r : results) : results :=
  {| test_file_size_mb := test_file_size_mb r;
     write_speed_mbps := write_speed_mbps r;
     read_speed_mbps := v; status := status r;
     progress := progress r; error := error r |}.

Definition set_status (v : string) (r : results) : results :=
  {| test_file_size_mb := test_file_size_mb r;
     write_speed_mbps := write_speed_mbps r;
     read_speed_mbps := read_speed_mbps r; status := v;
     progress := progress r; error := error r |}.

Definition set_progress (v : Z) (r : results) : results :=
  {| test_file_size_mb := test_file_size_mb r;
     write_speed_mbps := write_speed_mbps r;
     read_speed_mbps := read_speed_mbps r; status := status r;
     progress := v; error := error r |}.

Definition set_error (v : string) (r : results) : results :=
  {| test_file_size_mb := test_file_size_mb r;
     write_speed_mbps := write_speed_mbps r;
     read_speed_mbps := read_speed_mbps r; status := status r;
     progress := progress r; error := Some v |}.

(** What the worker reads from outside. *)
Record env : Type := {
  (** [self.is_testing] as read at a program point *)
  is_testing : point -> bool;
  (** an exception raised while the temporary file is created *)
  tempfile_error : option string;
  (** an exception raised by [open(temp_path, 'wb')] and [open(temp_path, 'rb')] *)
  open_error : nat -> option string;
  (** an exception raised by the [i]-th [f.write] *)
  write_error : Z -> option string;
  (** an exception raised by the [i]-th [f.read] *)
  read_error : Z -> option string;
  (** [write_end - write_start] and [read_end - read_start] *)
  write_time : Q;
  read_time : Q
}.

(** An outside operation that returns nothing but may raise. *)
Definition attempt (e : option string) : M results unit :=
  match e with
  | Some msg => raise msg
  | None => ret tt
  end.

(** [test_file_size_mb / t if t > 0 else 0] *)
Definition speed (size_mb : Z) (t : Q) : Q :=
  if negb (Qle_bool t 0) then (inject_Z size_mb / t)%Q else 0%Q.

(** [(i + 1) % 5 == 0 or i == test_file_size_mb - 1] *)
Definition reports (size_mb i : Z) : bool :=
  ((i + 1) mod 5 =? 0) || (i =? size_mb - 1).

(** Lines 240-252: the body of the write loop. *)
Definition write_step (w : env) (size_mb : Z) (callback : bool) (i : Z)
  : M results ctl :=
  if negb (is_testing w (InLoop 0 i)) then ret Break
  else
    attempt (write_error w i) ;;
    emit (LWrite i) ;;
    let write_progress := Py.int (Py.truediv (i + 1) size_mb * 50)%Q in
    assign LProgress (set_progress write_progress) ;;
    (if reports size_mb i then call_back callback else ret tt) ;;
    ret Continue.

(** Lines 263-275: the body of the read loop. *)
Definition read_step (w : env) (size_mb : Z) (callback : bool) (i : Z)
  : M results ctl :=
  if negb (is_testing w (InLoop 1 i)) then ret Break
  else
    attempt (read_error w i) ;;
    emit (LRead i) ;;
    let read_progress := Py.int (50 + Py.truediv (i + 1) size_mb * 50)%Q in
    assign LProgress (set_progress read_progress) ;;
    (if reports size_mb i then call_back callback else ret tt) ;;
    ret Continue.

(** Lines 222-307.  Deleting the temporary file is wrapped in its own
    [try]/[except] and touches nothing the model keeps. *)
Definition disk_test_worker (size_mb : Z) (callback : bool) (w : env)
  : M results unit :=
  try_except
    (attempt (tempfile_error w) ;;
     attempt (open_error w 0) ;;
     for_each (Py.range size_mb) (write_step w size_mb callback) ;;
     modify (set_write_speed_mbps (speed size_mb (write_time w))) ;;
     attempt (open_error w 1) ;;
     for_each (Py.range size_mb) (read_step w size_mb callback) ;;
     modify (set_read_speed_mbps (speed size_mb (read_time w))) ;;
     assign LStatus
       (set_status (if is_testing w AtEnd then "Completed" else "Stopped")) ;;
     assign LProgress (set_progress 100) ;;
     emit (LSetTesting false) ;;
     call_back callback)
    (fun e =>
       modify (set_error e) ;;
       assign LStatus (set_status "Error") ;;
       emit (LSetTesting false) ;;
       call_back callback).

(** Lines 212-220: the dictionary [disk_speed_test] builds. *)
Definition initial (size_mb : Z) : results :=
  {| test_file_size_mb := size_mb; write_speed_mbps := 0%Q;
     read_speed_mbps := 0%Q; status := "Running"; progress := 0;
     error := None |}.

Definition disk_speed_test (size_mb : Z) (callback : bool) (w : env)
  : state results * result unit :=
  run (disk_test_worker size_mb callback w) (initial size_mb).

(** What one full iteration of the write loop logs. *)
Definition write_labels (size_mb : Z) (callback : bool) (i : Z) : list label :=
  [LWrite i; LProgress] ++ (if reports size_mb i then cb_labels callback else []).

(** What one full iteration of the read loop logs. *)
Definition read_labels (size_mb : Z) (callback : bool) (i : Z) : list label :=
  [LRead i; LProgress] ++ (if reports size_mb i then cb_labels callback else []).

Definition progress_in (lo hi : Z) (r : results) : Prop :=
  lo <= progress r <= hi.

(** A disk on which nothing goes wrong and nobody presses Stop. *)
Definition quiet : env :=
  {| is_testing := fun _ => true;
     tempfile_error := None;
     open_error := fun _ => None;
     write_error := fun _ => None;
     read_error := fun _ => None;
     write_time := 2%Q;
     read_time := 1%Q |}.

(** The same disk, with Stop pressed before the first chunk is written and
    not released. *)
Definition stopped_at_once : env :=
  {| is_testing := fun _ => false;
     tempfile_error := None;
     open_error := fun _ => None;
     write_error := fun _ => None;
     read_error := fun _ => None;
     write_time := 0%Q;
     read_time := 0%Q |}.

End DiskTest.

(** ** [SystemTests.cpu_stress_test] (system_tests.py, lines 29-116) *)

Module CpuTest.
Import Worker.
Local Open Scope worker_scope.

(** One entry of [results['cpu_usage_samples']]. *)
Record usage_sample : Type := {
  sample_time : Q;
  usage : Q
}.

(** One entry of [results['cpu_temperatures']]. *)
Record temperature_sample : Type := {
  temperature_time : Q;
  temperature : Q
}.

(** The [results] dictionary; ['progress'] is absent until the first
    iteration assigns it; the two time stamps are left out. *)
Record results : Type := {
  duration : Z;
  cpu_usage_samples : list usage_sample;
  cpu_temperatures : list temperature_sample;
  max_usage : Q;
  avg_usage : Q;
  status : string;
  progress : option Z
}.

Definition append_usage_sample (v : usage_sample) (r : results) : results :=
  {| duration := duration r;
     cpu_usage_samples := cpu_usage_samples r ++ [v];
     cpu_temperatures := cpu_temperatures r; max_usage := max_usage r;
     avg_usage := avg_usage r; status := status r; progress := progress r |}.

Definition append_temperature (v : temperature_sample) (r : results)
  : results :=
  {| duration := duration r; cpu_usage_samples := cpu_usage_samples r;
     cpu_temperatures := cpu_temperatures r ++ [v];
     max_usage := max_usage r; avg_usage := avg_usage r;
     status := status r; progress := progress r |}.

Definition set_max_usage (v : Q) (r : results) : results :=
  {| duration := duration r; cpu_usage_samples := cpu_usage_samples r;
     cpu_temperatures := cpu_temperatures r; max_usage := v;
     avg_usage := avg_usage r; status := status r; progress := progress r |}.

Definition set_avg_usage (v : Q) (r : results) : results :=
  {| duration := duration r; cpu_usage_samples := cpu_usage_samples r;
     cpu_temperatures := cpu_temperatures r; max_usage := max_usage r;
     avg_usage := v; status := status r; progress := progress r |}.

Definition set_status (v : string) (r : results) : results :=
  {| duration := duration r; cpu_usage_samples := cpu_usage_samples r;
     cpu_temperatures := cpu_temperatures r; max_usage := max_usage r;
     avg_usage := avg_usage r; status := v; progress := progress r |}.

Definition set_progress (v : Z) (r : results) : results :=
  {| duration := duration r; cpu_usage_samples := cpu_usage_samples r;
     cpu_temperatures := cpu_temperatures r; max_usage := max_usage r;
     avg_usage := avg_usage r; status := status r; progress := Some v |}.

(** The dictionary together with the locals of [monitor_worker]. *)
Record store : Type := {
  res : results;
  sample_count : Z;
  total_usage : Q
}.

#[global] Instance cpu_progress : Progress store :=
  {| progress_of s := progress (res s); status_of s := status (res s) |}.

Definition with_res (f : results -> results) (s : store) : store :=
  {| res := f (res s); sample_count := sample_count s;
     total_usage := total_usage s |}.

(** [total_usage += cpu_usage; sample_count += 1] *)
Definition count_sample (cpu_usage : Q) (s : store) : store :=
  {| res := res s; sample_count := sample_count s + 1;
     total_usage := (total_usage s + cpu_usage)%Q |}.

(** What the monitor reads from outside.  The clock is read three times
    and more in an iteration; each reading is an input of its own. *)
Record env : Type := {
  (** [self.is_testing] as read at a program point *)
  is_testing : point -> bool;
  (** [start_time = time.time()] *)
  start_time : Q;
  (** [time.time()] in the loop condition of iteration [i] *)
  guard_time : Z -> Q;
  (** [time.time()] on line 58 of iteration [i] *)
  progress_time : Z -> Q;
  (** [psutil.cpu_percent(interval=1)] in iteration [i] *)
  cpu_percent : Z -> Q;
  (** [time.time()] when the usage sample of iteration [i] is stored *)
  usage_time : Z -> Q;
  (** the highest [coretemp] reading in iteration [i] and the time it is
      stored at; [None] when there is no such sensor or reading it raises *)
  coretemp : Z -> option (Q * Q)
}.

(** [x < y] on numbers. *)
Definition Qlt_bool (x y : Q) : bool := negb (Qle_bool y x).

(** Lines 58-60.  Dividing by a zero [duration] raises. *)
Definition update_progress (w : env) (dur : Z) (i : Z) : M store unit :=
  let elapsed_time := (progress_time w i - start_time w)%Q in
  if dur =? 0 then raise "float division by zero"
  else
    let progress := Py.int (elapsed_time / inject_Z dur * 100)%Q in
    assign LProgress (with_res (set_progress (Z.min progress 100))).

(** Lines 63-73. *)
Definition record_usage (w : env) (i : Z) : M store unit :=
  let cpu_usage := cpu_percent w i in
  modify (with_res (append_usage_sample
            {| sample_time := (usage_time w i - start_time w)%Q;
               usage := cpu_usage |})) ;;
  modify (count_sample cpu_usage) ;;
  s <- get ;;
  if Qlt_bool (max_usage (res s)) cpu_usage
  then modify (with_res (set_max_usage cpu_usage))
  else ret tt.

(** Lines 76-85. *)
Definition record_temperature (w : env) (i : Z) : M store unit :=
  match coretemp w i with
  | Some (t, temp) =>
      modify (with_res (append_temperature
                {| temperature_time := (t - start_time w)%Q;
                   temperature := temp |}))
  | None => ret tt
  end.

(** Lines 57-90: the body of the monitoring loop. *)
Definition monitor_step (w : env) (dur : Z) (callback : bool) (i : Z)
  : M store unit :=
  update_progress w dur i ;;
  record_usage w i ;;
  record_temperature w i ;;
  call_back callback ;;
  emit (LSleep 1000).

(** Line 56: [time.time() - start_time < duration and self.is_testing]. *)
Definition guard (w : env) (dur : Z) (i : Z) : bool :=
  Qlt_bool (guard_time w i - start_time w) (inject_Z dur)
  && is_testing w (InLoop 0 i).

(** The [while] loop from iteration [i] on.  The loop ends when the clock
    or the Stop button says so; [fuel] bounds the iterations the model is
    willing to follow, and the result tells whether the loop ended
    ([true]) or the fuel did ([false]). *)
Fixpoint monitor_loop (fuel : nat) (w : env) (dur : Z) (callback : bool)
  (i : Z) : M store bool :=
  if guard w dur i then
    match fuel with
    | O => ret false
    | S fuel' =>
        monitor_step w dur callback i ;;
        monitor_loop fuel' w dur callback (i + 1)
    end
  else ret true.

(** [total_usage / sample_count if sample_count > 0 else 0] *)
Definition average (s : store) : Q :=
  if 0 <? sample_count s
  then (total_usage s / inject_Z (sample_count s))%Q
  else 0%Q.

(** Lines 51-99.  The worker has no handler of its own: an exception ends
    the thread and leaves the dictionary as it is. *)
Definition monitor_worker (fuel : nat) (dur : Z) (callback : bool) (w : env)
  : M store bool :=
  ended <- monitor_loop fuel w dur callback 0 ;;
  if (ended : bool) then
    s <- get ;;
    modify (with_res (set_avg_usage (average s))) ;;
    assign LProgress (with_res (set_progress 100)) ;;
    assign LStatus
      (with_res (set_status
                   (if is_testing w AtEnd then "Completed" else "Stopped"))) ;;
    emit (LSetTesting false) ;;
    call_back callback ;;
    ret true
  else ret false.

(** Lines 32-41: the dictionary [cpu_stress_test] builds. *)
Definition initial (dur : Z) : store :=
  {| res := {| duration := dur; cpu_usage_samples := [];
               cpu_temperatures := []; max_usage := 0%Q; avg_usage := 0%Q;
               status := "Running"; progress := None |};
     sample_count := 0;
     total_usage := 0%Q |}.

(** The monitoring thread of [cpu_stress_test]; the stress threads only
    burn cycles and touch neither the dictionary nor the flag. *)
Definition cpu_stress_test (fuel : nat) (dur : Z) (callback : bool) (w : env)
  : state store * result bool :=
  run (monitor_worker fuel dur callback w) (initial dur).

(** No clock reading of the run is earlier than [start_time]. *)
Definition clock_not_set_back (w : env) : Prop :=
  forall i, 0 <= i ->
            (start_time w <= guard_time w i)%Q /\
            (start_time w <= progress_time w i)%Q.

(** A machine at 40% load whose clock ticks two seconds an iteration. *)
Definition steady : env :=
  {| is_testing := fun _ => true;
     start_time := 1000%Q;
     guard_time := fun i => inject_Z (1000 + 2 * i);
     progress_time := fun i => inject_Z (1000 + 2 * i);
     cpu_percent := fun _ => 40%Q;
     usage_time := fun i => inject_Z (1001 + 2 * i);
     coretemp := fun _ => None |}.

(** The same machine, whose clock is set back by a quarter of a minute
    right after the test has started and put right after one iteration. *)
Definition clock_set_back : env :=
  {| is_testing := fun _ => true;
     start_time := 1000%Q;
     guard_time := fun i => if i =? 0 then 990%Q else 2000%Q;
     progress_time := fun _ => 985%Q;
     cpu_percent := fun _ => 40%Q;
     usage_time := fun _ => 986%Q;
     coretemp := fun _ => None |}.

End CpuTest.

(** ** [SystemTests.charging_test] (system_tests.py, lines 603-766) *)

Module ChargingTest.
Import Worker.
Local Open Scope worker_scope.

(** One entry of [results['charging_events']] (without its time stamp).
    [charging_state] is [battery.power_plugged]: [True], [False], or [None]
    when psutil cannot tell. *)
Record charging_event : Type := {
  event : string;
  battery_level : Z;
  charging_state : option bool
}.

(** One entry of [results['battery_level_changes']] (without its time
    stamp). *)
Record level_change : Type := {
  old_level : Z;
  new_level : Z;
  change : Z;
  charging : option bool
}.

(** The [results] dictionary.  A key that holds [None] and a key that is not
    there yet are both [None] here; the time stamps are left out. *)
Record results : Type := {
  battery_support : bool;
  initial_charging_state : option bool;
  initial_battery_level : option Z;
  charging_events : list charging_event;
  battery_level_changes : list level_change;
  status : string;
  progress : Z;
  errors : list string;
  instructions_given : bool;
  current_charging_state : option bool;
  current_battery_level : option Z;
  charging_events_detected : option Z;
  battery_level_changes_detected : option Z;
  charging_port_status : option string;
  battery_charging_status : option string;
  error : option string
}.

Definition set_battery_support (v : bool) (r : results) : results :=
  {| battery_support := v;
     initial_charging_state := initial_charging_state r;
     initial_battery_level := initial_battery_level r;
     charging_events := charging_events r;
     battery_level_changes := battery_level_changes r; status := status r;
     progress := progress r; errors := errors r;
     instructions_given := instructions_given r;
     current_charging_state := current_charging_state r;
     current_battery_level := current_battery_level r;
     charging_events_detected := charging_events_detected r;
     battery_level_changes_detected := battery_level_changes_detected r;
     charging_port_status := charging_port_status r;
     battery_charging_status := battery_charging_status r;
     error := error r |}.

Definition set_initial_charging_state (v : option bool) (r : results) : results :=
  {| battery_support := battery_support r; initial_charging_state := v;
     initial_battery_level := initial_battery_level r;
     charging_events := charging_events r;
     battery_level_changes := battery_level_changes r; status := status r;
     progress := progress r; errors := errors r;
     instructions_given := instructions_given r;
     current_charging_state := current_charging_state r;
     current_battery_level := current_battery_level r;
     charging_events_detected := charging_events_detected r;
     battery_level_changes_detected := battery_level_changes_detected r;
     charging_port_status := charging_port_status r;
     battery_charging_status := battery_charging_status r;
     error := error r |}.

Definition set_initial_battery_level (v : option Z) (r : results) : results :=
  {| battery_support := battery_support r;
     initial_charging_state := initial_charging_state r;
     initial_battery_level := v; charging_events := charging_events r;
     battery_level_changes := battery_level_changes r; status := status r;
     progress := progress r; errors := errors r;
     instructions_given := instructions_given r;
     current_charging_state := current_charging_state r;
     current_battery_level := current_battery_level r;
     charging_events_detected := charging_events_detected r;
     battery_level_changes_detected := battery_level_changes_detected r;
     charging_port_status := charging_port_status r;
     battery_charging_status := battery_charging_status r;
     error := error r |}.

(** [results['charging_events'].append(v)] *)
Definition append_charging_event (v : charging_event) (r : results) : results :=
  {| battery_support := battery_support r;
     initial_charging_state := initial_charging_state r;
     initial_battery_level := initial_battery_level r;
     charging_events := charging_events r ++ [v];
     battery_level_changes := battery_level_changes r; status := status r;
     progress := progress r; errors := errors r;
     instructions_given := instructions_given r;
     current_charging_state := current_charging_state r;
     current_battery_level := current_battery_level r;
     charging_events_detected := charging_events_detected r;
     battery_level_changes_detected := battery_level_changes_detected r;
     charging_port_status := charging_port_status r;
     battery_charging_status := battery_charging_status r;
     error := error r |}.

(** [results['battery_level_changes'].append(v)] *)
Definition append_level_change (v : level_change) (r : results) : results :=
  {| battery_support := battery_support r;
     initial_charging_state := initial_charging_state r;
     initial_battery_level := initial_battery_level r;
     charging_events := charging_events r;
     battery_level_changes := battery_level_changes r ++ [v];
     status := status r; progress := progress r; errors := errors r;
     instructions_given := instructions_given r;
     current_charging_state := current_charging_state r;
     current_battery_level := current_battery_level r;
     charging_events_detected := charging_events_detected r;
     battery_level_changes_detected := battery_level_changes_detected r;
     charging_port_status := charging_port_status r;
     battery_charging_status := battery_charging_status r;
     error := error r |}.

Definition set_status (v : string) (r : results) : results :=
  {| battery_support := battery_support r;
     initial_charging_state := initial_charging_state r;
     initial_battery_level := initial_battery_level r;
     charging_events := charging_events r;
     battery_level_changes := battery_level_changes r; status := v;
     progress := progress r; errors := errors r;
     instructions_given := instructions_given r;
     current_charging_state := current_charging_state r;
     current_battery_level := current_battery_level r;
     charging_events_detected := charging_events_detected r;
     battery_level_changes_detected := battery_level_changes_detected r;
     charging_port_status := charging_port_status r;
     battery_charging_status := battery_charging_status r;
     error := error r |}.

Definition set_progress (v : Z) (r : results) : results :=
  {| battery_support := battery_support r;
     initial_charging_state := initial_charging_state r;
     initial_battery_level := initial_battery_level r;
     charging_events := charging_events r;
     battery_level_changes := battery_level_changes r; status := status r;
     progress := v; errors := errors r;
     instructions_given := instructions_given r;
     current_charging_state := current_charging_state r;
     current_battery_level := current_battery_level r;
     charging_events_detected := charging_events_detected r;
     battery_level_changes_detected := battery_level_changes_detected r;
     charging_port_status := charging_port_status r;
     battery_charging_status := battery_charging_status r;
     error := error r |}.

(** [results['errors'].append(v)] *)
Definition append_error (v : string) (r : results) : results :=
  {| battery_support := battery_support r;
     initial_charging_state := initial_charging_state r;
     initial_battery_level := initial_battery_level r;
     charging_events := charging_events r;
     battery_level_changes := battery_level_changes r; status := status r;
     progress := progress r; errors := errors r ++ [v];
     instructions_given := instructions_given r;
     current_charging_state := current_charging_state r;
     current_battery_level := current_battery_level r;
     charging_events_detected := charging_events_detected r;
     battery_level_changes_detected := battery_level_changes_detected r;
     charging_port_status := charging_port_status r;
     battery_charging_status := battery_charging_status r;
     error := error r |}.

Definition set_instructions_given (v : bool) (r : results) : results :=
  {| battery_support := battery_support r;
     initial_charging_state := initial_charging_state r;
     initial_battery_level := initial_battery_level r;
     charging_events := charging_events r;
     battery_level_changes := battery_level_changes r; status := status r;
     progress := progress r; errors := errors r; instructions_given := v;
     current_charging_state := current_charging_state r;
     current_battery_level := current_battery_level r;
     charging_events_detected := charging_events_detected r;
     battery_level_changes_detected := battery_level_changes_detected r;
     charging_port_status := charging_port_status r;
     battery_charging_status := battery_charging_status r;
     error := error r |}.

Definition set_current_charging_state (v : option bool) (r : results) : results :=
  {| battery_support := battery_support r;
     initial_charging_state := initial_charging_state r;
     initial_battery_level := initial_battery_level r;
     charging_events := charging_events r;
     battery_level_changes := battery_level_changes r; status := status r;
     progress := progress r; errors := errors r;
     instructions_given := instructions_given r;
     current_charging_state := v;
     current_battery_level := current_battery_level r;
     charging_events_detected := charging_events_detected r;
     battery_level_changes_detected := battery_level_changes_detected r;
     charging_port_status := charging_port_status r;
     battery_charging_status := battery_charging_status r;
     error := error r |}.

Definition set_current_battery_level (v : option Z) (r : results) : results :=
  {| battery_support := battery_support r;
     initial_charging_state := initial_charging_state r;
     initial_battery_level := initial_battery_level r;
     charging_events := charging_events r;
     battery_level_changes := battery_level_changes r; status := status r;
     progress := progress r; errors := errors r;
     instructions_given := instructions_given r;
     current_charging_state := current_charging_state r;
     current_battery_level := v;
     charging_events_detected := charging_events_detected r;
     battery_level_changes_detected := battery_level_changes_detected r;
     charging_port_status := charging_port_status r;
     battery_charging_status := battery_charging_status r;
     error := error r |}.

Definition set_charging_events_detected (v : option Z) (r : results) : results :=
  {| battery_support := battery_support r;
     initial_charging_state := initial_charging_state r;
     initial_battery_level := initial_battery_level r;
     charging_events := charging_events r;
     battery_level_changes := battery_level_changes r; status := status r;
     progress := progress r; errors := errors r;
     instructions_given := instructions_given r;
     current_charging_state := current_charging_state r;
     current_battery_level := current_battery_level r;
     charging_events_detected := v;
     battery_level_changes_detected := battery_level_changes_detected r;
     charging_port_status := charging_port_status r;
     battery_charging_status := battery_charging_status r;
     error := error r |}.

Definition set_battery_level_changes_detected (v : option Z) (r : results) : results :=
  {| battery_support := battery_support r;
     initial_charging_state := initial_charging_state r;
     initial_battery_level := initial_battery_level r;
     charging_events := charging_events r;
     battery_level_changes := battery_level_changes r; status := status r;
     progress := progress r; errors := errors r;
     instructions_given := instructions_given r;
     current_charging_state := current_charging_state r;
     current_battery_level := current_battery_level r;
     charging_events_detected := charging_events_detected r;
     battery_level_changes_detected := v;
     charging_port_status := charging_port_status r;
     battery_charging_status := battery_charging_status r;
     error := error r |}.

Definition set_charging_port_status (v : option string) (r : results) : results :=
  {| battery_support := battery_support r;
     initial_charging_state := initial_charging_state r;
     initial_battery_level := initial_battery_level r;
     charging_events := charging_events r;
     battery_level_changes := battery_level_changes r; status := status r;
     progress := progress r; errors := errors r;
     instructions_given := instructions_given r;
     current_charging_state := current_charging_state r;
     current_battery_level := current_battery_level r;
     charging_events_detected := charging_events_detected r;
     battery_level_changes_detected := battery_level_changes_detected r;
     charging_port_status := v;
     battery_charging_status := battery_charging_status r;
     error := error r |}.

Definition set_battery_charging_status (v : option string) (r : results) : results :=
  {| battery_support := battery_support r;
     initial_charging_state := initial_charging_state r;
     initial_battery_level := initial_battery_level r;
     charging_events := charging_events r;
     battery_level_changes := battery_level_changes r; status := status r;
     progress := progress r; errors := errors r;
     instructions_given := instructions_given r;
     current_charging_state := current_charging_state r;
     current_battery_level := current_battery_level r;
     charging_events_detected := charging_events_detected r;
     battery_level_changes_detected := battery_level_changes_detected r;
     charging_port_status := charging_port_status r;
     battery_charging_status := v; error := error r |}.

Definition set_error (v : option string) (r : results) : results :=
  {| battery_support := battery_support r;
     initial_charging_state := initial_charging_state r;
     initial_battery_level := initial_battery_level r;
     charging_events := charging_events r;
     battery_level_changes := battery_level_changes r; status := status r;
     progress := progress r; errors := errors r;
     instructions_given := instructions_given r;
     current_charging_state := current_charging_state r;
     current_battery_level := current_battery_level r;
     charging_events_detected := charging_events_detected r;
     battery_level_changes_detected := battery_level_changes_detected r;
     charging_port_status := charging_port_status r;
     battery_charging_status := battery_charging_status r; error := v |}.

(** The dictionary together with the worker's local variables. *)
Record store : Type := {
  res : results;
  last_charging_state : option bool;
  last_battery_level : option Z;
  last_callback_time : Q
}.

#[global] Instance charging_progress : Progress store :=
  {| progress_of s := Some (progress (res s)); status_of s := status (res s) |}.

Definition with_res (f : results -> results) (s : store) : store :=
  {| res := f (res s); last_charging_state := last_charging_state s;
     last_battery_level := last_battery_level s;
     last_callback_time := last_callback_time s |}.

Definition set_last_charging_state (v : option bool) (s : store) : store :=
  {| res := res s; last_charging_state := v;
     last_battery_level := last_battery_level s;
     last_callback_time := last_callback_time s |}.

Definition set_last_battery_level (v : option Z) (s : store) : store :=
  {| res := res s; last_charging_state := last_charging_state s;
     last_battery_level := v;
     last_callback_time := last_callback_time s |}.

Definition set_last_callback_time (v : Q) (s : store) : store :=
  {| res := res s; last_charging_state := last_charging_state s;
     last_battery_level := last_battery_level s;
     last_callback_time := v |}.

(** What [psutil.sensors_battery()] does: it returns [None], it returns a
    battery with its [power_plugged] and [percent], or it raises. *)
Inductive reading : Type :=
| Absent
| Battery (power_plugged : option bool) (percent : Z)
| Failure (msg : string).

(** What the worker reads from outside. *)
Record env : Type := {
  (** [self.is_testing] as read at a program point *)
  is_testing : point -> bool;
  (** [psutil.sensors_battery()] before the loop *)
  initial_reading : reading;
  (** [psutil.sensors_battery()] in iteration [check] *)
  reading_at : Z -> reading;
  (** [time.time()] in iteration [check] *)
  time_at : Z -> Q;
  (** the exception the [print] of line 700 raises in iteration [check]:
      its text holds characters outside ASCII, and a [stdout] that cannot
      encode them raises [UnicodeEncodeError]; the other prints of the
      worker are plain ASCII and are taken not to raise *)
  level_print_error : Z -> option string
}.

(** [x != y] on values that are [True], [False] or [None]. *)
Definition differs (x y : option bool) : bool :=
  match x, y with
  | Some a, Some b => negb (Bool.eqb a b)
  | None, None => false
  | _, _ => true
  end.

(** The truth value of [True], [False] or [None]. *)
Definition truthy (x : option bool) : bool :=
  match x with
  | Some b => b
  | None => false
  end.

(** Lines 680-685: the entry built for a change of state. *)
Definition event_for (current_charging : option bool) (current_level : Z)
  : charging_event :=
  {| event := if truthy current_charging then "plugged_in" else "unplugged";
     battery_level := current_level;
     charging_state := current_charging |}.

(** Lines 672-674: read the battery and its two attributes; an attribute
    of [None] raises [AttributeError]. *)
Definition sample (w : env) (check : Z) : M store (option bool * Z) :=
  match reading_at w check with
  | Failure msg => raise msg
  | Absent => raise "'NoneType' object has no attribute 'power_plugged'"
  | Battery plugged percent =>
      emit (LPlugged check) ;;
      emit (LPercent check) ;;
      ret (plugged, percent)
  end.

(** Lines 679-688. *)
Definition detect_state_change (current_charging : option bool)
  (current_level : Z) : M store unit :=
  s <- get ;;
  if differs current_charging (last_charging_state s)
  then
    modify (with_res (append_charging_event
                        (event_for current_charging current_level))) ;;
    modify (set_last_charging_state current_charging)
  else ret tt.

(** Line 700: [print(...)] of the level change. *)
Definition print_level_change (w : env) (check : Z) : M store unit :=
  match level_print_error w check with
  | Some msg => raise msg
  | None => ret tt
  end.

(** Lines 691-701; subtracting [None] raises [TypeError]. *)
Definition track_level_change (w : env) (check : Z)
  (current_charging : option bool) (current_level : Z) : M store unit :=
  s <- get ;;
  match last_battery_level s with
  | None => raise "unsupported operand type(s) for -: 'int' and 'NoneType'"
  | Some last_level =>
      if 1 <=? Z.abs (current_level - last_level)
      then
        modify (with_res (append_level_change
                  {| old_level := last_level;
                     new_level := current_level;
                     change := current_level - last_level;
                     charging := current_charging |})) ;;
        print_level_change w check ;;
        modify (set_last_battery_level (Some current_level))
      else ret tt
  end.

(** Lines 711-715: the callback, at most once a second, on a copy of the
    dictionary. *)
Definition throttled_callback (callback : bool) (current_time : Q)
  : M store unit :=
  s <- get ;;
  if callback && Qle_bool 1 (current_time - last_callback_time s)
  then emit LCallback ;; modify (set_last_callback_time current_time)
  else ret tt.

(** Lines 667-721: the body of the monitoring loop. *)
Definition monitor_step (w : env) (callback : bool) (checks_total : Z)
  (check : Z) : M store ctl :=
  if negb (is_testing w (InLoop 0 check)) then ret Break
  else
    try_except
      (cur <- sample w check ;;
       let current_charging := fst cur in
       let current_level := snd cur in
       let current_time := time_at w check in
       detect_state_change current_charging current_level ;;
       track_level_change w check current_charging current_level ;;
       assign LProgress
         (with_res (set_progress
            (Py.int (Py.truediv (check + 1) checks_total * 100)%Q))) ;;
       modify (with_res (set_current_charging_state current_charging)) ;;
       modify (with_res (set_current_battery_level (Some current_level))) ;;
       throttled_callback callback current_time ;;
       emit (LSleep 2000))
      (fun e =>
         modify (with_res (append_error
                   (String.append "Error during monitoring: " e)))) ;;
    ret Continue.

(** Lines 625-650: look for a battery.  The result says whether the worker
    returns at this point. *)
Definition detect_battery (w : env) (callback : bool) : M store bool :=
  try_except
    (match initial_reading w with
     | Failure msg => raise msg
     | Absent =>
         modify (with_res (append_error
           "No battery detected - this test requires a laptop/device with battery")) ;;
         modify (with_res (set_battery_support false)) ;;
         assign LStatus (with_res (set_status "Completed")) ;;
         assign LProgress (with_res (set_progress 100)) ;;
         emit (LSetTesting false) ;;
         call_back callback ;;
         ret true
     | Battery plugged percent =>
         modify (with_res (set_battery_support true)) ;;
         modify (with_res (set_initial_charging_state plugged)) ;;
         modify (with_res (set_initial_battery_level (Some percent))) ;;
         ret false
     end)
    (fun e =>
       modify (with_res (append_error
                 (String.append "Error detecting battery: " e))) ;;
       modify (with_res (set_battery_support false)) ;;
       assign LStatus (with_res (set_status "Error")) ;;
       emit (LSetTesting false) ;;
       call_back callback ;;
       ret true).

(** [[c for c in changes if c['charging'] and c['change'] > 0]] *)
Definition charging_increases (changes : list level_change)
  : list level_change :=
  filter (fun c => truthy (charging c) && (0 <? change c)) changes.

(** Lines 723-742: the summary. *)
Definition analyze (r : results) : results :=
  let events_detected := Z.of_nat (List.length (charging_events r)) in
  let changes_detected := Z.of_nat (List.length (battery_level_changes r)) in
  let r := set_charging_events_detected (Some events_detected) r in
  let r := set_battery_level_changes_detected (Some changes_detected) r in
  let r :=
    set_charging_port_status
      (Some (if 0 <? events_detected
             then "Working - charging state changes detected"
             else "No changes detected - please plug/unplug charger during test"))
      r in
  set_battery_charging_status
    (Some (if 0 <? changes_detected
           then match charging_increases (battery_level_changes r) with
                | _ :: _ => "Working - battery level increased while charging"
                | [] => "Partial - state changes detected but no charging increase"
                end
           else "No battery level changes detected"))
    r.

(** [monitor_duration = 60], [check_interval = 2] and
    [checks_total = monitor_duration // check_interval]. *)
Definition monitor_duration : Z := 60.
Definition check_interval : Z := 2.
Definition checks_total : Z := monitor_duration / check_interval.

(** Lines 620-760. *)
Definition charging_test_worker (callback : bool) (w : env) : M store unit :=
  try_except
    (returned <- detect_battery w callback ;;
     if (returned : bool) then ret tt
     else
       s <- get ;;
       (if negb (instructions_given (res s))
        then modify (with_res (set_instructions_given true)) ;;
             call_back callback
        else ret tt) ;;
       s <- get ;;
       modify (set_last_charging_state (initial_charging_state (res s))) ;;
       modify (set_last_battery_level (initial_battery_level (res s))) ;;
       modify (set_last_callback_time 0%Q) ;;
       for_each (Py.range checks_total)
                (monitor_step w callback checks_total) ;;
       modify (with_res analyze) ;;
       assign LProgress (with_res (set_progress 100)) ;;
       assign LStatus
         (with_res (set_status
                      (if is_testing w AtEnd then "Completed" else "Stopped"))) ;;
       emit (LSetTesting false) ;;
       call_back callback)
    (fun e =>
       modify (with_res (set_error (Some e))) ;;
       assign LStatus (with_res (set_status "Error")) ;;
       emit (LSetTesting false) ;;
       call_back callback).

(** Lines 606-618: the dictionary [charging_test] builds; the locals are
    given their values before they are read. *)
Definition initial : store :=
  {| res := {| battery_support := false;
               initial_charging_state := None;
               initial_battery_level := None;
               charging_events := [];
               battery_level_changes := [];
               status := "Running";
               progress := 0;
               errors := [];
               instructions_given := false;
               current_charging_state := None;
               current_battery_level := None;
               charging_events_detected := None;
               battery_level_changes_detected := None;
               charging_port_status := None;
               battery_charging_status := None;
               error := None |};
     last_charging_state := None;
     last_battery_level := None;
     last_callback_time := 0%Q |}.

Definition charging_test (callback : bool) (w : env)
  : state store * result unit :=
  run (charging_test_worker callback w) initial.

(** Neither the list of events nor the recorded state has changed. *)
Definition same_events (s s' : store) : Prop :=
  charging_events (res s') = charging_events (res s) /\
  last_charging_state s' = last_charging_state s.

(** The labels of the polling proper: the two attribute reads and the
    sleep. *)
Definition polling (l : label) : bool :=
  match l with
  | LPlugged _ | LPercent _ | LSleep _ => true
  | _ => false
  end.

Definition is_sleep (l : label) : bool :=
  match l with
  | LSleep _ => true
  | _ => false
  end.

(** What iteration [check] contributes to the polling: both reads and the
    two-second sleep when the battery could be read, nothing when it could
    not. *)
Definition poll_labels (w : env) (check : Z) : list label :=
  match reading_at w check with
  | Battery _ _ => [LPlugged check; LPercent check; LSleep 2000]
  | _ => []
  end.

(** What iteration [check] appends to [results['errors']]: nothing when
    the battery could be read, one message when it could not. *)
Definition poll_errors (w : env) (check : Z) : list string :=
  match reading_at w check with
  | Battery _ _ => []
  | Absent =>
      [String.append "Error during monitoring: "
         "'NoneType' object has no attribute 'power_plugged'"]
  | Failure msg => [String.append "Error during monitoring: " msg]
  end.

(** A laptop on mains power at 80%, read every two seconds; nobody presses
    Stop. *)
Definition steady : env :=
  {| is_testing := fun _ => true;
     initial_reading := Battery (Some true) 80;
     reading_at := fun _ => Battery (Some true) 80;
     time_at := fun check => inject_Z (1000 + 2 * check);
     level_print_error := fun _ => None |}.

(** The same laptop, except that the fourth sample alone sees the charger
    unplugged. *)
Definition flicker : env :=
  {| is_testing := fun _ => true;
     initial_reading := Battery (Some true) 80;
     reading_at := fun check => Battery (Some (negb (check =? 3))) 80;
     time_at := fun check => inject_Z (1000 + 2 * check);
     level_print_error := fun _ => None |}.

(** The same laptop, except that psutil finds no battery in the sixth
    iteration. *)
Definition battery_lost_once : env :=
  {| is_testing := fun _ => true;
     initial_reading := Battery (Some true) 80;
     reading_at := fun check =>
       if check =? 5 then Absent else Battery (Some true) 80;
     time_at := fun check => inject_Z (1000 + 2 * check);
     level_print_error := fun _ => None |}.

(** The store of [steady] and its like when the loop is entered. *)
Definition monitoring : store :=
  set_last_battery_level (Some 80)
    (set_last_charging_state (Some true)
       (with_res (set_instructions_given true)
          (with_res (set_initial_battery_level (Some 80))
             (with_res (set_initial_charging_state (Some true))
                (with_res (set_battery_support true) initial))))).

(** A desktop: there is no battery. *)
Definition no_battery : env :=
  {| is_testing := fun _ => true;
     initial_reading := Absent;
     reading_at := fun _ => Absent;
     time_at := fun check => inject_Z (1000 + 2 * check);
     level_print_error := fun _ => None |}.

End ChargingTest.

(** ** [UpdateChecker] (update_manager.py, lines 22-131) *)

Module UpdateManager.

(** What [response.json()] returns.  Numbers are integers here. *)
#[warnings="-register-all"]
Inductive json : Type :=
| JNull
| JBool (b : bool)
| JNum (n : Z)
| JStr (s : string)
| JList (l : list json)
| JDict (d : list (string * json)).

(** The name Python gives the type of a value in its messages. *)
Definition type_name (v : json) : string :=
  match v with
  | JNull => "NoneType"
  | JBool _ => "bool"
  | JNum _ => "int"
  | JStr _ => "str"
  | JList _ => "list"
  | JDict _ => "dict"
  end.

(** The exception classes the handlers of [run] tell apart, an exception
    being filed under the most specific of them:
    [requests.exceptions.ConnectionError]; [ConnectTimeout], which requests
    declares as [class ConnectTimeout(ConnectionError, Timeout)] and which
    is therefore both; [Timeout] for the timeouts that are no
    [ConnectionError] ([ReadTimeout]); any other [RequestException]; any
    other [Exception]. *)
Inductive exc_class : Type :=
| ConnectionError
| ConnectTimeout
| Timeout
| RequestException
| OtherException.

(** An exception with its [str(e)]. *)
Record exn : Type := {
  exc : exc_class;
  message : string
}.

(** [isinstance(e, requests.exceptions.RequestException)] *)
Definition is_request_exception (e : exn) : bool :=
  match exc e with
  | OtherException => false
  | _ => true
  end.

(** [isinstance(e, requests.exceptions.ConnectionError)] *)
Definition is_connection_error (e : exn) : bool :=
  match exc e with
  | ConnectionError | ConnectTimeout => true
  | _ => false
  end.

(** [isinstance(e, requests.exceptions.Timeout)] *)
Definition is_timeout (e : exn) : bool :=
  match exc e with
  | Timeout | ConnectTimeout => true
  | _ => false
  end.

Inductive outcome (A : Type) : Type :=
| Ok (a : A)
| Raise (e : exn).
Arguments Ok {A} a.
Arguments Raise {A} e.

Definition and_then {A B} (o : outcome A) (k : A -> outcome B) : outcome B :=
  match o with
  | Ok a => k a
  | Raise e => Raise e
  end.

Declare Scope outcome_scope.
Delimit Scope outcome_scope with outcome.
Notation "x <- o ;; k" := (and_then o (fun x => k))
  (at level 61, o at next level, right associativity) : outcome_scope.

Definition attribute_error (v : json) (attribute : string) : exn :=
  {| exc := OtherException;
     message := String.append "'"
                  (String.append (type_name v)
                     (String.append "' object has no attribute '"
                        (String.append attribute "'"))) |}.

Definition not_iterable (v : json) : exn :=
  {| exc := OtherException;
     message := String.append "'"
                  (String.append (type_name v) "' object is not iterable") |}.

(** The first binding of [key] in a dictionary. *)
Fixpoint lookup (key : string) (d : list (string * json)) : option json :=
  match d with
  | [] => None
  | (k, v) :: d' => if String.eqb k key then Some v else lookup key d'
  end.

(** [v.get(key, default)] *)
Definition py_get (v : json) (key : string) (default : json) : outcome json :=
  match v with
  | JDict d =>
      Ok (match lookup key d with Some x => x | None => default end)
  | _ => Raise (attribute_error v "get")
  end.

(** [s.lstrip('v')] on a string. *)
Fixpoint lstrip_v (s : string) : string :=
  match s with
  | String "v"%char s' => lstrip_v s'
  | _ => s
  end.

(** [v.lstrip('v')] *)
Definition py_lstrip_v (v : json) : outcome string :=
  match v with
  | JStr s => Ok (lstrip_v s)
  | _ => Raise (attribute_error v "lstrip")
  end.

(** [c.lower()] on a character, for the letters of ASCII. *)
Definition lower_char (c : ascii) : ascii :=
  let n := nat_of_ascii c in
  if ((65 <=? n) && (n <=? 90))%nat then ascii_of_nat (n + 32) else c.

Fixpoint lower (s : string) : string :=
  match s with
  | EmptyString => EmptyString
  | String c s' => String (lower_char c) (lower s')
  end.

(** [v.lower()] *)
Definition py_lower (v : json) : outcome string :=
  match v with
  | JStr s => Ok (lower s)
  | _ => Raise (attribute_error v "lower")
  end.

(** [sub in s] on strings. *)
Fixpoint contains (sub s : string) : bool :=
  String.prefix sub s ||
  match s with
  | EmptyString => false
  | String _ s' => contains sub s'
  end.

Fixpoint characters (s : string) : list json :=
  match s with
  | EmptyString => []
  | String c s' => JStr (String c EmptyString) :: characters s'
  end.

(** The values [for x in v] goes through. *)
Definition py_iter (v : json) : outcome (list json) :=
  match v with
  | JList l => Ok l
  | JStr s => Ok (characters s)
  | JDict d => Ok (map (fun kv => JStr (fst kv)) d)
  | _ => Raise (not_iterable v)
  end.

(** [any(ext in name for ext in ['.exe', '.zip', 'windows', 'win'])] *)
Definition windows_asset (name : string) : bool :=
  existsb (fun ext => contains ext name) [".exe"; ".zip"; "windows"; "win"].

(** The loop of [_get_download_url] and of [_get_download_size]: the value
    under [key] of the first asset with a Windows name, or [fallback]. *)
Fixpoint first_windows_asset (assets : list json) (key : string)
  (default : json) (fallback : outcome json) : outcome json :=
  match assets with
  | [] => fallback
  | asset :: rest =>
      (name <- py_get asset "name" (JStr "") ;;
       name <- py_lower name ;;
       if windows_asset name
       then py_get asset key default
       else first_windows_asset rest key default fallback)%outcome
  end.

(** Lines 111-122. *)
Definition get_download_url (release_data : json) : outcome json :=
  (assets <- py_get release_data "assets" (JList []) ;;
   assets <- py_iter assets ;;
   first_windows_asset assets "browser_download_url" JNull
     (py_get release_data "zipball_url" JNull))%outcome.

(** Lines 124-131. *)
Definition get_download_size (release_data : json) : outcome json :=
  (assets <- py_get release_data "assets" (JList []) ;;
   assets <- py_iter assets ;;
   first_windows_asset assets "size" (JNum 0) (Ok (JNum 0)))%outcome.

(** The dictionary sent with [update_available]. *)
Record update_info : Type := {
  info_version : string;
  info_name : json;
  info_body : json;
  info_published_at : json;
  info_download_url : json;
  info_size : json
}.

(** Lines 75-82. *)
Definition make_update_info (release_data : json) (latest_version : string)
  : outcome update_info :=
  (name <- py_get release_data "name"
             (JStr (String.append "Version " latest_version)) ;;
   body <- py_get release_data "body" (JStr "No release notes available") ;;
   published_at <- py_get release_data "published_at" (JStr "") ;;
   download_url <- get_download_url release_data ;;
   size <- get_download_size release_data ;;
   Ok {| info_version := latest_version; info_name := name;
         info_body := body; info_published_at := published_at;
         info_download_url := download_url; info_size := size |})%outcome.

(** The three signals of [UpdateChecker]. *)
Inductive signal : Type :=
| update_available (info : update_info)
| update_not_available
| error_occurred (msg : string).

Definition is_update (s : signal) : bool :=
  match s with
  | error_occurred _ => false
  | _ => true
  end.

(** What [requests.get(url, ...)] does: it returns a response, with its
    [status_code] and what its [json()] would return or raise, or it
    raises. *)
Inductive reply : Type :=
| Response (status_code : Z) (body : outcome json)
| Failed (e : exn).

(** The network. *)
Record env : Type := {
  requests_get : string -> reply
}.

(** The part of [packaging.version] that [run] uses: [parse], which may
    raise [InvalidVersion], and [>] on versions.  The library is not part
    of the program; the model takes it as given. *)
Record packaging : Type := {
  version : Type;
  parse : string -> outcome version;
  gt : version -> version -> bool
}.

Record checker : Type := {
  current_version : string;
  github_repo : string
}.

(** Line 32. *)
Definition github_api_url (self : checker) : string :=
  String.append "https://api.github.com/repos/"
    (String.append (github_repo self) "/releases/latest").

(** Lines 94-99. *)
Definition test_urls : list string :=
  ["https://www.google.com"; "https://www.cloudflare.com";
   "https://httpbin.org/get"; "https://api.github.com"].

(** Lines 101-109: the first address that answers 200 settles it; a
    [RequestException] moves on to the next address, any other exception
    goes up. *)
Fixpoint first_answering (w : env) (urls : list string) : outcome bool :=
  match urls with
  | [] => Ok false
  | url :: rest =>
      match requests_get w url with
      | Response status_code _ =>
          if status_code =? 200 then Ok true else first_answering w rest
      | Failed e =>
          if is_request_exception e then first_answering w rest else Raise e
      end
  end.

Definition test_internet_connection (w : env) : outcome bool :=
  first_answering w test_urls.

(** [str(n)] on an integer. *)
Definition str (n : Z) : string := NilZero.string_of_int (Z.to_int n).

(** The emissions made so far are the state of [run]. *)
Definition M (A : Type) : Type := list signal -> list signal * outcome A.

Definition ret {A} (a : A) : M A := fun emitted => (emitted, Ok a).

Definition bind {A B} (m : M A) (k : A -> M B) : M B :=
  fun emitted =>
    match m emitted with
    | (emitted', Ok a) => k a emitted'
    | (emitted', Raise e) => (emitted', Raise e)
    end.

Definition lift {A} (o : outcome A) : M A := fun emitted => (emitted, o).

(** [signal.emit(...)] *)
Definition emit (s : signal) : M unit :=
  fun emitted => (emitted ++ [s], Ok tt).

(** [try: m except Exception as e: h e] *)
Definition try_except {A} (m : M A) (h : exn -> M A) : M A :=
  fun emitted =>
    match m emitted with
    | (emitted', Ok a) => (emitted', Ok a)
    | (emitted', Raise e) => h e emitted'
    end.

Declare Scope run_scope.
Delimit Scope run_scope with run.
Notation "x <- m ;; k" := (bind m (fun x => k))
  (at level 61, m at next level, right associativity) : run_scope.

(** Lines 72-87. *)
Definition compare_versions (pk : packaging) (self : checker)
  (release_data : json) (latest_version : string) : M unit :=
  try_except
    (latest <- lift (parse pk latest_version) ;;
     current <- lift (parse pk (current_version self)) ;;
     if gt pk latest current
     then info <- lift (make_update_info release_data latest_version) ;;
          emit (update_available info)
     else emit update_not_available)%run
    (fun e =>
       emit (error_occurred
               (String.append "Version comparison error: " (message e)))).

(** Lines 65-87: what follows a response with status 200. *)
Definition read_release (pk : packaging) (self : checker)
  (body : outcome json) : M unit :=
  (release_data <- lift body ;;
   tag_name <- lift (py_get release_data "tag_name" (JStr "")) ;;
   latest_version <- lift (py_lstrip_v tag_name) ;;
   if String.eqb latest_version ""
   then emit (error_occurred "Invalid version information from GitHub")
   else compare_versions pk self release_data latest_version)%run.

(** Lines 44-63, and then [read_release]. *)
Definition query_github (pk : packaging) (self : checker) (w : env)
  : M unit :=
  match requests_get w (github_api_url self) with
  | Response status_code body =>
      if status_code =? 404 then
        emit (error_occurred
                "Repository not found - please check the repository URL")
      else if status_code =? 403 then
        emit (error_occurred
                "API rate limit exceeded - please try again later")
      else if negb (status_code =? 200) then
        emit (error_occurred
                (String.append "GitHub API error: HTTP " (str status_code)))
      else read_release pk self body
  | Failed e =>
      (* the handlers of lines 55, 58 and 61, tried in this order *)
      if is_connection_error e then
        emit (error_occurred "No internet connection")
      else if is_timeout e then
        emit (error_occurred "GitHub API timeout - please try again")
      else if is_request_exception e then
        emit (error_occurred
                (String.append "Failed to connect to GitHub: " (message e)))
      else lift (Raise e)
  end.

(** Lines 34-90.  Each [return] of the source ends a branch here. *)
Definition run_body (pk : packaging) (self : checker) (w : env) : M unit :=
  try_except
    (connection_available <- lift (test_internet_connection w) ;;
     if negb connection_available
     then emit (error_occurred "No internet connection")
     else query_github pk self w)%run
    (fun e =>
       emit (error_occurred
               (String.append "Unexpected error: " (message e)))).

(** The signals one execution of [UpdateChecker.run] emits, in order. *)
Definition run (pk : packaging) (self : checker) (w : env) : list signal :=
  fst (run_body pk self w []).

(** [m] emits exactly one signal, or raises before it emits any. *)
Definition one_signal_or_raise (m : M unit) : Prop :=
  forall emitted,
    (exists s, m emitted = (emitted ++ [s], Ok tt)) \/
    (exists e, m emitted = (emitted, Raise e)).

(** [m] emits exactly one signal. *)
Definition one_signal (m : M unit) : Prop :=
  forall emitted, exists s, m emitted = (emitted ++ [s], Ok tt).

(** *** Plain release numbers

    An instance of [packaging] for the examples: versions that are
    dot-separated decimal numbers, compared number by number with missing
    numbers read as zero; everything else is an invalid version. *)

(** The number a string of digits denotes. *)
Fixpoint digits (s : string) (acc : N) : option N :=
  match s with
  | EmptyString => Some acc
  | String c s' =>
      let n := N_of_ascii c in
      if ((48 <=? n) && (n <=? 57))%N
      then digits s' (10 * acc + (n - 48))%N
      else None
  end.

Definition number (s : string) : option N :=
  match s with
  | EmptyString => None
  | _ => digits s 0%N
  end.

(** [s.split('.')] *)
Fixpoint split_dots (s : string) (current : string) : list string :=
  match s with
  | EmptyString => [current]
  | String "."%char s' => current :: split_dots s' EmptyString
  | String c s' => split_dots s' (String.append current (String c EmptyString))
  end.

Fixpoint numbers (parts : list string) : option (list N) :=
  match parts with
  | [] => Some []
  | p :: rest =>
      match number p, numbers rest with
      | Some n, Some ns => Some (n :: ns)
      | _, _ => None
      end
  end.

Definition parse_release (s : string) : outcome (list N) :=
  match numbers (split_dots s EmptyString) with
  | Some ns => Ok ns
  | None =>
      Raise {| exc := OtherException;
               message := String.append "Invalid version: '"
                            (String.append s "'") |}
  end.

Fixpoint release_gt (a b : list N) : bool :=
  match a, b with
  | [], _ => false
  | x :: a', [] => (0 <? x)%N || release_gt a' []
  | x :: a', y :: b' =>
      (y <? x)%N || ((x =? y)%N && release_gt a' b')
  end.

Definition plain_releases : packaging :=
  {| version := list N; parse := parse_release; gt := release_gt |}.

(** The program's own checker, at version 1.2.0. *)
Definition pc_checker : checker :=
  {| current_version := "1.2.0"; github_repo := "bibekchandsah/pc-checker" |}.

(** A network on which every address answers 200 and the releases API
    answers with [release]. *)
Definition online (release : json) : env :=
  {| requests_get := fun url =>
       if String.eqb url (github_api_url pc_checker)
       then Response 200 (Ok release)
       else Response 200 (Ok JNull) |}.

(** The same network with another status from the releases API. *)
Definition answering (status_code : Z) : env :=
  {| requests_get := fun url =>
       if String.eqb url (github_api_url pc_checker)
       then Response status_code (Ok JNull)
       else Response 200 (Ok JNull) |}.

(** No network at all. *)
Definition offline : env :=
  {| requests_get := fun _ =>
       Failed {| exc := ConnectionError; message := "Network is unreachable" |} |}.

End UpdateManager.

(** ** [UpdateManager] and [UpdateDownloader] (update_manager.py, lines
    133-480) *)

Module UpdateFlow.
Import UpdateManager.

(** [s.endswith(suffix)] on strings. *)
Fixpoint ends_with (suffix s : string) : bool :=
  String.eqb suffix s ||
  match s with
  | EmptyString => false
  | String _ s' => ends_with suffix s'
  end.

(** [v.endswith(suffix)] *)
Definition py_endswith (v : json) (suffix : string) : outcome bool :=
  match v with
  | JStr s => Ok (ends_with suffix s)
  | _ => Raise (attribute_error v "endswith")
  end.

(** The truth value of [v]. *)
Definition truthy (v : json) : bool :=
  match v with
  | JNull => false
  | JBool b => b
  | JNum n => negb (n =? 0)
  | JStr s => negb (String.eqb s "")
  | JList l => match l with [] => false | _ => true end
  | JDict d => match d with [] => false | _ => true end
  end.

(** What [_download_update] does: it warns that there is no download
    address, or it starts an [UpdateDownloader] on an address under a file
    name. *)
Inductive download_action : Type :=
| NoDownloadUrl
| StartDownload (download_url : json) (file_name : string).

(** Lines 311-340.  The address is used as it is; [endswith] raises on a
    value that is not a string. *)
Definition download_update (info : update_info) : outcome download_action :=
  if negb (truthy (info_download_url info)) then Ok NoDownloadUrl
  else
    (is_exe <- py_endswith (info_download_url info) ".exe" ;;
     let file_name :=
       if (is_exe : bool)
       then String.append "pc-checker-" (String.append (info_version info) ".exe")
       else String.append "pc-checker-" (String.append (info_version info) ".zip")
     in
     Ok (StartDownload (info_download_url info) file_name))%outcome.

(** The three ways of [_install_update]: start the installer and quit,
    unpack the archive, or open the folder for a manual installation. *)
Inductive install_action : Type :=
| RunInstaller
| InstallFromZip
| ManualInstallation.

(** Lines 386-401: the branch [_install_update] takes. *)
Definition install_update (file_path : string) : install_action :=
  if ends_with ".exe" file_path then RunInstaller
  else if ends_with ".zip" file_path then InstallFromZip
  else ManualInstallation.

(** The two flags [_on_update_error] and [_on_no_update] look at:
    [hasattr(self.parent, 'status_label')] and
    [self.show_no_update_message]. *)
Record manager : Type := {
  has_status_label : bool;
  show_no_update_message : bool
}.

(** What a handler shows: the text of the status label and the text of
    the message box, when it sets them. *)
Record shown : Type := {
  status_text : option string;
  dialog_text : option string
}.

(** Two line feeds. *)
Definition blank_line : string :=
  String "010"%char (String "010"%char EmptyString).

(** Lines 276-285. *)
Definition error_status (error_message : string) : string :=
  if contains "No internet connection" error_message
  then "No internet connection"
  else if contains "timeout" (lower error_message)
  then "Connection timeout"
  else if contains "rate limit" (lower error_message)
  then "API rate limit exceeded"
  else "Update check failed".

(** Lines 292-302. *)
Definition error_dialog (error_message : string) : string :=
  if contains "No internet connection" error_message
  then String.append "Unable to check for updates."
         (String.append blank_line
            "Please check your internet connection and try again.")
  else if contains "timeout" (lower error_message)
  then String.append "Update check timed out."
         (String.append blank_line
            "Please check your internet connection and try again.")
  else if contains "rate limit" (lower error_message)
  then String.append "GitHub API rate limit exceeded."
         (String.append blank_line "Please try again in a few minutes.")
  else if contains "Repository not found" error_message
  then String.append "Repository not found."
         (String.append blank_line
            "The update source may have moved or be unavailable.")
  else String.append "Failed to check for updates:"
         (String.append blank_line error_message).

(** Lines 274-309. *)
Definition on_update_error (self : manager) (error_message : string)
  : shown :=
  {| status_text :=
       if has_status_label self then Some (error_status error_message)
       else None;
     dialog_text :=
       if show_no_update_message self then Some (error_dialog error_message)
       else None |}.

(** What the slot connected to a signal of [UpdateChecker] shows; an
    available update opens a dialog of its own, which is not modelled. *)
Definition on_signal (self : manager) (s : signal) : option shown :=
  match s with
  | error_occurred msg => Some (on_update_error self msg)
  | _ => None
  end.


(** *** The reminder file *)

(** [v[key]] on what [json.load] returned. *)
Definition py_item (v : json) (key : string) : outcome json :=
  match v with
  | JDict d =>
      match lookup key d with
      | Some x => Ok x
      | None =>
          Raise {| exc := OtherException;
                   message := String.append "'" (String.append key "'") |}
      end
  | _ =>
      Raise {| exc := OtherException;
               message := String.append "'"
                            (String.append (type_name v)
                               "' object is not subscriptable") |}
  end.

(** [pkg_version.parse(v)]: only a string is parsed. *)
Definition parse_value (pk : packaging) (v : json) : outcome (version pk) :=
  match v with
  | JStr s => parse pk s
  | _ =>
      Raise {| exc := OtherException;
               message := "expected string or bytes-like object" |}
  end.

(** The dictionary [update_available] carries. *)
Definition info_dict (info : update_info) : json :=
  JDict [("version", JStr (info_version info));
         ("name", info_name info);
         ("body", info_body info);
         ("published_at", info_published_at info);
         ("download_url", info_download_url info);
         ("size", info_size info)].

(** The file [update_reminder.json]: absent, or there with what
    [json.load] makes of it, which may be an exception. *)
Definition reminder_file : Type := option (outcome json).

(** Lines 443-457.  [opened] says whether the file could be opened for
    writing; [json.dump] followed by [json.load] gives the data back. *)
Definition set_update_reminder (info : update_info) (reminder_date : string)
  (opened : bool) (file : reminder_file) : reminder_file :=
  if opened
  then Some (Ok (JDict [("version", JStr (info_version info));
                        ("reminder_date", JStr reminder_date);
                        ("update_info", info_dict info)]))
  else file.

(** The comparison of line 468. *)
Definition reminder_is_newer (pk : packaging) (self : checker)
  (reminder_data : json) : outcome bool :=
  (v <- py_item reminder_data "version" ;;
   reminder <- parse_value pk v ;;
   current <- parse pk (current_version self) ;;
   Ok (gt pk reminder current))%outcome.

(** Lines 459-476: the file afterwards, and the dictionary the reminder
    dialog is shown for three seconds later, if one is.  [removable] says
    whether [os.remove] succeeds.  Every exception is printed and
    dropped. *)
Definition check_update_reminder (pk : packaging) (self : checker)
  (removable : bool) (file : reminder_file)
  : reminder_file * option (outcome json) :=
  match file with
  | None => (file, None)
  | Some (Raise _) => (file, None)
  | Some (Ok reminder_data) =>
      match reminder_is_newer pk self reminder_data with
      | Ok true => (file, Some (py_item reminder_data "update_info"))
      | Ok false => (if removable then None else file, None)
      | Raise _ => (file, None)
      end
  end.

(** *** [UpdateDownloader] *)

(** The three signals of [UpdateDownloader]. *)
Inductive download_signal : Type :=
| download_progress (current total : Z)
| download_completed (file_path : string)
| download_failed (error_message : string).

(** What [response.iter_content] yields next: a chunk of bytes, or an
    exception that ends the stream. *)
Inductive stream_item : Type :=
| Chunk (data : list Byte.byte)
| Broken (e : exn).

(** What the download reads from outside. *)
Record download_env : Type := {
  (** an exception raised by [requests.get] *)
  get_error : option exn;
  (** the exception [raise_for_status] raises for a 4xx or 5xx answer *)
  status_error : option exn;
  (** [int(response.headers.get('content-length', 0))], or the exception
      of [int] *)
  content_length : outcome Z;
  (** an exception raised by [open(self.download_path, 'wb')] *)
  open_error : option exn;
  (** the stream of [response.iter_content(chunk_size=8192)] *)
  stream : list stream_item;
  (** an exception raised by the [k]-th [file.write] *)
  write_error : nat -> option exn
}.

(** Lines 155-159: the loop over the chunks.  [written] counts the calls of
    [file.write] so far.  The result is the [download_progress] signals
    emitted and the exception that ended the loop, if one did. *)
Fixpoint receive (w : download_env) (items : list stream_item)
  (written : nat) (downloaded_size total_size : Z)
  : list download_signal * option exn :=
  match items with
  | [] => ([], None)
  | Broken e :: _ => ([], Some e)
  | Chunk data :: rest =>
      match data with
      | [] => receive w rest written downloaded_size total_size
      | _ :: _ =>
          match write_error w written with
          | Some e => ([], Some e)
          | None =>
              let downloaded_size :=
                downloaded_size + Z.of_nat (List.length data) in
              let (signals, ended) :=
                receive w rest (S written) downloaded_size total_size in
              (download_progress downloaded_size total_size :: signals, ended)
          end
      end
  end.

(** Lines 145-164: the signals one execution of [UpdateDownloader.run]
    emits, in order. *)
Definition download (download_path : string) (w : download_env)
  : list download_signal :=
  match get_error w with
  | Some e => [download_failed (message e)]
  | None =>
      match status_error w with
      | Some e => [download_failed (message e)]
      | None =>
          match content_length w with
          | Raise e => [download_failed (message e)]
          | Ok total_size =>
              match open_error w with
              | Some e => [download_failed (message e)]
              | None =>
                  let (signals, ended) :=
                    receive w (stream w) 0 0 total_size in
                  match ended with
                  | Some e => signals ++ [download_failed (message e)]
                  | None => signals ++ [download_completed download_path]
                  end
              end
          end
      end
  end.

(** The bytes of the chunks of a stream. *)
Fixpoint stream_size (items : list stream_item) : Z :=
  match items with
  | [] => 0
  | Chunk data :: rest => Z.of_nat (List.length data) + stream_size rest
  | Broken _ :: _ => 0
  end.

(** The [current] of each [download_progress] among the signals. *)
Fixpoint currents (signals : list download_signal) : list Z :=
  match signals with
  | [] => []
  | download_progress current _ :: rest => current :: currents rest
  | _ :: rest => currents rest
  end.


(** Each number is at least [lo] and the numbers go up strictly. *)
Fixpoint increasing_from (lo : Z) (l : list Z) : Prop :=
  match l with
  | [] => True
  | x :: rest => lo < x /\ increasing_from x rest
  end.


(** The address [url] answers 200. *)
Definition answers_200 (w : env) (url : string) : Prop :=
  exists body, requests_get w url = Response 200 body.

(** The connectivity test goes on to the next address after [url]: the
    answer is not 200, or the request raised a [RequestException]. *)
Definition passes_over (w : env) (url : string) : Prop :=
  (exists status body,
      requests_get w url = Response status body /\ status <> 200) \/
  (exists e, requests_get w url = Failed e /\ is_request_exception e = true).

(** The request to [url] raises [e], which is no [RequestException]. *)
Definition breaks_at (w : env) (url : string) (e : exn) : Prop :=
  requests_get w url = Failed e /\ is_request_exception e = false.


(** What [_on_update_error] shows when it has a status label and a message
    box to show it in. *)
Definition shows (self : manager) (status dialog : string) : shown :=
  {| status_text := if has_status_label self then Some status else None;
     dialog_text := if show_no_update_message self then Some dialog else None |}.

(** A network on which the releases API does not answer in time. *)
Definition timing_out : env :=
  {| requests_get := fun url =>
       if String.eqb url (github_api_url pc_checker)
       then Failed {| exc := Timeout; message := "Read timed out." |}
       else Response 200 (Ok JNull) |}.

(** A network on which the releases API cannot be connected to in time. *)
Definition connect_timing_out : env :=
  {| requests_get := fun url =>
       if String.eqb url (github_api_url pc_checker)
       then Failed {| exc := ConnectTimeout;
                      message := "Connection to api.github.com timed out." |}
       else Response 200 (Ok JNull) |}.

(** A network on which the releases API answers 200 with a body that is not
    JSON. *)
Definition garbled : env :=
  {| requests_get := fun url =>
       if String.eqb url (github_api_url pc_checker)
       then Response 200
              (Raise {| exc := OtherException;
                        message := "Expecting value: line 1 column 1 (char 0)" |})
       else Response 200 (Ok JNull) |}.

(** A release with a source archive, a macOS build and a Windows installer,
    in this order. *)
Definition three_assets : json :=
  JDict [("tag_name", JStr "v1.3.0");
         ("zipball_url", JStr "https://api.github.com/zipball/v1.3.0");
         ("assets",
          JList [JDict [("name", JStr "source.tar.gz");
                        ("browser_download_url", JStr "https://dl/source.tar.gz");
                        ("size", JNum 10)];
                 JDict [("name", JStr "PC-Checker-Darwin.dmg");
                        ("browser_download_url", JStr "https://dl/PC-Checker-Darwin.dmg");
                        ("size", JNum 20)];
                 JDict [("name", JStr "PC-Checker-Setup.exe");
                        ("browser_download_url", JStr "https://dl/PC-Checker-Setup.exe");
                        ("size", JNum 30)]])].

(** A release whose macOS build comes before its Windows installer. *)
Definition mac_build_first : json :=
  JDict [("assets",
          JList [JDict [("name", JStr "PC-Checker-Darwin.dmg");
                        ("browser_download_url", JStr "https://dl/mac")];
                 JDict [("name", JStr "PC-Checker-Setup.exe");
                        ("browser_download_url", JStr "https://dl/windows")]])].

(** What [run] sends for [three_assets]. *)
Definition newer_release_info : update_info :=
  {| info_version := "1.3.0";
     info_name := JStr "Version 1.3.0";
     info_body := JStr "No release notes available";
     info_published_at := JStr "";
     info_download_url := JStr "https://dl/PC-Checker-Darwin.dmg";
     info_size := JNum 20 |}.

(** Every call of [file.write] succeeds and the stream does not break. *)
Definition undisturbed (w : download_env) : Prop :=
  get_error w = None /\ status_error w = None /\ open_error w = None /\
  (forall k, write_error w k = None) /\
  (forall e, ~ In (Broken e) (stream w)).


Definition is_download_progress (s : download_signal) : bool :=
  match s with
  | download_progress _ _ => true
  | _ => false
  end.

Definition is_chunk (item : stream_item) : bool :=
  match item with
  | Chunk _ => true
  | Broken _ => false
  end.

(** A server that sends three chunks, the second of them empty, with the
    right length in its header. *)
Definition three_chunks : download_env :=
  {| get_error := None;
     status_error := None;
     content_length := Ok 5;
     open_error := None;
     stream := [Chunk [Byte.x50; Byte.x4b]; Chunk [];
                Chunk [Byte.x03; Byte.x04; Byte.x00]];
     write_error := fun _ => None |}.

End UpdateFlow.

(** ** [SystemTests.network_speed_test] (system_tests.py, lines 315-380) *)

Module NetworkTest.
Import Worker.
Local Open Scope worker_scope.

(** The [results] dictionary; ['error'] is there only once the handler
    has run; the time stamps are left out.  The description of a server
    is a dictionary of the library, kept as a list of pairs; it is empty
    at the start. *)
Record results : Type := {
  download_mbps : Q;
  upload_mbps : Q;
  ping_ms : Q;
  server_info : list (string * string);
  status : string;
  error : option string
}.

Definition set_download_mbps (v : Q) (r : results) : results :=
  {| download_mbps := v; upload_mbps := upload_mbps r; ping_ms := ping_ms r;
     server_info := server_info r; status := status r; error := error r |}.

Definition set_upload_mbps (v : Q) (r : results) : results :=
  {| download_mbps := download_mbps r; upload_mbps := v; ping_ms := ping_ms r;
     server_info := server_info r; status := status r; error := error r |}.

Definition set_ping_ms (v : Q) (r : results) : results :=
  {| download_mbps := download_mbps r; upload_mbps := upload_mbps r;
     ping_ms := v; server_info := server_info r; status := status r;
     error := error r |}.

Definition set_server_info (v : list (string * string)) (r : results)
  : results :=
  {| download_mbps := download_mbps r; upload_mbps := upload_mbps r;
     ping_ms := ping_ms r; server_info := v; status := status r;
     error := error r |}.

Definition set_status (v : string) (r : results) : results :=
  {| download_mbps := download_mbps r; upload_mbps := upload_mbps r;
     ping_ms := ping_ms r; server_info := server_info r; status := v;
     error := error r |}.

Definition set_error (v : string) (r : results) : results :=
  {| download_mbps := download_mbps r; upload_mbps := upload_mbps r;
     ping_ms := ping_ms r; server_info := server_info r; status := status r;
     error := Some v |}.

(** What the worker reads from outside. *)
Record env : Type := {
  (** [self.is_testing] as read at a program point *)
  is_testing : point -> bool;
  (** an exception raised by [import speedtest] or [speedtest.Speedtest()] *)
  speedtest_error : option string;
  (** [st.get_best_server()], and [st.results.server] after it *)
  best_server : result (list (string * string));
  (** [st.download()], in bits per second *)
  download : result Q;
  (** [st.upload()], in bits per second *)
  upload : result Q;
  (** [st.results.ping] *)
  ping : Q
}.

(** An outside operation that returns nothing but may raise. *)
Definition attempt (e : option string) : M results unit :=
  match e with
  | Some msg => raise msg
  | None => ret tt
  end.

(** [if callback: results['status'] = v; callback(results)] *)
Definition announce (callback : bool) (v : string) : M results unit :=
  if callback
  then assign LStatus (set_status v) ;; emit LCallback
  else ret tt.

(** Lines 329-374. *)
Definition network_test_worker (callback : bool) (w : env) : M results unit :=
  try_except
    (attempt (speedtest_error w) ;;
     announce callback "Finding best server..." ;;
     server <- lift (best_server w) ;;
     modify (set_server_info server) ;;
     announce callback "Testing download speed..." ;;
     download_speed <- lift (download w) ;;
     modify (set_download_mbps (download_speed / 1000000)%Q) ;;
     announce callback "Testing upload speed..." ;;
     upload_speed <- lift (upload w) ;;
     modify (set_upload_mbps (upload_speed / 1000000)%Q) ;;
     modify (set_ping_ms (ping w)) ;;
     assign LStatus
       (set_status (if is_testing w AtEnd then "Completed" else "Stopped")) ;;
     emit (LSetTesting false) ;;
     call_back callback)
    (fun e =>
       modify (set_error e) ;;
       assign LStatus (set_status "Error") ;;
       emit (LSetTesting false) ;;
       call_back callback).

(** Lines 318-326: the dictionary [network_speed_test] builds. *)
Definition initial : results :=
  {| download_mbps := 0%Q; upload_mbps := 0%Q; ping_ms := 0%Q;
     server_info := []; status := "Running"; error := None |}.

Definition network_speed_test (callback : bool) (w : env)
  : state results * result unit :=
  run (network_test_worker callback w) initial.

(** The exception that ends the measurements, if one does. *)
Definition first_failure (w : env) : option string :=
  match speedtest_error w, best_server w, download w, upload w with
  | Some e, _, _, _ => Some e
  | None, Raised e, _, _ => Some e
  | None, Normal _, Raised e, _ => Some e
  | None, Normal _, Normal _, Raised e => Some e
  | None, Normal _, Normal _, Normal _ => None
  end.

(** The statuses the callbacks have seen, in order. *)
Definition statuses_seen (l : list (label * results)) : list string :=
  flat_map (fun e => match fst e with
                     | LCallback => [status (snd e)]
                     | _ => []
                     end) l.

(** A line of 80 Mbit/s down and 20 Mbit/s up; Stop is pressed while the
    download is measured. *)
Definition stopped_during_download : env :=
  {| is_testing := fun _ => false;
     speedtest_error := None;
     best_server := Normal [("host", "speedtest.example.net:8080")];
     download := Normal 80000000%Q;
     upload := Normal 20000000%Q;
     ping := 12%Q |}.

(** The same line, on which the upload fails. *)
Definition upload_fails : env :=
  {| is_testing := fun _ => true;
     speedtest_error := None;
     best_server := Normal [("host", "speedtest.example.net:8080")];
     download := Normal 80000000%Q;
     upload := Raised "HTTP Error 403: Forbidden";
     ping := 12%Q |}.

End NetworkTest.

(** ** [SystemTests.system_stability_test] (system_tests.py, lines 382-458) *)

Module StabilityTest.
Import Worker.
Local Open Scope worker_scope.

(** A number read from psutil, together with the text an f-string prints
    for it. *)
Record reading : Type := {
  value : Q;
  text : string
}.

(** The [results] dictionary; the time stamps are left out. *)
Record results : Type := {
  duration : Z;
  cpu_stable : bool;
  memory_stable : bool;
  disk_stable : bool;
  temperature_stable : bool;
  max_temperature : Q;
  errors : list string;
  status : string
}.

Definition set_cpu_stable (v : bool) (r : results) : results :=
  {| duration := duration r; cpu_stable := v;
     memory_stable := memory_stable r; disk_stable := disk_stable r;
     temperature_stable := temperature_stable r;
     max_temperature := max_temperature r; errors := errors r;
     status := status r |}.

Definition set_memory_stable (v : bool) (r : results) : results :=
  {| duration := duration r; cpu_stable := cpu_stable r;
     memory_stable := v; disk_stable := disk_stable r;
     temperature_stable := temperature_stable r;
     max_temperature := max_temperature r; errors := errors r;
     status := status r |}.

Definition set_disk_stable (v : bool) (r : results) : results :=
  {| duration := duration r; cpu_stable := cpu_stable r;
     memory_stable := memory_stable r; disk_stable := v;
     temperature_stable := temperature_stable r;
     max_temperature := max_temperature r; errors := errors r;
     status := status r |}.

Definition set_temperature_stable (v : bool) (r : results) : results :=
  {| duration := duration r; cpu_stable := cpu_stable r;
     memory_stable := memory_stable r; disk_stable := disk_stable r;
     temperature_stable := v;
     max_temperature := max_temperature r; errors := errors r;
     status := status r |}.

Definition set_max_temperature (v : Q) (r : results) : results :=
  {| duration := duration r; cpu_stable := cpu_stable r;
     memory_stable := memory_stable r; disk_stable := disk_stable r;
     temperature_stable := temperature_stable r;
     max_temperature := v; errors := errors r; status := status r |}.

(** [results['errors'].append(v)] *)
Definition append_error (v : string) (r : results) : results :=
  {| duration := duration r; cpu_stable := cpu_stable r;
     memory_stable := memory_stable r; disk_stable := disk_stable r;
     temperature_stable := temperature_stable r;
     max_temperature := max_temperature r; errors := errors r ++ [v];
     status := status r |}.

Definition set_status (v : string) (r : results) : results :=
  {| duration := duration r; cpu_stable := cpu_stable r;
     memory_stable := memory_stable r; disk_stable := disk_stable r;
     temperature_stable := temperature_stable r;
     max_temperature := max_temperature r; errors := errors r;
     status := v |}.

(** One entry of [psutil.disk_partitions()]: its [device], and what
    [psutil.disk_usage(partition.mountpoint).percent] gives or raises. *)
Record partition : Type := {
  device : string;
  disk_usage : result reading
}.

(** What the worker reads from outside. *)
Record env : Type := {
  (** [self.is_testing] as read at a program point *)
  is_testing : point -> bool;
  (** [start_time = time.time()] *)
  start_time : Q;
  (** [time.time()] in the loop condition of iteration [i] *)
  guard_time : Z -> Q;
  (** [psutil.cpu_percent(interval=1)] in iteration [i] *)
  cpu_percent : Z -> result reading;
  (** [psutil.virtual_memory().percent] in iteration [i] *)
  virtual_memory : Z -> result reading;
  (** [psutil.disk_partitions()] in iteration [i] *)
  disk_partitions : Z -> result (list partition);
  (** the [current] of the entries of [psutil.sensors_temperatures()] in
      iteration [i], sensor after sensor; an entry whose [current] cannot
      be compared with a number raises; asking for the sensors raises
      where psutil has none *)
  sensors_temperatures : Z -> result (list (result reading))
}.

(** [x > y] on numbers. *)
Definition gt (x y : Q) : bool := negb (Qle_bool x y).

(** The characters that follow the temperature in its message, as the
    source file has them, in UTF-8. *)
Definition degrees_c : string :=
  String "195"%char (String "130"%char (String "194"%char
    (String "176"%char "C"))).

(** Lines 404-407. *)
Definition check_cpu (w : env) (i : Z) : M results unit :=
  cpu_usage <- lift (cpu_percent w i) ;;
  if gt (value cpu_usage) 95
  then modify (set_cpu_stable false) ;;
       modify (append_error
                 (String.append "High CPU usage: "
                    (String.append (text cpu_usage) "%")))
  else ret tt.

(** Lines 410-413. *)
Definition check_memory (w : env) (i : Z) : M results unit :=
  memory <- lift (virtual_memory w i) ;;
  if gt (value memory) 90
  then modify (set_memory_stable false) ;;
       modify (append_error
                 (String.append "High memory usage: "
                    (String.append (text memory) "%")))
  else ret tt.

(** Lines 417-423: one partition; an exception moves on to the next. *)
Definition check_partition (p : partition) : M results ctl :=
  match disk_usage p with
  | Raised _ => ret Continue
  | Normal usage =>
      (if gt (value usage) 95
       then modify (set_disk_stable false) ;;
            modify (append_error
                      (String.append "High disk usage: "
                         (String.append (text usage)
                            (String.append "% on " (device p)))))
       else ret tt) ;;
      ret Continue
  end.

(** Lines 416-423. *)
Definition check_disks (w : env) (i : Z) : M results unit :=
  partitions <- lift (disk_partitions w i) ;;
  for_each partitions check_partition.

(** Lines 431-435: one entry of a sensor. *)
Definition check_entry (entry : result reading) : M results ctl :=
  current <- lift entry ;;
  s <- get ;;
  (if gt (value current) (max_temperature s)
   then modify (set_max_temperature (value current))
   else ret tt) ;;
  (if gt (value current) 80
   then modify (set_temperature_stable false) ;;
        modify (append_error
                  (String.append "High temperature: "
                     (String.append (text current) degrees_c)))
   else ret tt) ;;
  ret Continue.

(** Lines 426-437: every exception is dropped. *)
Definition check_temperature (w : env) (i : Z) : M results unit :=
  try_except
    (entries <- lift (sensors_temperatures w i) ;;
     for_each entries check_entry)
    (fun _ => ret tt).

(** Lines 402-445: the body of the loop. *)
Definition stability_step (w : env) (callback : bool) (i : Z)
  : M results unit :=
  try_except
    (check_cpu w i ;;
     check_memory w i ;;
     check_disks w i ;;
     check_temperature w i ;;
     call_back callback ;;
     emit (LSleep 5000))
    (fun e =>
       modify (append_error (String.append "Stability test error: " e))).

(** Line 401: [time.time() - start_time < duration and self.is_testing]. *)
Definition guard (w : env) (dur : Z) (i : Z) : bool :=
  gt (inject_Z dur) (guard_time w i - start_time w)
  && is_testing w (InLoop 0 i).

(** The [while] loop from iteration [i] on; [fuel] bounds the iterations
    the model follows, and the result tells whether the loop ended
    ([true]) or the fuel did ([false]). *)
Fixpoint stability_loop (fuel : nat) (w : env) (dur : Z) (callback : bool)
  (i : Z) : M results bool :=
  if guard w dur i then
    match fuel with
    | O => ret false
    | S fuel' =>
        stability_step w callback i ;;
        stability_loop fuel' w dur callback (i + 1)
    end
  else ret true.

(** Lines 398-452. *)
Definition stability_test_worker (fuel : nat) (dur : Z) (callback : bool)
  (w : env) : M results bool :=
  ended <- stability_loop fuel w dur callback 0 ;;
  if (ended : bool) then
    assign LStatus
      (set_status (if is_testing w AtEnd then "Completed" else "Stopped")) ;;
    emit (LSetTesting false) ;;
    call_back callback ;;
    ret true
  else ret false.

(** Lines 385-396: the dictionary [system_stability_test] builds. *)
Definition initial (dur : Z) : results :=
  {| duration := dur; cpu_stable := true; memory_stable := true;
     disk_stable := true; temperature_stable := true;
     max_temperature := 0%Q; errors := []; status := "Running" |}.

Definition system_stability_test (fuel : nat) (dur : Z) (callback : bool)
  (w : env) : state results * result bool :=
  run (stability_test_worker fuel dur callback w) (initial dur).

(** Some message of [errors] starts with [kind]. *)
Definition mentions (kind : string) (errors : list string) : bool :=
  existsb (String.prefix kind) errors.

(** Each flag is False exactly when [errors] holds a message of its kind. *)
Definition flags_explained (r : results) : Prop :=
  cpu_stable r = negb (mentions "High CPU usage: " (errors r)) /\
  memory_stable r = negb (mentions "High memory usage: " (errors r)) /\
  disk_stable r = negb (mentions "High disk usage: " (errors r)) /\
  temperature_stable r = negb (mentions "High temperature: " (errors r)).

(** The temperature flag is False exactly when the highest temperature
    seen is above 80. *)
Definition temperature_flag_is_threshold (r : results) : Prop :=
  temperature_stable r = negb (gt (max_temperature r) 80).

(** Both of them: what the worker keeps true of its dictionary. *)
Definition sound (r : results) : Prop :=
  flags_explained r /\ temperature_flag_is_threshold r.

(** The first exception of an iteration that its handler catches: one of
    the CPU reading, the memory reading and the list of partitions. *)
Definition iteration_failure (w : env) (i : Z) : option string :=
  match cpu_percent w i, virtual_memory w i, disk_partitions w i with
  | Raised e, _, _ => Some e
  | Normal _, Raised e, _ => Some e
  | Normal _, Normal _, Raised e => Some e
  | Normal _, Normal _, Normal _ => None
  end.

(** A machine whose CPU is at 97% in the second iteration and whose only
    sensor reads 85 degrees in the third; the clock ticks six seconds an
    iteration. *)
Definition hot_spell : env :=
  {| is_testing := fun _ => true;
     start_time := 1000%Q;
     guard_time := fun i => inject_Z (1000 + 6 * i);
     cpu_percent := fun i =>
       if i =? 1 then Normal {| value := 97%Q; text := "97.0" |}
       else Normal {| value := 30%Q; text := "30.0" |};
     virtual_memory := fun _ => Normal {| value := 50%Q; text := "50.0" |};
     disk_partitions := fun _ =>
       Normal [{| device := "C:\"; disk_usage :=
                    Normal {| value := 60%Q; text := "60.0" |} |}];
     sensors_temperatures := fun i =>
       if i =? 2 then Normal [Normal {| value := 85%Q; text := "85.0" |}]
       else Normal [Normal {| value := 55%Q; text := "55.0" |}] |}.

End StabilityTest.

(** ** [SystemTests.brightness_test] (system_tests.py, lines 460-601) *)

Module BrightnessTest.
Import Worker.
Local Open Scope worker_scope.

(** One entry of [results['brightness_levels_tested']] (without its time
    stamp); ['error'] is there only in an entry of a failure. *)
Record level_entry : Type := {
  level : Z;
  success : bool;
  entry_error : option string
}.

(** The [results] dictionary; ['error'] is there only once the outer
    handler has run; the time stamps are left out. *)
Record results : Type := {
  original_brightness : option Z;
  brightness_levels_tested : list level_entry;
  brightness_support : bool;
  status : string;
  progress : Z;
  errors : list string;
  error : option string
}.

(** The dictionary together with what the worker has done to the screen:
    the levels it has called [WmiSetBrightness] with, in order. *)
Record store : Type := {
  res : results;
  commands : list Z
}.

#[global] Instance brightness_progress : Progress store :=
  {| progress_of s := Some (progress (res s));
     status_of s := status (res s) |}.

Definition with_res (f : results -> results) (s : store) : store :=
  {| res := f (res s); commands := commands s |}.

(** A call of [WmiSetBrightness(1, v)] is made. *)
Definition issue (v : Z) (s : store) : store :=
  {| res := res s; commands := commands s ++ [v] |}.

Definition set_original_brightness (v : Z) (r : results) : results :=
  {| original_brightness := Some v;
     brightness_levels_tested := brightness_levels_tested r;
     brightness_support := brightness_support r; status := status r;
     progress := progress r; errors := errors r; error := error r |}.

Definition set_brightness_support (v : bool) (r : results) : results :=
  {| original_brightness := original_brightness r;
     brightness_levels_tested := brightness_levels_tested r;
     brightness_support := v; status := status r;
     progress := progress r; errors := errors r; error := error r |}.

(** [results['brightness_levels_tested'].append(v)] *)
Definition append_level (v : level_entry) (r : results) : results :=
  {| original_brightness := original_brightness r;
     brightness_levels_tested := brightness_levels_tested r ++ [v];
     brightness_support := brightness_support r; status := status r;
     progress := progress r; errors := errors r; error := error r |}.

(** [results['errors'].append(v)] *)
Definition append_error (v : string) (r : results) : results :=
  {| original_brightness := original_brightness r;
     brightness_levels_tested := brightness_levels_tested r;
     brightness_support := brightness_support r; status := status r;
     progress := progress r; errors := errors r ++ [v]; error := error r |}.

Definition set_status (v : string) (r : results) : results :=
  {| original_brightness := original_brightness r;
     brightness_levels_tested := brightness_levels_tested r;
     brightness_support := brightness_support r; status := v;
     progress := progress r; errors := errors r; error := error r |}.

Definition set_progress (v : Z) (r : results) : results :=
  {| original_brightness := original_brightness r;
     brightness_levels_tested := brightness_levels_tested r;
     brightness_support := brightness_support r; status := status r;
     progress := v; errors := errors r; error := error r |}.

Definition set_error (v : string) (r : results) : results :=
  {| original_brightness := original_brightness r;
     brightness_levels_tested := brightness_levels_tested r;
     brightness_support := brightness_support r; status := status r;
     progress := progress r; errors := errors r; error := Some v |}.

(** What lines 483-495 find on Windows: the current brightness; nothing,
    when PowerShell fails or prints nothing; or an exception, of
    [subprocess.run] or of [int]. *)
Inductive detection : Type :=
| Detected (current : Z)
| NotDetected
| DetectionRaises (msg : string).

(** What a call of [WmiSetBrightness] through PowerShell returns: the
    return code, and [result.stderr.strip()] unless [result.stderr] is
    empty. *)
Record completed_process : Type := {
  returncode : Z;
  stderr : option string
}.

(** What the worker reads from outside. *)
Record env : Type := {
  (** [self.is_testing] as read at a program point *)
  is_testing : point -> bool;
  (** [sys.platform == "win32"] *)
  win32 : bool;
  (** the query of the current brightness *)
  current_brightness : detection;
  (** [subprocess.run] for [WmiSetBrightness(1, level)] in the loop *)
  set_level : Z -> result completed_process;
  (** [subprocess.run] for the restoration *)
  restore : result completed_process
}.

(** Lines 480-502. *)
Definition detect (w : env) : M store unit :=
  try_except
    (if win32 w then
       match current_brightness w with
       | DetectionRaises msg => raise msg
       | Detected original =>
           modify (with_res (set_original_brightness original)) ;;
           modify (with_res (set_brightness_support true))
       | NotDetected =>
           modify (with_res (append_error
                     "Could not detect current brightness level")) ;;
           modify (with_res (set_brightness_support false))
       end
     else
       modify (with_res (append_error
                 "Brightness test only supported on Windows")) ;;
       modify (with_res (set_brightness_support false)))
    (fun e =>
       modify (with_res (append_error
                 (String.append "Error detecting brightness: " e))) ;;
       modify (with_res (set_brightness_support false))).

(** [test_levels = [20, 40, 60, 80, 100]] and
    [total_steps = len(test_levels) + 1]. *)
Definition test_levels : list Z := [20; 40; 60; 80; 100].
Definition total_steps : Z := Z.of_nat (List.length test_levels) + 1.

(** Lines 517-560: the body of the loop over [enumerate(test_levels)]. *)
Definition level_step (w : env) (callback : bool) (il : Z * Z)
  : M store ctl :=
  let (i, level) := il in
  if negb (is_testing w (InLoop 0 i)) then ret Break
  else
    try_except
      (modify (issue level) ;;
       result <- lift (set_level w level) ;;
       (if returncode result =? 0
        then modify (with_res (append_level
                       {| level := level; success := true;
                          entry_error := None |}))
        else
          modify (with_res (append_level
                    {| level := level; success := false;
                       entry_error :=
                         Some (match stderr result with
                               | Some text => text
                               | None => "Unknown error"
                               end) |})) ;;
          modify (with_res (append_error
                    (String.append "Failed to set brightness to "
                       (String.append (UpdateManager.str level) "%"))))) ;;
       assign LProgress
         (with_res (set_progress
            (Py.int (Py.truediv (i + 1) total_steps * 100)%Q))) ;;
       call_back callback ;;
       emit (LSleep 2000))
      (fun e =>
         modify (with_res (append_error
                   (String.append "Error setting brightness to "
                      (String.append (UpdateManager.str level)
                         (String.append "%: " e))))) ;;
         modify (with_res (append_level
                   {| level := level; success := false;
                      entry_error := Some e |}))) ;;
    ret Continue.

(** Lines 563-577. *)
Definition restore_brightness (w : env) : M store unit :=
  s <- get ;;
  match original_brightness (res s) with
  | None => ret tt
  | Some original =>
      try_except
        (modify (issue original) ;;
         result <- lift (restore w) ;;
         if returncode result =? 0 then ret tt
         else modify (with_res (append_error
                        "Failed to restore original brightness")))
        (fun e =>
           modify (with_res (append_error
                     (String.append "Error restoring brightness: " e))))
  end.

(** Lines 475-595. *)
Definition brightness_test_worker (callback : bool) (w : env)
  : M store unit :=
  try_except
    (detect w ;;
     s <- get ;;
     if negb (brightness_support (res s)) then
       assign LStatus (with_res (set_status "Completed")) ;;
       assign LProgress (with_res (set_progress 100)) ;;
       emit (LSetTesting false) ;;
       call_back callback
     else
       for_each (MemoryTest.enumerate test_levels) (level_step w callback) ;;
       restore_brightness w ;;
       assign LProgress (with_res (set_progress 100)) ;;
       assign LStatus
         (with_res (set_status
                      (if is_testing w AtEnd then "Completed" else "Stopped"))) ;;
       emit (LSetTesting false) ;;
       call_back callback)
    (fun e =>
       modify (with_res (set_error e)) ;;
       assign LStatus (with_res (set_status "Error")) ;;
       emit (LSetTesting false) ;;
       call_back callback).

(** Lines 463-472: the dictionary [brightness_test] builds. *)
Definition initial : store :=
  {| res := {| original_brightness := None;
               brightness_levels_tested := [];
               brightness_support := false;
               status := "Running";
               progress := 0;
               errors := [];
               error := None |};
     commands := [] |}.

Definition brightness_test (callback : bool) (w : env)
  : state store * result unit :=
  run (brightness_test_worker callback w) initial.

(** The levels of the entries, in order. *)
Definition levels_tested (s : store) : list Z :=
  map level (brightness_levels_tested (res s)).

(** A laptop at 70% brightness on which every command succeeds; Stop is
    pressed while the second level is shown. *)
Definition stopped_at_40 : env :=
  {| is_testing := fun p =>
       match p with
       | InLoop _ i => i <? 2
       | AtEnd => false
       end;
     win32 := true;
     current_brightness := Detected 70;
     set_level := fun _ => Normal {| returncode := 0; stderr := None |};
     restore := Normal {| returncode := 0; stderr := None |} |}.

(** A desktop monitor: the query prints nothing. *)
Definition no_backlight : env :=
  {| is_testing := fun _ => true;
     win32 := true;
     current_brightness := NotDetected;
     set_level := fun _ => Normal {| returncode := 1; stderr := None |};
     restore := Normal {| returncode := 1; stderr := None |} |}.

End BrightnessTest.

(** ** [TestsTab.test_callback] (script.py, lines 1140-1166) *)

Module TestCallback.










End TestCallback.

(** ** [SystemTests.get_test_recommendations] (system_tests.py, lines
    992-1023) *)

Module Recommendations.
Import Worker.
Local Open Scope worker_scope.

(** What [hardware_info] and the values in it may be. *)
#[warnings="-register-all"]
Inductive value : Type :=
| VNone
| VBool (b : bool)
| VInt (n : Z)
| VFloat (q : Q)
| VStr (s : string)
| VList (l : list value)
| VDict (d : list (string * value)).

(** The name Python gives the type of a value in its messages. *)
Definition type_name (v : value) : string :=
  match v with
  | VNone => "NoneType"
  | VBool _ => "bool"
  | VInt _ => "int"
  | VFloat _ => "float"
  | VStr _ => "str"
  | VList _ => "list"
  | VDict _ => "dict"
  end.

(** The first binding of [key] in a dictionary. *)
Fixpoint lookup (key : string) (d : list (string * value)) : option value :=
  match d with
  | [] => None
  | (k, v) :: d' => if String.eqb k key then Some v else lookup key d'
  end.

(** [v.get(key, default)] *)
Definition py_get (v : value) (key : string) (default : value)
  : result value :=
  match v with
  | VDict d =>
      Normal (match lookup key d with Some x => x | None => default end)
  | _ =>
      Raised (String.append "'"
                (String.append (type_name v) "' object has no attribute 'get'"))
  end.

(** [v >= n] for an integer [n]. *)
Definition py_ge (v : value) (n : Z) : result bool :=
  match v with
  | VInt z => Normal (n <=? z)
  | VFloat q => Normal (Qle_bool (inject_Z n) q)
  | VBool b => Normal (n <=? (if b then 1 else 0))
  | _ =>
      Raised (String.append "'>=' not supported between instances of '"
                (String.append (type_name v) "' and 'int'"))
  end.

(** [recommendations.append(v)] *)
Definition append (v : string) : M (list string) unit :=
  modify (fun recommendations => recommendations ++ [v]).

(** Lines 996-1021. *)
Definition recommend (hardware_info : value) : M (list string) unit :=
  try_except
    (cpu <- lift (py_get hardware_info "cpu" (VDict [])) ;;
     cpu_cores <- lift (py_get cpu "cores_physical" (VInt 1)) ;;
     many_cores <- lift (py_ge cpu_cores 4) ;;
     (if (many_cores : bool)
      then append "Run CPU stress test for 60 seconds to test multi-core performance"
      else append "Run CPU stress test for 30 seconds (fewer cores detected)") ;;
     memory <- lift (py_get hardware_info "memory" (VDict [])) ;;
     total_memory <- lift (py_get memory "total" (VInt 0)) ;;
     much_memory <- lift (py_ge total_memory 8) ;;
     (if (much_memory : bool)
      then append "Run memory test with 500MB to test RAM stability"
      else append "Run memory test with 100MB (limited RAM detected)") ;;
     append "Run disk speed test to check storage performance" ;;
     append "Run network speed test to check internet connectivity" ;;
     append "Run system stability test for 5 minutes to check overall system health")
    (fun e => append (String.append "Error generating recommendations: " e)).

(** Lines 992-1023: the list returned. *)
Definition get_test_recommendations (hardware_info : value) : list string :=
  now (fst (run (recommend hardware_info) [])).

(** The three recommendations that do not depend on the hardware. *)
Definition general_recommendations : list string :=
  ["Run disk speed test to check storage performance";
   "Run network speed test to check internet connectivity";
   "Run system stability test for 5 minutes to check overall system health"].

(** A machine of which psutil cannot tell the number of physical cores. *)
Definition cores_unknown : value :=
  VDict [("cpu", VDict [("cores_physical", VNone); ("cores_logical", VInt 8)]);
         ("memory", VDict [("total", VFloat (159 # 10))])].

End Recommendations.

(** ** What the memory test counts *)

Module MemoryCounts.
Import Worker MemoryTest.

Definition is_alloc (l : label) : bool :=
  match l with
  | LAlloc _ => true
  | _ => false
  end.

Definition is_verify (l : label) : bool :=
  match l with
  | LVerify _ => true
  | _ => false
  end.

(** The blocks allocated and the blocks verified so far. *)
Definition allocated (s : state store) : nat :=
  List.length (filter is_alloc (labels (log s))).

Definition verified (s : state store) : nat :=
  List.length (filter is_verify (labels (log s))).

(** While blocks are allocated: [blocks_tested] counts them, they are all
    in [memory_blocks], and nothing has been verified. *)
Definition allocating (a : nat) (s : state store) : Prop :=
  blocks_tested (res (now s)) = Z.of_nat a /\
  List.length (memory_blocks (now s)) = a /\
  allocated s = a /\
  errors_found (res (now s)) = 0 /\
  verified s = 0%nat.

(** From then on: [blocks_tested] stays the number of blocks allocated,
    and no more errors are counted than blocks were verified. *)
Definition counted (s : state store) : Prop :=
  blocks_tested (res (now s)) = Z.of_nat (allocated s) /\
  0 <= errors_found (res (now s)) <= Z.of_nat (verified s).

(** A machine that runs out of memory at the third block. *)
Definition out_of_memory : env :=
  {| is_testing := fun _ => true;
     getrandbits8 := fun i j => (31 * i + 7 * j) mod 256;
     alloc_error := fun i => if i =? 2 then Some "MemoryError" else None;
     virtual_memory := fun _ => (99%Q, inject_Z (8 * 1024 ^ 3));
     sum_raises := fun _ => false |}.

End MemoryCounts.

(** ** What the runs of the workers are measured against *)

Module Runs.
Import Worker.

(** Each state differs from the one before it, the first of them from
    [previous]. *)
Fixpoint alternates (previous : option bool) (states : list (option bool))
  : Prop :=
  match states with
  | [] => True
  | x :: rest => x <> previous /\ alternates x rest
  end.

(** The states of the charging events recorded so far. *)
Definition event_states (r : ChargingTest.results) : list (option bool) :=
  map ChargingTest.charging_state (ChargingTest.charging_events r).

(** The events recorded so far alternate from the state found at the
    start, and the state the loop compares with is the last one recorded. *)
Definition events_alternate (initial_state : option bool)
  (s : ChargingTest.store) : Prop :=
  alternates initial_state (event_states (ChargingTest.res s)) /\
  last (event_states (ChargingTest.res s)) initial_state =
    ChargingTest.last_charging_state s /\
  Forall (fun e =>
            ChargingTest.event e =
              match ChargingTest.charging_state e with
              | Some true => "plugged_in"
              | _ => "unplugged"
              end)
         (ChargingTest.charging_events (ChargingTest.res s)).

Definition is_write (l : label) : bool :=
  match l with
  | LWrite _ => true
  | _ => false
  end.

Definition is_read (l : label) : bool :=
  match l with
  | LRead _ => true
  | _ => false
  end.

(** A disk test of which Stop is pressed before the first chunk is
    written; the clock still moves a hundredth of a second in each
    phase. *)
Definition stopped_before_writing : DiskTest.env :=
  {| DiskTest.is_testing := fun _ => false;
     DiskTest.tempfile_error := None;
     DiskTest.open_error := fun _ => None;
     DiskTest.write_error := fun _ => None;
     DiskTest.read_error := fun _ => None;
     DiskTest.write_time := 1 # 100;
     DiskTest.read_time := 1 # 100 |}.

(** The sum of the usages, added up in the order of the samples. *)
Definition usage_total (samples : list CpuTest.usage_sample) : Q :=
  fold_left Qplus (map CpuTest.usage samples) 0%Q.

(** The bookkeeping of the CPU monitor after [n] iterations: one sample
    for each, with the usage read in it; their count, their sum and their
    maximum. *)
Definition cpu_statistics (w : CpuTest.env) (n : Z) (s : CpuTest.store)
  : Prop :=
  let samples := CpuTest.cpu_usage_samples (CpuTest.res s) in
  0 <= n /\
  CpuTest.sample_count s = n /\
  map CpuTest.usage samples = map (CpuTest.cpu_percent w) (Py.range n) /\
  CpuTest.total_usage s = usage_total samples /\
  Forall (fun u => (CpuTest.usage u <= CpuTest.max_usage (CpuTest.res s))%Q)
         samples /\
  (CpuTest.max_usage (CpuTest.res s) = 0%Q \/
   In (CpuTest.max_usage (CpuTest.res s)) (map CpuTest.usage samples)).

End Runs.

(** * Properties *)

(** ** Arithmetic of the progress formulas *)

Module PyFacts.

Lemma int_floor q : (0 <= q)%Q -> Py.int q = Qfloor q.
Proof.
  intros H. unfold Py.int, Qfloor. destruct q as [a b]. cbn.
  apply Z.quot_div_nonneg; [|lia].
  unfold Qle in H. cbn in H. lia.
Qed.

Lemma int_inject z : Py.int (inject_Z z) = z.
Proof. unfold Py.int. cbn. apply Z.quot_1_r. Qed.

Lemma truediv_unit k n : 0 <= k <= n -> 0 < n -> (0 <= Py.truediv k n <= 1)%Q.
Proof.
  intros Hk Hn. unfold Py.truediv.
  assert (0 < inject_Z n)%Q by (rewrite <- (Zlt_Qlt 0); lia).
  split.
  - apply Qle_shift_div_l; [assumption|]. rewrite Qmult_0_l.
    rewrite <- (Zle_Qle 0). lia.
  - apply Qle_shift_div_r; [assumption|]. rewrite Qmult_1_l.
    rewrite <- Zle_Qle. lia.
Qed.

Lemma truediv_self n : 0 < n -> (Py.truediv n n == 1)%Q.
Proof.
  intros Hn. unfold Py.truediv. apply Qmult_inv_r.
  intros E. unfold Qeq in E. cbn in E. lia.
Qed.

Lemma int_comp q r : (q == r)%Q -> (0 <= q)%Q -> Py.int q = Py.int r.
Proof.
  intros E H. rewrite !int_floor; [now rewrite E | now rewrite <- E | assumption].
Qed.

Lemma int_between q lo hi :
  0 <= lo -> (inject_Z lo <= q <= inject_Z hi)%Q -> lo <= Py.int q <= hi.
Proof.
  intros Hlo [H1 H2].
  assert (0 <= q)%Q.
  { apply Qle_trans with (inject_Z lo); [|assumption]. rewrite <- (Zle_Qle 0). lia. }
  rewrite int_floor by assumption.
  split.
  - rewrite <- (Qfloor_Z lo). now apply Qfloor_resp_le.
  - rewrite <- (Qfloor_Z hi). now apply Qfloor_resp_le.
Qed.

Lemma int_nonneg q : (0 <= q)%Q -> 0 <= Py.int q.
Proof.
  intros H. rewrite int_floor by assumption.
  rewrite <- (Qfloor_Z 0). now apply Qfloor_resp_le.
Qed.

Lemma scaled_progress k n :
  0 <= k <= n -> 0 < n -> 0 <= Py.int (Py.truediv k n * 50)%Q <= 50.
Proof.
  intros Hk Hn. destruct (truediv_unit k n Hk Hn) as [H0 H1].
  apply int_between; [lia|]. split.
  - change (inject_Z 0) with 0%Q. lra.
  - change (inject_Z 50) with 50%Q. lra.
Qed.

Lemma shifted_progress k n :
  0 <= k <= n -> 0 < n -> 50 <= Py.int (50 + Py.truediv k n * 50)%Q <= 100.
Proof.
  intros Hk Hn. destruct (truediv_unit k n Hk Hn) as [H0 H1].
  apply int_between; [lia|]. split.
  - change (inject_Z 50) with 50%Q. lra.
  - change (inject_Z 100) with 100%Q. lra.
Qed.

Lemma percent_progress k n :
  0 <= k <= n -> 0 < n -> 0 <= Py.int (Py.truediv k n * 100)%Q <= 100.
Proof.
  intros Hk Hn. destruct (truediv_unit k n Hk Hn) as [H0 H1].
  apply int_between; [lia|]. split.
  - change (inject_Z 0) with 0%Q. lra.
  - change (inject_Z 100) with 100%Q. lra.
Qed.

Lemma scaled_progress_full n : 0 < n -> Py.int (Py.truediv n n * 50)%Q = 50.
Proof.
  intros Hn. 
  rewrite (int_comp _ 50%Q). reflexivity. rewrite truediv_self by assumption. lra.
  rewrite truediv_self by assumption. lra.
Qed.

Lemma In_range i n : In i (Py.range n) <-> 0 <= i < n.
Proof.
  unfold Py.range. rewrite in_map_iff. split.
  - intros [k [<- Hk]]. apply in_seq in Hk. lia.
  - intros H. exists (Z.to_nat i). split; [lia|]. apply in_seq. lia.
Qed.

Lemma range_succ n : 0 <= n -> Py.range (n + 1) = Py.range n ++ [n].
Proof.
  intros Hn. unfold Py.range.
  replace (Z.to_nat (n + 1)) with (S (Z.to_nat n)) by lia.
  rewrite seq_S, map_app. cbn. now rewrite Z2Nat.id.
Qed.

Lemma last_cons {A} (l : list A) (x d : A) : last (x :: l) d = last l x.
Proof.
  revert x d. induction l as [|y l IH]; intros x d; [reflexivity|].
  change (last (x :: y :: l) d) with (last (y :: l) d).
  now rewrite !IH.
Qed.

Lemma last_range_succ n d :
  0 < n -> last (map (fun i => i + 1) (Py.range n)) d = n.
Proof.
  intros Hn. replace n with ((n - 1) + 1) at 1 by lia.
  rewrite range_succ, map_app by lia. cbn [map]. rewrite last_last. lia.
Qed.

Lemma last_scaled_progress n d :
  0 < n ->
  last (map (fun i => Py.int (Py.truediv (i + 1) n * 50)) (Py.range n)) d = 50.
Proof.
  intros Hn. replace (Py.range n) with (Py.range ((n - 1) + 1)) by (f_equal; lia).
  rewrite range_succ, map_app by lia. cbn [map]. rewrite last_last.
  replace (n - 1 + 1) with n by lia.
  now apply scaled_progress_full.
Qed.

Lemma length_range n : List.length (Py.range n) = Z.to_nat n.
Proof. unfold Py.range. now rewrite length_map, length_seq. Qed.

Lemma nth_error_map_range {A} (f : Z -> A) n i :
  0 <= i < n -> nth_error (map f (Py.range n)) (Z.to_nat i) = Some (f i).
Proof.
  intros Hi. unfold Py.range. rewrite map_map.
  rewrite nth_error_map.
  assert (Hlt : (Z.to_nat i < Z.to_nat n)%nat) by (apply Z2Nat.inj_lt; lia).
  rewrite (nth_error_nth' _ 0%nat) by now rewrite length_seq.
  rewrite seq_nth by exact Hlt. cbn [option_map]. f_equal. f_equal.
  rewrite Nat.add_0_l. apply Z2Nat.id. lia.
Qed.

End PyFacts.

(** ** Invariants of the store along a run *)

Module WorkerFacts.
Import Worker.

Section Invariant.
Context {S : Type} (P : S -> Prop).

Lemma preserves_ret {A} (a : A) : preserves P (ret a).
Proof. intros s H; exact H. Qed.

Lemma preserves_lift {A} (r : result A) : preserves P (lift r).
Proof. intros s H; exact H. Qed.

Lemma preserves_raise {A} msg : preserves P (@raise S A msg).
Proof. intros s H; exact H. Qed.

Lemma preserves_get : preserves P get.
Proof. intros s H; exact H. Qed.

Lemma preserves_bind {A B} (m : M S A) (k : A -> M S B) :
  preserves P m -> (forall a, preserves P (k a)) -> preserves P (bind m k).
Proof.
  intros Hm Hk s Hs. unfold bind.
  specialize (Hm s Hs). destruct (m s) as [s' [a|e]]; cbn in *.
  - apply Hk, Hm.
  - exact Hm.
Qed.

Lemma preserves_try_except {A} (m : M S A) (h : string -> M S A) :
  preserves P m -> (forall e, preserves P (h e)) -> preserves P (try_except m h).
Proof.
  intros Hm Hh s Hs. unfold try_except.
  specialize (Hm s Hs). destruct (m s) as [s' [a|e]]; cbn in *.
  - exact Hm.
  - apply Hh, Hm.
Qed.

Lemma preserves_modify (f : S -> S) :
  (forall x, P x -> P (f x)) -> preserves P (modify f).
Proof. intros Hf s [H1 H2]. split; cbn; auto. Qed.

Lemma preserves_emit l : preserves P (emit l).
Proof.
  intros s [H1 H2]. split; cbn; auto.
  apply Forall_app; split; auto.
Qed.

Lemma preserves_assign l (f : S -> S) :
  (forall x, P x -> P (f x)) -> preserves P (assign l f).
Proof.
  intros Hf. apply preserves_bind.
  - now apply preserves_modify.
  - intros _. apply preserves_emit.
Qed.

Lemma preserves_call_back cb : preserves P (call_back cb).
Proof. destruct cb; [apply preserves_emit | apply preserves_ret]. Qed.

Lemma preserves_for_each {X} (xs : list X) (body : X -> M S ctl) :
  (forall x, In x xs -> preserves P (body x)) -> preserves P (for_each xs body).
Proof.
  induction xs as [|x xs IH]; intros Hb s Hs; cbn.
  - exact Hs.
  - assert (Hx := Hb x (or_introl eq_refl) s Hs).
    destruct (body x s) as [s' [[|]|e]]; cbn in *; try exact Hx.
    apply IH; [|exact Hx]. intros y Hy. apply Hb. now right.
Qed.

(** An invariant of a whole run: it holds of the final store and of every
    logged one. *)
Lemma preserves_run {A} (m : M S A) (init : S) :
  preserves P m -> P init -> good P (fst (run m init)).
Proof. intros Hm Hi. apply Hm. split; cbn; auto. Qed.

End Invariant.

Section Returns.
Context {S : Type}.

Lemma returns_ret {A} (a : A) : returns (@ret S A a).
Proof. intros s. now exists s, a. Qed.

Lemma returns_get : returns (@get S).
Proof. intros s. now exists s, (now s). Qed.

Lemma returns_modify (f : S -> S) : returns (modify f).
Proof. intros s. eexists _, tt. reflexivity. Qed.

Lemma returns_emit l : returns (@emit S l).
Proof. intros s. eexists _, tt. reflexivity. Qed.

Lemma returns_bind {A B} (m : M S A) (k : A -> M S B) :
  returns m -> (forall a, returns (k a)) -> returns (bind m k).
Proof.
  intros Hm Hk s. destruct (Hm s) as (s1 & a & H1).
  destruct (Hk a s1) as (s2 & b & H2).
  exists s2, b. unfold bind. now rewrite H1.
Qed.

Lemma returns_assign l (f : S -> S) : returns (assign l f).
Proof.
  apply returns_bind; [apply returns_modify|intros _; apply returns_emit].
Qed.

Lemma returns_call_back cb : returns (@call_back S cb).
Proof. destruct cb; [apply returns_emit|apply returns_ret]. Qed.

Lemma try_except_bind_normal {A B} (m : M S A) (k : A -> M S B)
  (h : string -> M S B) (s s1 : state S) (a : A) :
  m s = (s1, Normal a) ->
  try_except (bind m k) h s = try_except (k a) h s1.
Proof. intros Hm. unfold try_except, bind. now rewrite Hm. Qed.

End Returns.

Ltac returns_step :=
  first
    [ apply returns_bind; [| intros ? ]
    | apply returns_ret | apply returns_get | apply returns_emit
    | apply returns_call_back | apply returns_assign | apply returns_modify
    | match goal with
      | |- returns (if ?b then _ else _) => destruct b
      | |- returns (match ?o with Some _ => _ | None => _ end) => destruct o
      | |- returns (let (_, _) := ?p in _) => destruct p
      end ].

Ltac preserves_step :=
  first
    [ apply preserves_bind; [| intros ? ]
    | apply preserves_try_except; [| intros ? ]
    | apply preserves_ret | apply preserves_lift | apply preserves_raise
    | apply preserves_get | apply preserves_emit | apply preserves_call_back
    | apply preserves_assign; intros ? ?
    | apply preserves_modify; intros ? ?
    | match goal with
      | |- preserves _ (if ?b then _ else _) => destruct b
      | |- preserves _ (match ?o with Some _ => _ | None => _ end) =>
          destruct o
      | |- preserves _ (let (_, _) := ?p in _) => destruct p
      end ].

End WorkerFacts.

(** ** The memory test *)

Module MemoryFacts.
Import Worker WorkerFacts MemoryTest PyFacts.

#[local] Arguments random_block : simpl never.
#[local] Arguments Py.int : simpl never.
#[local] Arguments Py.truediv : simpl never.
#[local] Arguments Py.range : simpl never.

(** The comparison of lines 171-172 is of a value with itself. *)
Lemma checksum_never_differs (block : list Z) :
  negb (Py.sum block mod 256 =? Py.sum block mod 256) = false.
Proof. now rewrite Z.eqb_refl. Qed.

Lemma verify_block_no_errors w i block :
  sum_raises w i = false -> preserves no_errors (verify_block w i block).
Proof.
  intros Hs. unfold verify_block, py_sum. rewrite Hs.
  intros s H. unfold try_except, bind, lift. rewrite Z.eqb_refl. exact H.
Qed.

(** C7: the verification compares [sum(block) % 256] with itself, so the
    mismatch branch is dead; in a run in which [sum(block)] never raises,
    [errors_found] is 0 in the final dictionary and in every state the run
    went through, whatever the blocks contain, whenever the run is stopped
    and whatever else goes wrong. *)
Theorem memory_test_never_reports_corruption size callback (w : env) :
  (forall i, sum_raises w i = false) ->
  (forall block, negb (Py.sum block mod 256 =? Py.sum block mod 256) = false) /\
  let final := fst (memory_test size callback w) in
  errors_found (res (now final)) = 0 /\
  Forall (fun e => errors_found (res (snd e)) = 0) (log final).
Proof.
  intros Hs. split; [exact checksum_never_differs|].
  apply (preserves_run no_errors); [|reflexivity].
  unfold memory_test_worker.
  apply preserves_try_except.
  - apply preserves_bind.
    + apply preserves_for_each. intros i _. unfold allocate_step.
      destruct (negb _); [apply preserves_ret|].
      repeat preserves_step; assumption.
    + intros _. apply preserves_bind; [apply preserves_get|]. intros s.
      apply preserves_bind.
      * apply preserves_for_each. intros [i b] _. unfold test_step.
        destruct (negb _); [apply preserves_ret|].
        apply preserves_bind; [now apply verify_block_no_errors|]. intros _.
        repeat preserves_step; assumption.
      * intros _. repeat preserves_step; assumption.
  - intros e. repeat preserves_step; assumption.
Qed.

(** The theorem at work: a hundred blocks on a quiet machine. *)
Lemma memory_test_never_reports_corruption_witness :
  (forall i, sum_raises quiet i = false) /\
  errors_found (res (now (fst (memory_test 100 true quiet)))) = 0.
Proof.
  split; [reflexivity|].
  apply (memory_test_never_reports_corruption 100 true quiet).
  reflexivity.
Defined.

Lemma allocate_step_run w n cb i s :
  is_testing w (InLoop 0 i) = true ->
  alloc_error w i = None ->
  0 <= i < n ->
  progress_in 0 50 (now s) ->
  exists s' L,
    allocate_step w n cb i s = (s', Normal Continue) /\
    log s' = log s ++ L /\
    labels L = alloc_labels cb i /\
    Forall (fun e => progress_in 0 50 (snd e)) L /\
    progress (res (now s')) = Some (Py.int (Py.truediv (i + 1) n * 50)) /\
    memory_blocks (now s') = memory_blocks (now s) ++ [random_block w i] /\
    blocks_tested (res (now s')) = i + 1 /\
    errors_found (res (now s')) = errors_found (res (now s)) /\
    status (res (now s')) = status (res (now s)).
Proof.
  intros Ht Ha Hi Hp.
  assert (Hb : 0 <= Py.int (Py.truediv (i + 1) n * 50) <= 50)
    by (apply scaled_progress; lia).
  unfold allocate_step, new_block. rewrite Ht, Ha.
  destruct cb;
    cbn [negb bind assign modify emit lift ret call_back now log];
    rewrite <- !app_assoc; cbn [app];
    (eexists _, _; split; [reflexivity|]); cbn [now log];
    (split; [reflexivity|]);
    (split; [reflexivity|]);
    (split; [repeat (apply Forall_cons || apply Forall_nil); assumption|]);
    repeat (split; [reflexivity|]); reflexivity.
Qed.

Lemma allocate_loop w n cb xs :
  (forall p, is_testing w p = true) ->
  (forall i, alloc_error w i = None) ->
  Forall (fun i => 0 <= i < n) xs ->
  forall s, progress_in 0 50 (now s) ->
  exists s' L,
    for_each xs (allocate_step w n cb) s = (s', Normal tt) /\
    log s' = log s ++ L /\
    labels L = flat_map (alloc_labels cb) xs /\
    Forall (fun e => progress_in 0 50 (snd e)) L /\
    progress (res (now s')) =
      last (map (fun i => Some (Py.int (Py.truediv (i + 1) n * 50))) xs)
           (progress (res (now s))) /\
    memory_blocks (now s') = memory_blocks (now s) ++ map (random_block w) xs /\
    blocks_tested (res (now s')) =
      last (map (fun i => i + 1) xs) (blocks_tested (res (now s))) /\
    errors_found (res (now s')) = errors_found (res (now s)) /\
    status (res (now s')) = status (res (now s)).
Proof.
  intros Ht Ha. induction 1 as [|i xs Hi Hxs IH]; intros s Hp.
  - exists s, []. cbn. rewrite !app_nil_r. repeat split; auto.
  - destruct (allocate_step_run w n cb i s (Ht _) (Ha _) Hi Hp)
      as (s1 & L1 & Hrun1 & Hlog1 & Hlab1 & Hall1 & Hp1 & Hblk1 & Hbt1 & Herr1 & Hst1).
    destruct (IH s1)
      as (s' & L & Hrun & Hlog & Hlab & Hall & Hp' & Hblk & Hbt & Herr & Hst).
    { unfold progress_in. rewrite Hp1. apply scaled_progress; lia. }
    exists s', (L1 ++ L). cbn [for_each]. rewrite Hrun1, Hrun.
    split; [reflexivity|].
    split. { now rewrite Hlog, Hlog1, app_assoc. }
    split. { unfold labels in *. rewrite map_app, Hlab1, Hlab. reflexivity. }
    split. { apply Forall_app. now split. }
    split. { rewrite Hp', Hp1. cbn [map]. now rewrite last_cons. }
    split. { rewrite Hblk, Hblk1, <- app_assoc. reflexivity. }
    split. { rewrite Hbt, Hbt1. cbn [map]. now rewrite last_cons. }
    split; congruence.
Qed.

Lemma verify_block_run w i block s :
  exists s',
    verify_block w i block s = (s', Normal tt) /\
    log s' = log s /\
    res (now s') =
      res (now (if sum_raises w i
                then fst (modify incr_errors_found s) else s)) /\
    memory_blocks (now s') = memory_blocks (now s).
Proof.
  unfold verify_block, py_sum. destruct (sum_raises w i).
  - eexists. split; [reflexivity|]. repeat split.
  - unfold try_except, bind, lift. rewrite Z.eqb_refl. cbn.
    eexists. split; [reflexivity|]. repeat split.
Qed.

Lemma test_step_run w len cb i block s :
  is_testing w (InLoop 1 i) = true ->
  0 <= i < len ->
  progress_within 50 100 (now s) ->
  exists s' L,
    test_step w len cb (i, block) s = (s', Normal Continue) /\
    log s' = log s ++ L /\
    labels L = test_labels cb i /\
    Forall (fun e => progress_within 50 100 (snd e) /\
                     memory_blocks (snd e) = memory_blocks (now s)) L /\
    progress (res (now s')) = Some (Py.int (50 + Py.truediv (i + 1) len * 50)) /\
    memory_blocks (now s') = memory_blocks (now s) /\
    blocks_tested (res (now s')) = blocks_tested (res (now s)) /\
    errors_found (res (now s')) =
      errors_found (res (now s)) + raised_sums w [i] /\
    status (res (now s')) = status (res (now s)).
Proof.
  intros Ht Hi Hp.
  assert (Hb : 50 <= Py.int (50 + Py.truediv (i + 1) len * 50) <= 100)
    by (apply shifted_progress; lia).
  destruct (verify_block_run w i block s) as (s1 & Hrun1 & Hlog1 & Hres1 & Hblk1).
  unfold test_step. rewrite Ht. cbn [negb]. unfold bind at 1. rewrite Hrun1.
  assert (Hp1 : progress_within 50 100 (now s1)).
  { unfold progress_within. rewrite Hres1. destruct (sum_raises w i); exact Hp. }
  assert (He : errors_found (res (now s1)) =
               errors_found (res (now s)) + raised_sums w [i]).
  { rewrite Hres1. unfold raised_sums. cbn [filter].
    destruct (sum_raises w i); cbn; lia. }
  assert (Hq : progress_within 50 100
                 (set_progress (Py.int (50 + Py.truediv (i + 1) len * 50)) (now s1))).
  { eexists; split; [reflexivity | exact Hb]. }
  destruct cb;
    cbn [bind assign modify emit lift ret call_back now log];
    rewrite <- !app_assoc; cbn [app];
    (eexists _, _; split; [reflexivity|]); cbn [now log];
    (split; [now rewrite Hlog1|]);
    (split; [reflexivity|]);
    (split; [repeat (apply Forall_cons || apply Forall_nil);
             (split; [assumption|exact Hblk1])|]);
    (split; [reflexivity|]);
    (split; [exact Hblk1|]);
    (split; [cbn; now rewrite Hres1; destruct (sum_raises w i)|]);
    (split; [exact He|]);
    cbn; rewrite Hres1; now destruct (sum_raises w i).
Qed.

Lemma raised_sums_cons w i xs :
  raised_sums w (i :: xs) = raised_sums w [i] + raised_sums w xs.
Proof.
  unfold raised_sums. cbn [filter]. destruct (sum_raises w i); cbn [List.length]; lia.
Qed.

Lemma test_loop w len cb ibs :
  (forall p, is_testing w p = true) ->
  Forall (fun ib : Z * list Z => 0 <= fst ib < len) ibs ->
  forall s, (ibs <> [] -> progress_within 50 100 (now s)) ->
  exists s' L,
    for_each ibs (test_step w len cb) s = (s', Normal tt) /\
    log s' = log s ++ L /\
    labels L = flat_map (test_labels cb) (map fst ibs) /\
    Forall (fun e => progress_within 50 100 (snd e) /\
                     memory_blocks (snd e) = memory_blocks (now s)) L /\
    memory_blocks (now s') = memory_blocks (now s) /\
    blocks_tested (res (now s')) = blocks_tested (res (now s)) /\
    errors_found (res (now s')) =
      errors_found (res (now s)) + raised_sums w (map fst ibs) /\
    status (res (now s')) = status (res (now s)).
Proof.
  intros Ht. induction 1 as [|[i block] ibs Hi Hibs IH]; intros s Hp.
  - exists s, []. cbn. rewrite !app_nil_r. repeat split; auto.
    unfold raised_sums. cbn. lia.
  - assert (Hp0 : progress_within 50 100 (now s)) by (apply Hp; discriminate).
    destruct (test_step_run w len cb i block s (Ht _) Hi Hp0)
      as (s1 & L1 & Hrun1 & Hlog1 & Hlab1 & Hall1 & Hp1 & Hblk1 & Hbt1 & Herr1 & Hst1).
    destruct (IH s1)
      as (s' & L & Hrun & Hlog & Hlab & Hall & Hblk & Hbt & Herr & Hst).
    { intros _. eexists; split; [exact Hp1|]. apply shifted_progress; cbn in Hi; lia. }
    exists s', (L1 ++ L). cbn [for_each]. rewrite Hrun1, Hrun.
    split; [reflexivity|].
    split. { now rewrite Hlog, Hlog1, app_assoc. }
    split. { unfold labels in *. rewrite map_app, Hlab1, Hlab. reflexivity. }
    split. { apply Forall_app. split; [exact Hall1|].
             eapply Forall_impl; [|exact Hall]. cbn. intros e [? ?]. split; congruence. }
    split. { congruence. }
    split. { congruence. }
    split. { rewrite Herr, Herr1. cbn [map fst].
             rewrite (raised_sums_cons w i (map fst ibs)). lia. }
    congruence.
Qed.

Lemma enumerate_fst {A} (l : list A) :
  map fst (enumerate l) = Py.range (Z.of_nat (List.length l)).
Proof.
  unfold enumerate.
  assert (H : List.length (Py.range (Z.of_nat (List.length l))) = List.length l)
    by (rewrite length_range; lia).
  revert H. generalize (Py.range (Z.of_nat (List.length l))) as xs.
  induction l as [|a l IH]; intros [|x xs] H; try discriminate; [reflexivity|].
  cbn. f_equal. apply IH. now injection H.
Qed.

Lemma enumerate_bounds {A} (l : list A) :
  Forall (fun ib : Z * A => 0 <= fst ib < Z.of_nat (List.length l)) (enumerate l).
Proof.
  apply Forall_forall. intros ib Hin.
  apply In_range. rewrite <- enumerate_fst. now apply in_map.
Qed.

Lemma random_block_length w i : Z.of_nat (List.length (random_block w i)) = 1024 * 1024.
Proof.
  unfold random_block. rewrite length_map, length_range.
  apply Z2Nat.id. unfold block_size. lia.
Qed.

(** Byte [j] of block [i] is the [j]-th draw of [random.getrandbits(8)] made
    for that block. *)
Lemma random_blocks_bytes w size i j :
  0 <= i < size -> 0 <= j < 1024 * 1024 ->
  exists block,
    nth_error (map (random_block w) (Py.range size)) (Z.to_nat i) = Some block /\
    Z.of_nat (List.length block) = 1024 * 1024 /\
    nth_error block (Z.to_nat j) = Some (getrandbits8 w i j).
Proof.
  intros Hi Hj. exists (random_block w i).
  split; [now apply nth_error_map_range|].
  split; [apply random_block_length|].
  unfold random_block. apply nth_error_map_range. exact Hj.
Qed.

(** C6: a run with [0 <= size] that is not stopped and in which no
    allocation raises goes through [size] allocations, then [size]
    verifications, then the closing statements.  While the blocks are
    verified there are [size] of them, each of 1024 * 1024 bytes, and byte
    [j] of block [i] is what [random.getrandbits(8)] returned for it;
    progress stays in 0..50 while allocating and in 50..100 while
    verifying; [errors_found] ends as the number of blocks whose
    verification failed; [blocks_tested] ends as [size]. *)
Theorem memory_test_complete_run size callback (w : env) :
  0 <= size ->
  (forall p, is_testing w p = true) ->
  (forall i, alloc_error w i = None) ->
  exists final alloc_log test_log final_log,
    memory_test size callback w = (final, Normal tt) /\
    log final = alloc_log ++ test_log ++ final_log /\
    labels alloc_log = flat_map (alloc_labels callback) (Py.range size) /\
    Forall (fun e => progress_in 0 50 (snd e)) alloc_log /\
    labels test_log = flat_map (test_labels callback) (Py.range size) /\
    Forall (fun e =>
              progress_within 50 100 (snd e) /\
              Z.of_nat (List.length (memory_blocks (snd e))) = size /\
              forall i j, 0 <= i < size -> 0 <= j < 1024 * 1024 ->
                exists block,
                  nth_error (memory_blocks (snd e)) (Z.to_nat i) = Some block /\
                  Z.of_nat (List.length block) = 1024 * 1024 /\
                  nth_error block (Z.to_nat j) = Some (getrandbits8 w i j))
           test_log /\
    labels final_log = [LProgress; LStatus; LSetTesting false] ++ cb_labels callback /\
    blocks_tested (res (now final)) = size /\
    errors_found (res (now final)) = raised_sums w (Py.range size) /\
    progress (res (now final)) = Some 100 /\
    status (res (now final)) = "Completed".
Proof.
  intros Hsize Ht Ha.
  unfold memory_test, run, memory_test_worker, try_except.
  unfold bind at 1.
  destruct (allocate_loop w size callback (Py.range size) Ht Ha)
    with (s := {| now := initial size; log := [] |})
    as (s1 & L1 & Hrun1 & Hlog1 & Hlab1 & Hall1 & Hp1 & Hblk1 & Hbt1 & Herr1 & Hst1).
  { apply Forall_forall. intros i. apply In_range. }
  { exact I. }
  rewrite Hrun1. unfold bind at 1, get at 1. unfold bind at 1.
  cbn [now log initial res memory_blocks app progress blocks_tested
       errors_found status] in *.
  assert (Hrange : Py.range (Z.of_nat (List.length (memory_blocks (now s1))))
                   = Py.range size).
  { rewrite Hblk1, length_map, length_range. f_equal. lia. }
  destruct (test_loop w (Z.of_nat (List.length (memory_blocks (now s1)))) callback
              (enumerate (memory_blocks (now s1))) Ht (enumerate_bounds _) s1)
    as (s2 & L2 & Hrun2 & Hlog2 & Hlab2 & Hall2 & Hblk2 & Hbt2 & Herr2 & Hst2).
  { intros Hne. exists 50. rewrite Hp1. split; [|lia].
    assert (0 < size).
    { destruct (Z.eq_dec size 0) as [->|]; [|lia].
      exfalso. apply Hne. rewrite Hblk1. reflexivity. }
    replace size with ((size - 1) + 1) at 1 by lia.
    rewrite range_succ, map_app by lia. cbn [map]. rewrite last_last.
    replace (size - 1 + 1) with size by lia.
    now rewrite scaled_progress_full. }
  rewrite Hrun2. rewrite (Ht AtEnd).
  rewrite enumerate_fst, Hrange in Hlab2, Herr2.
  assert (Hbt : blocks_tested (res (now s2)) = size).
  { rewrite Hbt2, Hbt1. destruct (Z.eq_dec size 0) as [->|]; [reflexivity|].
    apply last_range_succ. lia. }
  destruct callback;
    cbn [bind assign modify emit lift ret call_back now log];
    rewrite Hlog2, Hlog1, <- !app_assoc; cbn [app];
    (eexists _, L1, L2, _; split; [reflexivity|]); cbn [now log];
    (split; [reflexivity|]);
    (split; [exact Hlab1|]);
    (split; [exact Hall1|]);
    (split; [exact Hlab2|]);
    (split; [eapply Forall_impl; [|exact Hall2]; cbn beta;
             intros e [Hp Hm]; split; [exact Hp|];
             assert (Hmb : memory_blocks (snd e)
                           = map (random_block w) (Py.range size))
               by congruence;
             rewrite Hmb; split;
             [rewrite length_map, length_range; lia
             |intros i j Hi Hj; now apply random_blocks_bytes]|]);
    (split; [reflexivity|]);
    (split; [exact Hbt|]);
    (split; [cbn; lia|]);
    split; reflexivity.
Qed.

(** The theorem at work: two blocks on a quiet machine.  While they are
    verified, byte 3 of block 1 is [(31 * 1 + 7 * 3) mod 256 = 52], the
    value [quiet] draws for it. *)
Lemma memory_test_complete_run_witness :
  0 <= 2 /\
  (forall p, is_testing quiet p = true) /\
  (forall i, alloc_error quiet i = None) /\
  exists final alloc_log test_log final_log,
    memory_test 2 true quiet = (final, Normal tt) /\
    log final = alloc_log ++ test_log ++ final_log /\
    labels test_log =
      [LVerify 0; LProgress; LCallback; LSleep 50;
       LVerify 1; LProgress; LCallback; LSleep 50] /\
    Forall (fun e =>
              exists block,
                nth_error (memory_blocks (snd e)) 1 = Some block /\
                Z.of_nat (List.length block) = 1024 * 1024 /\
                nth_error block 3 = Some 52) test_log /\
    blocks_tested (res (now final)) = 2 /\
    errors_found (res (now final)) = 0 /\
    status (res (now final)) = "Completed".
Proof.
  split; [lia|]. split; [reflexivity|]. split; [reflexivity|].
  destruct (memory_test_complete_run 2 true quiet) as
    (final & alloc_log & test_log & final_log & Hrun & Hlog & _ & _ & Hlab
       & Hblocks & _ & Hbt & Herr & _ & Hst);
    [lia | reflexivity | reflexivity |].
  exists final, alloc_log, test_log, final_log.
  split; [exact Hrun|]. split; [exact Hlog|]. split; [exact Hlab|].
  split.
  { eapply Forall_impl; [|exact Hblocks].
    intros e (_ & _ & Hbytes).
    exact (Hbytes 1 3 ltac:(lia) ltac:(lia)). }
  split; [exact Hbt|]. split; [|exact Hst].
  rewrite Herr. reflexivity.
Defined.

(** C6 without its conditions: asked for -1 megabytes on the same machine,
    the test allocates nothing, is never stopped and ends 'Completed', and
    ['blocks_tested'] is 0, not the -1 of [test_size_mb]. *)
Lemma negative_size_tests_no_block :
  (forall p, is_testing quiet p = true) /\
  (forall i, alloc_error quiet i = None) /\
  let final := fst (memory_test (-1) true quiet) in
  snd (memory_test (-1) true quiet) = Normal tt /\
  labels (log final) = [LProgress; LStatus; LSetTesting false; LCallback] /\
  status (res (now final)) = "Completed" /\
  error (res (now final)) = None /\
  test_size_mb (res (now final)) = -1 /\
  blocks_tested (res (now final)) = 0 /\
  blocks_tested (res (now final)) <> test_size_mb (res (now final)).
Proof.
  split; [reflexivity|]. split; [reflexivity|].
  vm_compute. repeat split; try reflexivity. discriminate.
Qed.

End MemoryFacts.

(** ** The disk speed test *)

Module DiskFacts.
Import Worker WorkerFacts DiskTest PyFacts.

#[local] Arguments Py.int : simpl never.
#[local] Arguments Py.truediv : simpl never.
#[local] Arguments Py.range : simpl never.

Lemma write_step_run w n cb i s :
  is_testing w (InLoop 0 i) = true ->
  write_error w i = None ->
  0 <= i < n ->
  progress_in 0 50 (now s) ->
  exists s' L,
    write_step w n cb i s = (s', Normal Continue) /\
    log s' = log s ++ L /\
    labels L = write_labels n cb i /\
    Forall (fun e => progress_in 0 50 (snd e)) L /\
    progress (now s') = Py.int (Py.truediv (i + 1) n * 50) /\
    status (now s') = status (now s).
Proof.
  intros Ht He Hi Hp.
  assert (Hb : 0 <= Py.int (Py.truediv (i + 1) n * 50) <= 50)
    by (apply scaled_progress; lia).
  unfold write_step, write_labels. rewrite Ht, He.
  destruct (reports n i); destruct cb;
    cbn [negb bind assign modify emit lift ret call_back attempt now log];
    rewrite <- ?app_assoc; cbn [app];
    (eexists _, _; split; [reflexivity|]); cbn [now log];
    (split; [reflexivity|]);
    (split; [reflexivity|]);
    (split; [repeat (apply Forall_cons || apply Forall_nil); assumption|]);
    split; reflexivity.
Qed.

Lemma read_step_run w n cb i s :
  is_testing w (InLoop 1 i) = true ->
  read_error w i = None ->
  0 <= i < n ->
  progress_in 50 100 (now s) ->
  exists s' L,
    read_step w n cb i s = (s', Normal Continue) /\
    log s' = log s ++ L /\
    labels L = read_labels n cb i /\
    Forall (fun e => progress_in 50 100 (snd e)) L /\
    progress (now s') = Py.int (50 + Py.truediv (i + 1) n * 50) /\
    status (now s') = status (now s).
Proof.
  intros Ht He Hi Hp.
  assert (Hb : 50 <= Py.int (50 + Py.truediv (i + 1) n * 50) <= 100)
    by (apply shifted_progress; lia).
  unfold read_step, read_labels. rewrite Ht, He.
  destruct (reports n i); destruct cb;
    cbn [negb bind assign modify emit lift ret call_back attempt now log];
    rewrite <- ?app_assoc; cbn [app];
    (eexists _, _; split; [reflexivity|]); cbn [now log];
    (split; [reflexivity|]);
    (split; [reflexivity|]);
    (split; [repeat (apply Forall_cons || apply Forall_nil); assumption|]);
    split; reflexivity.
Qed.

Lemma write_loop w n cb xs :
  (forall p, is_testing w p = true) ->
  (forall i, write_error w i = None) ->
  Forall (fun i => 0 <= i < n) xs ->
  forall s, progress_in 0 50 (now s) ->
  exists s' L,
    for_each xs (write_step w n cb) s = (s', Normal tt) /\
    log s' = log s ++ L /\
    labels L = flat_map (write_labels n cb) xs /\
    Forall (fun e => progress_in 0 50 (snd e)) L /\
    progress (now s') =
      last (map (fun i => Py.int (Py.truediv (i + 1) n * 50)) xs)
           (progress (now s)) /\
    status (now s') = status (now s).
Proof.
  intros Ht He. induction 1 as [|i xs Hi Hxs IH]; intros s Hp.
  - exists s, []. cbn. rewrite !app_nil_r. repeat split; auto.
  - destruct (write_step_run w n cb i s (Ht _) (He _) Hi Hp)
      as (s1 & L1 & Hrun1 & Hlog1 & Hlab1 & Hall1 & Hp1 & Hst1).
    destruct (IH s1) as (s' & L & Hrun & Hlog & Hlab & Hall & Hp' & Hst).
    { unfold progress_in. rewrite Hp1. apply scaled_progress; lia. }
    exists s', (L1 ++ L). cbn [for_each]. rewrite Hrun1, Hrun.
    split; [reflexivity|].
    split. { now rewrite Hlog, Hlog1, app_assoc. }
    split. { unfold labels in *. rewrite map_app, Hlab1, Hlab. reflexivity. }
    split. { apply Forall_app. now split. }
    split. { rewrite Hp', Hp1. cbn [map]. now rewrite last_cons. }
    congruence.
Qed.

Lemma read_loop w n cb xs :
  (forall p, is_testing w p = true) ->
  (forall i, read_error w i = None) ->
  Forall (fun i => 0 <= i < n) xs ->
  forall s, (xs <> [] -> progress_in 50 100 (now s)) ->
  exists s' L,
    for_each xs (read_step w n cb) s = (s', Normal tt) /\
    log s' = log s ++ L /\
    labels L = flat_map (read_labels n cb) xs /\
    Forall (fun e => progress_in 50 100 (snd e)) L /\
    status (now s') = status (now s).
Proof.
  intros Ht He. induction 1 as [|i xs Hi Hxs IH]; intros s Hp.
  - exists s, []. cbn. rewrite !app_nil_r. repeat split; auto.
  - assert (Hp0 : progress_in 50 100 (now s)) by (apply Hp; discriminate).
    destruct (read_step_run w n cb i s (Ht _) (He _) Hi Hp0)
      as (s1 & L1 & Hrun1 & Hlog1 & Hlab1 & Hall1 & Hp1 & Hst1).
    destruct (IH s1) as (s' & L & Hrun & Hlog & Hlab & Hall & Hst).
    { intros _. unfold progress_in. rewrite Hp1. apply shifted_progress; lia. }
    exists s', (L1 ++ L). cbn [for_each]. rewrite Hrun1, Hrun.
    split; [reflexivity|].
    split. { now rewrite Hlog, Hlog1, app_assoc. }
    split. { unfold labels in *. rewrite map_app, Hlab1, Hlab. reflexivity. }
    split. { apply Forall_app. now split. }
    congruence.
Qed.

Lemma reports_spec size i :
  reports size i = true <-> (i + 1) mod 5 = 0 \/ i = size - 1.
Proof.
  unfold reports. rewrite orb_true_iff, !Z.eqb_eq. reflexivity.
Qed.

(** C8: in a run that is not stopped and in which no file operation raises,
    the log is the write phase, then the read phase, then the closing
    statements: every [f.write] comes before every [f.read].  Progress stays
    in 0..50 while writing and in 50..100 while reading.  Within a phase the
    callback follows chunk [i] only when [(i + 1) % 5 == 0] or [i] is the
    last chunk. *)
Theorem disk_test_complete_run size callback (w : env) :
  (forall p, is_testing w p = true) ->
  tempfile_error w = None ->
  (forall k, open_error w k = None) ->
  (forall i, write_error w i = None) ->
  (forall i, read_error w i = None) ->
  exists final write_log read_log final_log,
    disk_speed_test size callback w = (final, Normal tt) /\
    log final = write_log ++ read_log ++ final_log /\
    labels write_log = flat_map (write_labels size callback) (Py.range size) /\
    Forall (fun e => progress_in 0 50 (snd e)) write_log /\
    labels read_log = flat_map (read_labels size callback) (Py.range size) /\
    Forall (fun e => progress_in 50 100 (snd e)) read_log /\
    labels final_log = [LStatus; LProgress; LSetTesting false] ++ cb_labels callback /\
    (forall i, In LCallback (write_labels size callback i) ->
               (i + 1) mod 5 = 0 \/ i = size - 1) /\
    (forall i, In LCallback (read_labels size callback i) ->
               (i + 1) mod 5 = 0 \/ i = size - 1).
Proof.
  intros Ht Htmp Hopen Hw Hr.
  unfold disk_speed_test, run, disk_test_worker, try_except.
  rewrite Htmp, !Hopen.
  cbn [attempt]. unfold bind at 1. unfold ret at 1. unfold bind at 1.
  unfold ret at 1. unfold bind at 1.
  destruct (write_loop w size callback (Py.range size) Ht Hw)
    with (s := {| now := initial size; log := [] |})
    as (s1 & L1 & Hrun1 & Hlog1 & Hlab1 & Hall1 & Hp1 & Hst1).
  { apply Forall_forall. intros i. apply In_range. }
  { unfold progress_in. cbn. lia. }
  rewrite Hrun1.
  cbn [bind modify ret now log].
  unfold bind at 1.
  match goal with |- context [for_each _ _ ?st] =>
    destruct (read_loop w size callback (Py.range size) Ht Hr) with (s := st)
      as (s2 & L2 & Hrun2 & Hlog2 & Hlab2 & Hall2 & Hst2) end.
  { apply Forall_forall. intros i. apply In_range. }
  { intros Hne. unfold progress_in. cbn [now progress set_write_speed_mbps].
    rewrite Hp1.
    assert (0 < size).
    { destruct (Z_lt_le_dec 0 size); [assumption|]. exfalso. apply Hne.
      unfold Py.range. now replace (Z.to_nat size) with 0%nat by lia. }
    rewrite last_scaled_progress by assumption. lia. }
  rewrite Hrun2. rewrite (Ht AtEnd).
  cbn [now log] in Hlog2.
  assert (Hcb : forall i l, In LCallback
                 ((l :: [LProgress]) ++ (if reports size i then cb_labels callback else [])) ->
                 l <> LCallback -> (i + 1) mod 5 = 0 \/ i = size - 1).
  { intros i l Hin Hl. apply reports_spec. destruct (reports size i); [reflexivity|].
    cbn in Hin. destruct Hin as [?|[?|[]]]; congruence. }
  destruct callback;
    cbn [bind assign modify emit lift ret call_back now log];
    rewrite Hlog2, Hlog1, <- !app_assoc; cbn [app];
    (eexists _, L1, L2, _; split; [reflexivity|]); cbn [now log];
    (split; [reflexivity|]);
    (split; [exact Hlab1|]);
    (split; [exact Hall1|]);
    (split; [exact Hlab2|]);
    (split; [exact Hall2|]);
    (split; [reflexivity|]);
    (split; intros i Hin; apply (Hcb i _ Hin); discriminate).
Qed.

(** The theorem at work: ten chunks on a quiet disk; the callback follows
    the fifth and the tenth. *)
Lemma disk_test_complete_run_witness :
  (forall p, is_testing quiet p = true) /\
  exists final write_log read_log final_log,
    disk_speed_test 10 true quiet = (final, Normal tt) /\
    log final = write_log ++ read_log ++ final_log /\
    labels write_log =
      [LWrite 0; LProgress; LWrite 1; LProgress; LWrite 2; LProgress;
       LWrite 3; LProgress; LWrite 4; LProgress; LCallback;
       LWrite 5; LProgress; LWrite 6; LProgress; LWrite 7; LProgress;
       LWrite 8; LProgress; LWrite 9; LProgress; LCallback] /\
    labels read_log =
      [LRead 0; LProgress; LRead 1; LProgress; LRead 2; LProgress;
       LRead 3; LProgress; LRead 4; LProgress; LCallback;
       LRead 5; LProgress; LRead 6; LProgress; LRead 7; LProgress;
       LRead 8; LProgress; LRead 9; LProgress; LCallback].
Proof.
  split; [reflexivity|].
  destruct (disk_test_complete_run 10 true quiet)
    as (final & wl & rl & fl & Hrun & Hlog & Hw & _ & Hr & _);
    try reflexivity.
  exists final, wl, rl, fl. split; [exact Hrun|]. split; [exact Hlog|].
  split; [exact Hw|exact Hr].
Defined.

End DiskFacts.

(** ** Progress and status along a run *)

Module ProgressFacts.
Import Worker WorkerFacts PyFacts.

#[local] Arguments Py.int : simpl never.
#[local] Arguments Py.truediv : simpl never.
#[local] Arguments Py.range : simpl never.

Section Generic.
Context {S : Type} `{Progress S}.

Lemma running_settled_at_100 (s : S) : running s -> settled_at_100 s.
Proof.
  unfold running, settled_at_100, settled.
  intros Hr [Hs|Hs]; rewrite Hr in Hs; discriminate.
Qed.

Lemma good_impl (P Q : S -> Prop) (s : state S) :
  (forall x, P x -> Q x) -> good P s -> good Q s.
Proof.
  intros HPQ [H1 H2]. split; [auto|].
  eapply Forall_impl; [|exact H2]. intros e. apply HPQ.
Qed.

Lemma good_extend (P : S -> Prop) (s : state S) (x : S)
  (entries : list (label * S)) :
  good P s -> Forall (fun e => P (snd e)) entries -> P x ->
  good P {| now := x; log := log s ++ entries |}.
Proof.
  intros [_ H2] He Hx. split; [exact Hx|]. cbn. apply Forall_app. now split.
Qed.

Lemma good_full_when_status_set (s : state S) :
  good settled_at_100 s -> full_when_status_set s.
Proof.
  intros [_ H2] r Hin. rewrite Forall_forall in H2. exact (H2 _ Hin).
Qed.

Lemma good_full_when_reported (s : state S) :
  good settled_at_100 s -> full_when_reported s.
Proof.
  intros [H1 H2]. split; [exact H1|]. intros l r Hin _.
  rewrite Forall_forall in H2. exact (H2 _ Hin).
Qed.

(** A closing sequence that assigns the status first: what was logged
    while the test was running, then the status, then entries at 100. *)
Lemma reported_extend (s : state S) (x r : S) (entries : list (label * S)) :
  good running s ->
  Forall (fun e => settled_at_100 (snd e)) entries ->
  settled_at_100 x ->
  full_when_reported
    {| now := x; log := log s ++ (LStatus, r) :: entries |}.
Proof.
  intros [_ H2] He Hx. split; [exact Hx|]. cbn. intros l r' Hin Hl.
  apply in_app_or in Hin. destruct Hin as [Hin|[Hin|Hin]].
  - apply running_settled_at_100. rewrite Forall_forall in H2. exact (H2 _ Hin).
  - congruence.
  - rewrite Forall_forall in He. exact (He _ Hin).
Qed.

Lemma closes_bind {A B} (P : S -> Prop) (Q : state S -> Prop)
  (m : M S A) (k : A -> M S B) (h : string -> M S B) :
  preserves P m ->
  (forall a, closes P Q (k a) h) ->
  (forall e s, good P s -> Q (fst (h e s))) ->
  closes P Q (bind m k) h.
Proof.
  intros Hm Hk Hh s Hs. specialize (Hm s Hs).
  unfold try_except, bind. destruct (m s) as [s1 [a|e]]; cbn in Hm.
  - apply (Hk a s1 Hm).
  - apply (Hh e s1 Hm).
Qed.

End Generic.

Ltac settle :=
  unfold settled_at_100, settled, running; cbn;
  first [ reflexivity
        | intros _; reflexivity
        | intros [?|?]; discriminate
        | lia ].

(** *** The memory test *)

Section Memory.
Import MemoryTest MemoryFacts.

Lemma memory_bounded size cb w :
  preserves bounded (memory_test_worker size cb w).
Proof.
  unfold memory_test_worker.
  apply preserves_try_except.
  - apply preserves_bind.
    + apply preserves_for_each. intros i Hi. apply In_range in Hi.
      unfold allocate_step.
      destruct (negb _); [apply preserves_ret|].
      repeat preserves_step; try assumption.
      unfold bounded. cbn.
      pose proof (scaled_progress (i + 1) size). lia.
    + intros _. apply preserves_bind; [apply preserves_get|]. intros s.
      apply preserves_bind.
      * apply preserves_for_each. intros [i b] Hi.
        apply (in_map fst) in Hi. rewrite enumerate_fst in Hi.
        apply In_range in Hi. cbn [fst] in Hi.
        unfold test_step, verify_block.
        destruct (negb _); [apply preserves_ret|].
        repeat preserves_step; try assumption.
        unfold bounded. cbn.
        pose proof (shifted_progress (i + 1)
                      (Z.of_nat (List.length (memory_blocks s)))). lia.
      * intros _. repeat preserves_step; try assumption.
        unfold bounded. cbn. lia.
  - intros e. repeat preserves_step; assumption.
Qed.

Lemma memory_stays_running_allocating size cb w i :
  preserves running (allocate_step w size cb i).
Proof.
  unfold allocate_step. destruct (negb _); [apply preserves_ret|].
  repeat preserves_step; assumption.
Qed.

Lemma memory_stays_running_testing len cb w ib :
  preserves running (test_step w len cb ib).
Proof.
  destruct ib as [i b]. unfold test_step, verify_block.
  repeat preserves_step; assumption.
Qed.

Lemma memory_failure_settled cb e s :
  good running s ->
  good settled_at_100
    (fst ((modify (set_error e) ;;
           assign LStatus (set_status "Error") ;;
           emit (LSetTesting false) ;;
           call_back cb)%worker s)).
Proof.
  intros Hs. apply (good_impl _ _ _ running_settled_at_100) in Hs.
  destruct cb; cbn [bind assign modify emit ret call_back now log fst];
    rewrite <- ?app_assoc; cbn [app];
    (apply good_extend; [exact Hs| |settle]);
    repeat (apply Forall_cons || apply Forall_nil); settle.
Qed.

Lemma memory_settled_at_100 size cb w :
  good settled_at_100 (fst (memory_test size cb w)).
Proof.
  unfold memory_test, run, memory_test_worker.
  match goal with |- context [try_except ?m ?h] =>
    cut (closes running (good settled_at_100) m h) end.
  { intros Hc. apply Hc. split; [reflexivity|constructor]. }
  pose proof (memory_failure_settled cb) as Hfail.
  apply closes_bind; [|intros _|exact Hfail].
  { apply preserves_for_each. intros i _. apply memory_stays_running_allocating. }
  apply closes_bind; [apply preserves_get|intros s0|exact Hfail].
  apply closes_bind; [|intros _|exact Hfail].
  { apply preserves_for_each. intros ib _. apply memory_stays_running_testing. }
  intros s Hs. apply (good_impl _ _ _ running_settled_at_100) in Hs.
  unfold try_except.
  destruct cb; cbn [bind assign modify emit ret call_back now log fst];
    rewrite <- ?app_assoc; cbn [app];
    (apply good_extend; [exact Hs| |settle]);
    repeat (apply Forall_cons || apply Forall_nil); settle.
Qed.

End Memory.

(** *** The disk speed test *)

Section Disk.
Import DiskTest.

Lemma preserves_attempt (P : results -> Prop) e : preserves P (attempt e).
Proof. destruct e; [apply preserves_raise|apply preserves_ret]. Qed.

Lemma disk_bounded size cb w :
  preserves bounded (disk_test_worker size cb w).
Proof.
  unfold disk_test_worker.
  apply preserves_try_except; [|intros e; repeat preserves_step; assumption].
  apply preserves_bind; [apply preserves_attempt|intros _].
  apply preserves_bind; [apply preserves_attempt|intros _].
  apply preserves_bind; [|intros _].
  { apply preserves_for_each. intros i Hi. apply In_range in Hi.
    unfold write_step. destruct (negb _); [apply preserves_ret|].
    apply preserves_bind; [apply preserves_attempt|intros _].
    repeat preserves_step.
    unfold bounded. cbn. pose proof (scaled_progress (i + 1) size). lia. }
  apply preserves_bind; [apply preserves_modify; intros x Hx; exact Hx|intros _].
  apply preserves_bind; [apply preserves_attempt|intros _].
  apply preserves_bind; [|intros _].
  { apply preserves_for_each. intros i Hi. apply In_range in Hi.
    unfold read_step. destruct (negb _); [apply preserves_ret|].
    apply preserves_bind; [apply preserves_attempt|intros _].
    repeat preserves_step.
    unfold bounded. cbn. pose proof (shifted_progress (i + 1) size). lia. }
  repeat preserves_step; try assumption.
  unfold bounded. cbn. lia.
Qed.

Lemma disk_stays_running_writing size cb w i :
  preserves running (write_step w size cb i).
Proof.
  unfold write_step. destruct (negb _); [apply preserves_ret|].
  apply preserves_bind; [apply preserves_attempt|intros _].
  repeat preserves_step; assumption.
Qed.

Lemma disk_stays_running_reading size cb w i :
  preserves running (read_step w size cb i).
Proof.
  unfold read_step. destruct (negb _); [apply preserves_ret|].
  apply preserves_bind; [apply preserves_attempt|intros _].
  repeat preserves_step; assumption.
Qed.

Lemma disk_failure_reported cb e s :
  good running s ->
  full_when_reported
    (fst ((modify (set_error e) ;;
           assign LStatus (set_status "Error") ;;
           emit (LSetTesting false) ;;
           call_back cb)%worker s)).
Proof.
  intros Hs.
  destruct cb; cbn [bind assign modify emit ret call_back now log fst];
    rewrite <- ?app_assoc; cbn [app];
    (apply reported_extend; [exact Hs| |settle]);
    repeat (apply Forall_cons || apply Forall_nil); settle.
Qed.

Lemma disk_full_when_reported size cb w :
  full_when_reported (fst (disk_speed_test size cb w)).
Proof.
  unfold disk_speed_test, run, disk_test_worker.
  match goal with |- context [try_except ?m ?h] =>
    cut (closes running full_when_reported m h) end.
  { intros Hc. apply Hc. split; [reflexivity|constructor]. }
  pose proof (disk_failure_reported cb) as Hfail.
  apply closes_bind; [apply preserves_attempt|intros _|exact Hfail].
  apply closes_bind; [apply preserves_attempt|intros _|exact Hfail].
  apply closes_bind; [|intros _|exact Hfail].
  { apply preserves_for_each. intros i _. apply disk_stays_running_writing. }
  apply closes_bind;
    [apply preserves_modify; intros x Hx; exact Hx|intros _|exact Hfail].
  apply closes_bind; [apply preserves_attempt|intros _|exact Hfail].
  apply closes_bind; [|intros _|exact Hfail].
  { apply preserves_for_each. intros i _. apply disk_stays_running_reading. }
  apply closes_bind;
    [apply preserves_modify; intros x Hx; exact Hx|intros _|exact Hfail].
  intros s Hs. unfold try_except.
  destruct cb; cbn [bind assign modify emit ret call_back now log fst];
    rewrite <- ?app_assoc; cbn [app];
    (apply reported_extend; [exact Hs| |settle]);
    repeat (apply Forall_cons || apply Forall_nil); settle.
Qed.

End Disk.

(** *** The CPU stress test *)

Section Cpu.
Import CpuTest.

Lemma Qlt_bool_lt x y : Qlt_bool x y = true -> (x < y)%Q.
Proof.
  unfold Qlt_bool. intros H. apply negb_true_iff in H.
  apply Qnot_le_lt. intros Hle. apply Qle_bool_iff in Hle. congruence.
Qed.

(** When the loop condition holds on a clock that was not set back, the
    duration is positive. *)
Lemma guard_positive w dur i :
  clock_not_set_back w -> 0 <= i -> guard w dur i = true -> 0 < dur.
Proof.
  intros Hc Hi Hg. unfold guard in Hg. apply andb_true_iff in Hg.
  destruct Hg as [Hg _]. apply Qlt_bool_lt in Hg.
  destruct (Hc i Hi) as [H1 _].
  assert (0 < inject_Z dur)%Q by lra.
  now rewrite <- (Zlt_Qlt 0) in H.
Qed.

Lemma cpu_loop_preserves (P : store -> Prop) w dur cb :
  (forall i, 0 <= i -> guard w dur i = true ->
             preserves P (monitor_step w dur cb i)) ->
  forall fuel i, 0 <= i -> preserves P (monitor_loop fuel w dur cb i).
Proof.
  intros Hstep. induction fuel as [|fuel IH]; intros i Hi; cbn [monitor_loop];
    destruct (guard w dur i) eqn:Hg; try apply preserves_ret.
  apply preserves_bind; [now apply Hstep|intros _; apply IH; lia].
Qed.

Lemma cpu_step_bounded w dur cb i :
  clock_not_set_back w -> 0 <= i -> guard w dur i = true ->
  preserves bounded (monitor_step w dur cb i).
Proof.
  intros Hc Hi Hg. pose proof (guard_positive w dur i Hc Hi Hg) as Hdur.
  unfold monitor_step, update_progress, record_usage, record_temperature.
  apply preserves_bind; [|intros _; repeat preserves_step; assumption].
  destruct (dur =? 0); [apply preserves_raise|].
  - apply preserves_assign. intros x _. unfold bounded. cbn.
    assert (0 <= Py.int ((progress_time w i - start_time w) / inject_Z dur * 100)).
    { apply int_nonneg. destruct (Hc i Hi) as [_ H2].
      assert (Hd : (0 < inject_Z dur)%Q) by (rewrite <- (Zlt_Qlt 0); lia).
      apply Qmult_le_0_compat; [|discriminate].
      apply Qle_shift_div_l; [exact Hd|]. lra. }
    lia.
Qed.

Lemma cpu_bounded fuel dur cb w :
  clock_not_set_back w ->
  preserves bounded (monitor_worker fuel dur cb w).
Proof.
  intros Hc. unfold monitor_worker.
  apply preserves_bind.
  - apply cpu_loop_preserves; [|lia]. intros i Hi Hg. now apply cpu_step_bounded.
  - intros [|]; repeat preserves_step; try assumption.
    unfold bounded. cbn. lia.
Qed.

Lemma cpu_step_stays_running w dur cb i :
  preserves running (monitor_step w dur cb i).
Proof.
  unfold monitor_step, update_progress, record_usage, record_temperature.
  repeat preserves_step; assumption.
Qed.

Lemma cpu_settled_at_100 fuel dur cb w :
  good settled_at_100 (fst (cpu_stress_test fuel dur cb w)).
Proof.
  unfold cpu_stress_test, run, monitor_worker, bind at 1.
  pose proof (cpu_loop_preserves running w dur cb
                (fun i _ _ => cpu_step_stays_running w dur cb i) fuel 0
                (Z.le_refl 0) {| now := initial dur; log := [] |}) as Hloop.
  destruct (monitor_loop fuel w dur cb 0 _) as [s [[|]|e]]; cbn [fst] in Hloop.
  - assert (Hs : good running s) by (apply Hloop; split; [reflexivity|constructor]).
    apply (good_impl _ _ _ running_settled_at_100) in Hs.
    destruct cb; cbn [bind assign modify emit ret call_back get now log fst];
      rewrite <- ?app_assoc; cbn [app];
      (apply good_extend; [exact Hs| |settle]);
      repeat (apply Forall_cons || apply Forall_nil); settle.
  - apply (good_impl _ _ _ running_settled_at_100).
    apply Hloop; split; [reflexivity|constructor].
  - apply (good_impl _ _ _ running_settled_at_100).
    apply Hloop; split; [reflexivity|constructor].
Qed.

Lemma cpu_step_returns w dur cb i :
  dur <> 0 -> returns (monitor_step w dur cb i).
Proof.
  intros Hd. unfold monitor_step, update_progress, record_usage, record_temperature.
  apply Z.eqb_neq in Hd. rewrite Hd. repeat returns_step.
Qed.

(** The loop ends as soon as its condition fails, given fuel for the
    iterations before that. *)
Lemma cpu_loop_ends w dur cb n :
  dur <> 0 ->
  forall i s, guard w dur (i + Z.of_nat n) = false ->
  exists s', monitor_loop n w dur cb i s = (s', Normal true).
Proof.
  intros Hd. induction n as [|n IH]; intros i s Hg; cbn [monitor_loop].
  - replace (i + Z.of_nat 0) with i in Hg by lia. rewrite Hg. now exists s.
  - destruct (guard w dur i); [|now exists s].
    destruct (cpu_step_returns w dur cb i Hd s) as (s1 & [] & Hs1).
    unfold bind. rewrite Hs1. apply IH.
    replace (i + 1 + Z.of_nat n) with (i + Z.of_nat (S n)) by lia. exact Hg.
Qed.

Lemma cpu_test_ends w dur cb n :
  dur <> 0 -> guard w dur (Z.of_nat n) = false ->
  exists final,
    cpu_stress_test n dur cb w = (final, Normal true) /\
    settled (now final) /\ progress (res (now final)) = Some 100.
Proof.
  intros Hd Hg. unfold cpu_stress_test, run, monitor_worker, bind at 1.
  destruct (cpu_loop_ends w dur cb n Hd 0 {| now := initial dur; log := [] |} Hg)
    as [s Hs].
  rewrite Hs.
  destruct cb; cbn [bind assign modify emit ret call_back get now log];
    (eexists; split; [reflexivity|]); cbn;
    (split; [|reflexivity]); unfold settled; cbn;
    destruct (is_testing w AtEnd); auto.
Qed.

End Cpu.

(** *** The charging test *)

Section Charging.
Import ChargingTest.

Lemma charging_step_preserves (P : store -> Prop) w cb total check :
  (forall f x, P x ->
     progress (f (res x)) = progress (res x) ->
     status (f (res x)) = status (res x) -> P (with_res f x)) ->
  (forall v x, P x -> P (set_last_charging_state v x)) ->
  (forall v x, P x -> P (set_last_battery_level v x)) ->
  (forall v x, P x -> P (set_last_callback_time v x)) ->
  (forall x, P x ->
     P (with_res (set_progress (Py.int (Py.truediv (check + 1) total * 100))) x)) ->
  preserves P (monitor_step w cb total check).
Proof.
  intros Hres Hs1 Hs2 Hs3 Hprog.
  unfold monitor_step, sample, detect_state_change, track_level_change,
    print_level_change,
    throttled_callback.
  destruct (negb _); [apply preserves_ret|].
  apply preserves_bind; [|intros _; apply preserves_ret].
  apply preserves_try_except.
  - apply preserves_bind.
    { destruct (reading_at w check); repeat preserves_step. }
    intros [cc cl]. cbn [fst snd].
    repeat preserves_step; auto.
  - intros e. repeat preserves_step; auto.
Qed.

Lemma charging_step_bounded w cb check :
  In check (Py.range checks_total) ->
  preserves bounded (monitor_step w cb checks_total check).
Proof.
  intros Hin. apply In_range in Hin.
  apply charging_step_preserves; try (intros; assumption).
  - unfold bounded. cbn. intros f x Hx Hp _. now rewrite Hp.
  - intros x _. unfold bounded. cbn.
    apply percent_progress; unfold checks_total, monitor_duration,
      check_interval in *; cbn in *; lia.
Qed.

Lemma charging_step_stays_running w cb total check :
  preserves running (monitor_step w cb total check).
Proof.
  apply charging_step_preserves; try (intros; assumption).
  unfold running. cbn. intros f x Hx _ Hs. now rewrite Hs.
Qed.

Lemma charging_bounded cb w :
  preserves bounded (charging_test_worker cb w).
Proof.
  unfold charging_test_worker.
  apply preserves_try_except; [|intros e; repeat preserves_step; assumption].
  apply preserves_bind.
  { unfold detect_battery. apply preserves_try_except.
    - destruct (initial_reading w); repeat preserves_step; try assumption.
      unfold bounded. cbn. lia.
    - intros e. repeat preserves_step; assumption. }
  intros [|]; [apply preserves_ret|].
  apply preserves_bind; [apply preserves_get|intros s0].
  apply preserves_bind; [repeat preserves_step; assumption|intros _].
  apply preserves_bind; [apply preserves_get|intros s1].
  apply preserves_bind; [repeat preserves_step; assumption|intros _].
  apply preserves_bind; [repeat preserves_step; assumption|intros _].
  apply preserves_bind; [repeat preserves_step; assumption|intros _].
  apply preserves_bind.
  { apply preserves_for_each. intros check Hin. now apply charging_step_bounded. }
  intros _. repeat preserves_step; try assumption.
  unfold bounded. cbn. lia.
Qed.

Lemma charging_failure_settled cb e s :
  good running s ->
  good settled_at_100
    (fst ((modify (with_res (set_error (Some e))) ;;
           assign LStatus (with_res (set_status "Error")) ;;
           emit (LSetTesting false) ;;
           call_back cb)%worker s)).
Proof.
  intros Hs. apply (good_impl _ _ _ running_settled_at_100) in Hs.
  destruct cb; cbn [bind assign modify emit ret call_back now log fst];
    rewrite <- ?app_assoc; cbn [app];
    (apply good_extend; [exact Hs| |settle]);
    repeat (apply Forall_cons || apply Forall_nil); settle.
Qed.

(** Once a battery has been found, progress is 100 before the status is
    assigned. *)
Lemma charging_monitor_settled cb w s :
  good running s ->
  good settled_at_100
    (fst (try_except
       (s0 <- get ;;
        (if negb (instructions_given (res s0))
         then modify (with_res (set_instructions_given true)) ;;
              call_back cb
         else ret tt) ;;
        s1 <- get ;;
        modify (set_last_charging_state (initial_charging_state (res s1))) ;;
        modify (set_last_battery_level (initial_battery_level (res s1))) ;;
        modify (set_last_callback_time 0%Q) ;;
        for_each (Py.range checks_total) (monitor_step w cb checks_total) ;;
        modify (with_res analyze) ;;
        assign LProgress (with_res (set_progress 100)) ;;
        assign LStatus
          (with_res (set_status
                       (if is_testing w AtEnd then "Completed" else "Stopped"))) ;;
        emit (LSetTesting false) ;;
        call_back cb)%worker
       (fun e =>
          modify (with_res (set_error (Some e))) ;;
          assign LStatus (with_res (set_status "Error")) ;;
          emit (LSetTesting false) ;;
          call_back cb)%worker s)).
Proof.
  revert s.
  match goal with |- forall s, _ -> _ (fst (try_except ?m ?h s)) =>
    change (closes running (good settled_at_100) m h) end.
  pose proof (charging_failure_settled cb) as Hfail.
  apply closes_bind; [apply preserves_get|intros s0|exact Hfail].
  apply closes_bind; [repeat preserves_step; assumption|intros _|exact Hfail].
  apply closes_bind; [apply preserves_get|intros s1|exact Hfail].
  apply closes_bind; [repeat preserves_step; assumption|intros _|exact Hfail].
  apply closes_bind; [repeat preserves_step; assumption|intros _|exact Hfail].
  apply closes_bind; [repeat preserves_step; assumption|intros _|exact Hfail].
  apply closes_bind; [|intros _|exact Hfail].
  { apply preserves_for_each. intros i _. apply charging_step_stays_running. }
  apply closes_bind; [repeat preserves_step; assumption|intros _|exact Hfail].
  intros s Hs. apply (good_impl _ _ _ running_settled_at_100) in Hs.
  unfold try_except.
  destruct cb; cbn [bind assign modify emit ret call_back now log fst];
    rewrite <- ?app_assoc; cbn [app];
    (apply good_extend; [exact Hs| |settle]);
    repeat (apply Forall_cons || apply Forall_nil); settle.
Qed.

Lemma charging_settled_with_battery cb w :
  initial_reading w <> Absent ->
  good settled_at_100 (fst (charging_test cb w)).
Proof.
  intros Hb. unfold charging_test, run, charging_test_worker.
  set (s0 := {| now := initial; log := [] |}).
  assert (Hs0 : good running s0) by (split; [reflexivity|constructor]).
  unfold try_except at 1, bind at 1, detect_battery.
  destruct (initial_reading w) as [|plugged percent|msg]; [congruence| |].
  - cbn [try_except bind modify ret now log].
    apply (charging_monitor_settled cb w). split; [reflexivity|constructor].
  - apply (good_impl _ _ _ running_settled_at_100) in Hs0.
    destruct cb;
      cbn [try_except raise bind assign modify emit ret call_back now log fst];
      (apply (good_extend _ s0); [exact Hs0| |settle]);
      repeat (apply Forall_cons || apply Forall_nil); settle.
Qed.

Lemma charging_full_when_reported cb w :
  full_when_reported (fst (charging_test cb w)).
Proof.
  destruct (initial_reading w) as [|plugged percent|msg] eqn:Hr.
  - unfold charging_test, run, charging_test_worker.
    unfold try_except at 1, bind at 1, detect_battery. rewrite Hr.
    destruct cb;
      cbn [try_except raise bind assign modify emit ret call_back now log fst];
      (split; [settle|]);
      intros l r Hin Hl; cbn in Hin;
      repeat (destruct Hin as [Hin|Hin];
              [injection Hin as <- <-; try congruence; settle|]);
      destruct Hin.
  - apply good_full_when_reported, charging_settled_with_battery. congruence.
  - apply good_full_when_reported, charging_settled_with_battery. congruence.
Qed.

End Charging.

(** C9, as the code has it.  Progress stays within 0..100 in all four
    tests (in the CPU test as long as the clock is not set back behind the
    start of the test).  Whenever a test has status ['Completed'] or
    ['Stopped'] at a statement after the one that assigns it (the final
    callback is one) or at its end, progress is 100.  The memory test, the
    CPU test and the charging test that found a battery set progress to 100
    before they assign the status, so there it is 100 at the assignment as
    well; the disk test and the charging test without a battery assign the
    status first.  A CPU test whose loop condition fails in the end does
    end, completed or stopped, at 100. *)
Theorem progress_bounded_and_full_when_reported :
  (forall size callback w,
     let final := fst (MemoryTest.memory_test size callback w) in
     good bounded final /\
     full_when_status_set final /\
     full_when_reported final) /\
  (forall size callback w,
     let final := fst (DiskTest.disk_speed_test size callback w) in
     good bounded final /\
     full_when_reported final) /\
  (forall fuel dur callback w,
     let final := fst (CpuTest.cpu_stress_test fuel dur callback w) in
     (CpuTest.clock_not_set_back w -> good bounded final) /\
     full_when_status_set final /\
     full_when_reported final) /\
  (forall n dur callback w,
     dur <> 0 ->
     CpuTest.guard w dur (Z.of_nat n) = false ->
     exists final,
       CpuTest.cpu_stress_test n dur callback w = (final, Normal true) /\
       settled (now final) /\
       progress_of (now final) = Some 100) /\
  (forall callback w,
     let final := fst (ChargingTest.charging_test callback w) in
     good bounded final /\
     full_when_reported final /\
     (ChargingTest.initial_reading w <> ChargingTest.Absent ->
      full_when_status_set final)).
Proof.
  split; [|split; [|split; [|split]]].
  - intros size cb w final. subst final.
    pose proof (memory_settled_at_100 size cb w) as Hs.
    split; [|split].
    + apply preserves_run; [apply memory_bounded|exact I].
    + now apply good_full_when_status_set.
    + now apply good_full_when_reported.
  - intros size cb w final. subst final. split.
    + apply preserves_run; [apply disk_bounded|]. unfold bounded. cbn. lia.
    + apply disk_full_when_reported.
  - intros fuel dur cb w final. subst final.
    pose proof (cpu_settled_at_100 fuel dur cb w) as Hs.
    split; [|split].
    + intros Hc. apply preserves_run; [now apply cpu_bounded|exact I].
    + now apply good_full_when_status_set.
    + now apply good_full_when_reported.
  - intros n dur cb w Hd Hg. apply cpu_test_ends; assumption.
  - intros cb w final. subst final. split; [|split].
    + apply preserves_run; [apply charging_bounded|]. unfold bounded. cbn. lia.
    + apply charging_full_when_reported.
    + intros Hb. apply good_full_when_status_set.
      now apply charging_settled_with_battery.
Qed.

(** The theorem at work: a ten-second CPU test on [steady], whose loop
    condition fails at the sixth reading of the clock, and a charging test
    on a laptop. *)
Lemma progress_bounded_and_full_when_reported_witness :
  CpuTest.clock_not_set_back CpuTest.steady /\
  good bounded (fst (CpuTest.cpu_stress_test 5 10 true CpuTest.steady)) /\
  (exists final,
     CpuTest.cpu_stress_test 5 10 true CpuTest.steady = (final, Normal true) /\
     settled (now final) /\ progress_of (now final) = Some 100) /\
  full_when_status_set
    (fst (ChargingTest.charging_test true ChargingTest.steady)).
Proof.
  assert (Hc : CpuTest.clock_not_set_back CpuTest.steady).
  { intros i Hi. unfold CpuTest.steady, CpuTest.start_time,
      CpuTest.guard_time, CpuTest.progress_time.
    change 1000%Q with (inject_Z 1000).
    rewrite <- !Zle_Qle. split; lia. }
  destruct progress_bounded_and_full_when_reported
    as (_ & _ & Hcpu & Hends & Hcharging).
  split; [exact Hc|]. split; [|split].
  - apply (Hcpu 5%nat 10 true CpuTest.steady). exact Hc.
  - apply (Hends 5%nat 10 true CpuTest.steady); [discriminate|reflexivity].
  - apply (Hcharging true ChargingTest.steady). discriminate.
Defined.

(** C9, as stated, fails twice.  When Stop is pressed before the disk test
    writes its first chunk, the status becomes ['Stopped'] while progress
    is still 0; the next statement sets it to 100.  And when the clock is
    set back during the CPU test, progress falls below 0. *)
Lemma status_set_before_progress_is_full :
  (exists r,
     In (LStatus, r)
        (log (fst (DiskTest.disk_speed_test 10 true DiskTest.stopped_at_once))) /\
     DiskTest.status r = "Stopped" /\ DiskTest.progress r = 0) /\
  ~ full_when_status_set
      (fst (DiskTest.disk_speed_test 10 true DiskTest.stopped_at_once)) /\
  (exists s,
     In (LProgress, s)
        (log (fst (CpuTest.cpu_stress_test 1 30 true CpuTest.clock_set_back))) /\
     CpuTest.progress (CpuTest.res s) = Some (-50)) /\
  ~ good bounded
      (fst (CpuTest.cpu_stress_test 1 30 true CpuTest.clock_set_back)).
Proof.
  assert (Hdisk : exists r,
     In (LStatus, r)
        (log (fst (DiskTest.disk_speed_test 10 true DiskTest.stopped_at_once))) /\
     DiskTest.status r = "Stopped" /\ DiskTest.progress r = 0).
  { eexists. split; [left; vm_compute; reflexivity|]. split; reflexivity. }
  assert (Hcpu : exists s,
     In (LProgress, s)
        (log (fst (CpuTest.cpu_stress_test 1 30 true CpuTest.clock_set_back))) /\
     CpuTest.progress (CpuTest.res s) = Some (-50)).
  { eexists. split; [left; vm_compute; reflexivity|]. reflexivity. }
  split; [exact Hdisk|]. split; [|split; [exact Hcpu|]].
  - destruct Hdisk as (r & Hin & Hst & Hp). intros Hfull.
    specialize (Hfull r Hin (or_intror Hst)). cbn in Hfull. congruence.
  - destruct Hcpu as (s & Hin & Hp). intros [_ Hall].
    rewrite Forall_forall in Hall. specialize (Hall _ Hin).
    unfold bounded in Hall. cbn in Hall. rewrite Hp in Hall. lia.
Qed.

End ProgressFacts.

(** ** The charging test *)

Module ChargingFacts.
Import Worker WorkerFacts ChargingTest PyFacts.

#[local] Arguments Py.int : simpl never.
#[local] Arguments Py.truediv : simpl never.
#[local] Arguments Py.range : simpl never.

Lemma differs_spec (x y : option bool) : differs x y = true <-> x <> y.
Proof.
  destruct x as [[|]|], y as [[|]|]; cbn; split; congruence.
Qed.

(** C10: with no battery at the start the worker returns at once: nothing
    is polled (no attribute is read, nothing sleeps), and it leaves status
    ['Completed'], [battery_support] false, progress 100 and one message in
    [errors]. *)
Theorem charging_test_without_battery callback (w : env) :
  initial_reading w = Absent ->
  exists final,
    charging_test callback w = (final, Normal tt) /\
    labels (log final) =
      [LStatus; LProgress; LSetTesting false] ++ cb_labels callback /\
    filter polling (labels (log final)) = [] /\
    status (res (now final)) = "Completed" /\
    battery_support (res (now final)) = false /\
    progress (res (now final)) = 100 /\
    errors (res (now final)) =
      ["No battery detected - this test requires a laptop/device with battery"] /\
    charging_events (res (now final)) = [].
Proof.
  intros Hr. unfold charging_test, run, charging_test_worker, detect_battery.
  rewrite Hr.
  destruct callback;
    cbn [try_except bind assign modify emit ret call_back now log];
    eexists; (split; [reflexivity|]); cbn; repeat split; reflexivity.
Qed.

Lemma charging_test_without_battery_witness :
  initial_reading no_battery = Absent /\
  exists final,
    charging_test true no_battery = (final, Normal tt) /\
    status (res (now final)) = "Completed" /\
    progress (res (now final)) = 100.
Proof.
  split; [reflexivity|].
  destruct (charging_test_without_battery true no_battery eq_refl)
    as (final & Hrun & _ & _ & Hst & _ & Hp & _).
  exists final. split; [exact Hrun|]. split; [exact Hst|exact Hp].
Defined.

Ltac crunch :=
  unfold try_except, bind, assign, modify, emit, ret, raise, get, call_back,
    lift, bind;
  cbn [now log fst snd negb andb];
  repeat
    (match goal with
     | |- context [if ?b then _ else _] => destruct b eqn:?
     | |- context [match ?o with Some _ => _ | None => _ end] =>
         destruct o eqn:?
     end;
     cbn [now log fst snd negb andb]).

(** What the state-change detection of lines 679-688 does to the list of
    events and to the recorded state. *)
Lemma detect_state_change_run plugged percent s :
  exists s',
    detect_state_change plugged percent s = (s', Normal tt) /\
    log s' = log s /\
    charging_events (res (now s')) =
      charging_events (res (now s)) ++
      (if differs plugged (last_charging_state (now s))
       then [event_for plugged percent] else []) /\
    last_charging_state (now s') = plugged.
Proof.
  unfold detect_state_change.
  cbn [bind get]. destruct (differs _ _) eqn:Hd.
  - eexists. split; [reflexivity|]. cbn. repeat split.
  - exists s. split; [reflexivity|]. rewrite app_nil_r. repeat split.
    destruct plugged as [[|]|], (last_charging_state (now s)) as [[|]|];
      cbn in Hd; congruence.
Qed.

(** Nothing that follows the detection in an iteration touches the events
    or the recorded state. *)
Lemma rest_of_step_same_events w cb total check plugged percent s :
  same_events (now s)
    (now (fst (try_except
       (track_level_change w check plugged percent ;;
        assign LProgress
          (with_res (set_progress
             (Py.int (Py.truediv (check + 1) total * 100)%Q))) ;;
        modify (with_res (set_current_charging_state plugged)) ;;
        modify (with_res (set_current_battery_level (Some percent))) ;;
        throttled_callback cb (time_at w check) ;;
        emit (LSleep 2000))%worker
       (fun e =>
          modify (with_res (append_error
                    (String.append "Error during monitoring: " e)))) s))).
Proof.
  unfold track_level_change, print_level_change, throttled_callback.
  crunch; split; reflexivity.
Qed.

(** One iteration of the monitoring loop, seen from
    [results['charging_events']] and [last_charging_state]. *)
Lemma monitor_step_events (w : env) callback total check (s : state store) :
  let s' := now (fst (monitor_step w callback total check s)) in
  let last := last_charging_state (now s) in
  if is_testing w (InLoop 0 check) then
    match reading_at w check with
    | Battery plugged percent =>
        charging_events (res s') =
          charging_events (res (now s)) ++
          (if differs plugged last then [event_for plugged percent] else []) /\
        last_charging_state s' = plugged
    | _ => same_events (now s) s'
    end
  else same_events (now s) s'.
Proof.
  cbn zeta.
  destruct (monitor_step w callback total check s) as [s' r] eqn:Hstep.
  cbn [fst]. unfold monitor_step in Hstep.
  destruct (is_testing w (InLoop 0 check)); cbn [negb] in Hstep;
    [|injection Hstep as <- _; split; reflexivity].
  unfold bind at 1 in Hstep.
  destruct (reading_at w check) as [|plugged percent|msg] eqn:Hr.
  - unfold sample in Hstep. rewrite Hr in Hstep.
    injection Hstep as <- _. split; reflexivity.
  - assert (Hs : sample w check s =
              ({| now := now s;
                  log := (log s ++ [(LPlugged check, now s)])
                         ++ [(LPercent check, now s)] |},
               Normal (plugged, percent))).
    { unfold sample. rewrite Hr. reflexivity. }
    rewrite (try_except_bind_normal _ _ _ _ _ _ Hs) in Hstep.
    cbn [fst snd] in Hstep.
    match type of Hstep with context [try_except _ _ ?st] =>
      set (s1 := st) in Hstep end.
    destruct (detect_state_change_run plugged percent s1)
      as (s2 & Hrun & _ & Hev & Hlast).
    rewrite (try_except_bind_normal _ _ _ _ _ _ Hrun) in Hstep.
    pose proof (rest_of_step_same_events w callback total check plugged
                  percent s2) as [Hev' Hlast'].
    match type of Hstep with context [try_except ?m ?h s2] =>
      destruct (try_except m h s2) as [s3 [[]|e]] end;
      cbn [fst now] in *; injection Hstep as <- _;
      subst s1; cbn [now] in Hev; split; congruence.
  - unfold sample in Hstep. rewrite Hr in Hstep.
    injection Hstep as <- _. split; reflexivity.
Qed.

(** C4: what one iteration of the monitoring loop does to
    [results['charging_events']] and to [last_charging_state].  When the
    battery is read, an entry is appended exactly when the sampled
    [power_plugged] differs from the recorded state; its label is
    ['plugged_in'] for a plugged state and ['unplugged'] otherwise; and the
    recorded state becomes the sample, so that the same sample again
    appends nothing.  When the loop is stopped or the battery cannot be
    read, nothing is appended and the recorded state stays. *)
Theorem charging_event_iff_state_differs (w : env) callback total check
  (s : state store) :
  let s' := now (fst (monitor_step w callback total check s)) in
  let last := last_charging_state (now s) in
  (if is_testing w (InLoop 0 check) then
     match reading_at w check with
     | Battery plugged percent =>
         charging_events (res s') =
           charging_events (res (now s)) ++
           (if differs plugged last then [event_for plugged percent] else []) /\
         last_charging_state s' = plugged
     | _ => same_events (now s) s'
     end
   else same_events (now s) s') /\
  (forall x y, differs x y = true <-> x <> y) /\
  (forall x, differs x x = false) /\
  (forall plugged percent,
     event (event_for plugged percent) =
       match plugged with
       | Some true => "plugged_in"
       | _ => "unplugged"
       end).
Proof.
  cbn zeta. split; [apply monitor_step_events|].
  split; [exact differs_spec|]. split.
  - intros [[|]|]; reflexivity.
  - intros [[|]|] percent; reflexivity.
Qed.

(** One iteration that is not stopped, seen from the polling and from
    [results['errors']].  The level recorded before the loop is a number
    and stays one. *)
Lemma monitor_step_polls (w : env) cb total check (s : state store) :
  is_testing w (InLoop 0 check) = true ->
  level_print_error w check = None ->
  last_battery_level (now s) <> None ->
  exists s' L,
    monitor_step w cb total check s = (s', Normal Continue) /\
    log s' = log s ++ L /\
    filter polling (labels L) = poll_labels w check /\
    errors (res (now s')) = errors (res (now s)) ++ poll_errors w check /\
    last_battery_level (now s') <> None.
Proof.
  intros Ht Hprint Hl.
  unfold monitor_step, sample, detect_state_change, track_level_change,
    print_level_change,
    throttled_callback, poll_labels, poll_errors.
  rewrite Ht, Hprint. cbn [negb].
  destruct (last_battery_level (now s)) as [lvl|] eqn:Hlvl; [|congruence].
  destruct (reading_at w check) as [|plugged percent|msg];
    crunch;
    try (cbn [last_battery_level set_last_charging_state with_res] in *;
         congruence);
    rewrite <- ?app_assoc; cbn [app];
    (eexists _, _; split; [reflexivity|]); cbn [now log];
    (split; [try reflexivity; symmetry; apply app_nil_r|]);
    (split; [reflexivity|]);
    (split; [cbn; try reflexivity; symmetry; apply app_nil_r|]);
    cbn; congruence.
Qed.

Lemma monitor_loop_polls (w : env) cb total xs :
  (forall p, is_testing w p = true) ->
  (forall i, level_print_error w i = None) ->
  forall s : state store,
  last_battery_level (now s) <> None ->
  exists s' L,
    for_each xs (monitor_step w cb total) s = (s', Normal tt) /\
    log s' = log s ++ L /\
    filter polling (labels L) = flat_map (poll_labels w) xs /\
    errors (res (now s')) = errors (res (now s)) ++ flat_map (poll_errors w) xs.
Proof.
  intros Ht Hprint. induction xs as [|check xs IH]; intros s Hl.
  - exists s, []. cbn. rewrite !app_nil_r. repeat split.
  - destruct (monitor_step_polls w cb total check s (Ht _) (Hprint _) Hl)
      as (s1 & L1 & Hrun1 & Hlog1 & Hpoll1 & Herr1 & Hl1).
    destruct (IH s1 Hl1) as (s' & L & Hrun & Hlog & Hpoll & Herr).
    exists s', (L1 ++ L). cbn [for_each]. rewrite Hrun1, Hrun.
    split; [reflexivity|].
    split. { now rewrite Hlog, Hlog1, app_assoc. }
    split. { unfold labels in *. rewrite map_app, filter_app, Hpoll1, Hpoll.
             reflexivity. }
    rewrite Herr, Herr1, <- app_assoc. reflexivity.
Qed.

Lemma all_batteries_poll (w : env) xs :
  (forall i, exists p c, reading_at w i = Battery p c) ->
  flat_map (poll_labels w) xs =
  flat_map (fun i => [LPlugged i; LPercent i; LSleep 2000]) xs /\
  flat_map (poll_errors w) xs = [].
Proof.
  intros Hb. induction xs as [|i xs [IH1 IH2]]; [split; reflexivity|].
  cbn [flat_map]. rewrite IH1, IH2. unfold poll_labels, poll_errors.
  destruct (Hb i) as (p & c & ->). split; reflexivity.
Qed.

(** An iteration that reads the battery and records a change of level of
    which the [print] raises: the change stays recorded, the level it is
    compared with does not move, the handler leaves its message and the
    iteration does not sleep. *)
Lemma unprintable_level_change_skips_sleep (w : env) cb total check
  (s : state store) plugged percent last_level e :
  is_testing w (InLoop 0 check) = true ->
  reading_at w check = Battery plugged percent ->
  last_battery_level (now s) = Some last_level ->
  1 <= Z.abs (percent - last_level) ->
  level_print_error w check = Some e ->
  exists s' L,
    monitor_step w cb total check s = (s', Normal Continue) /\
    log s' = log s ++ L /\
    labels L = [LPlugged check; LPercent check] /\
    errors (res (now s')) =
      errors (res (now s)) ++ [String.append "Error during monitoring: " e] /\
    battery_level_changes (res (now s')) =
      battery_level_changes (res (now s)) ++
      [{| old_level := last_level; new_level := percent;
          change := percent - last_level; charging := plugged |}] /\
    last_battery_level (now s') = Some last_level.
Proof.
  intros Ht Hr Hl Hc He.
  unfold monitor_step, sample, detect_state_change, track_level_change,
    print_level_change.
  rewrite Ht, Hr, He. cbn [negb].
  apply Z.leb_le in Hc.
  unfold try_except, bind, assign, modify, emit, ret, raise, get.
  cbn [now log fst snd].
  destruct (differs plugged (last_charging_state (now s)));
    cbn [now log last_battery_level set_last_charging_state with_res];
    rewrite Hl, Hc; cbn [now log];
    rewrite <- app_assoc;
    (eexists _, _; split; [reflexivity|]); cbn [now log app];
    (split; [reflexivity|]); repeat split; exact Hl.
Qed.

(** C2, as the code has it.  When a battery is found at the start, the
    test is not stopped and the [print] of a change of level never
    raises, the loop makes [60 // 2 = 30] iterations.  An iteration that
    can read the battery reads [power_plugged] and [percent] and then
    sleeps two seconds; an iteration that cannot neither reads nor sleeps,
    and leaves a message in [errors].  So the polling is 30 times read,
    read, sleep exactly when every reading succeeds. *)
Theorem charging_test_polling callback (w : env) p0 c0 :
  initial_reading w = Battery p0 c0 ->
  (forall pt, is_testing w pt = true) ->
  (forall i, level_print_error w i = None) ->
  exists final,
    charging_test callback w = (final, Normal tt) /\
    checks_total = 30 /\
    List.length (Py.range checks_total) = 30%nat /\
    filter polling (labels (log final)) =
      flat_map (poll_labels w) (Py.range checks_total) /\
    errors (res (now final)) =
      flat_map (poll_errors w) (Py.range checks_total) /\
    ((forall i, exists p c, reading_at w i = Battery p c) ->
     filter polling (labels (log final)) =
       flat_map (fun i => [LPlugged i; LPercent i; LSleep 2000])
                (Py.range checks_total) /\
     errors (res (now final)) = []) /\
    status (res (now final)) = "Completed".
Proof.
  intros Hinit Ht Hprint.
  assert (Hcore : exists final,
    charging_test callback w = (final, Normal tt) /\
    filter polling (labels (log final)) =
      flat_map (poll_labels w) (Py.range checks_total) /\
    errors (res (now final)) =
      flat_map (poll_errors w) (Py.range checks_total) /\
    status (res (now final)) = "Completed").
  { unfold charging_test, run, charging_test_worker, detect_battery.
    rewrite Hinit, (Ht AtEnd).
    unfold try_except at 1.
    destruct callback;
      cbn [try_except bind assign modify emit ret call_back get now log
           instructions_given res with_res set_instructions_given
           set_initial_battery_level set_initial_charging_state
           set_battery_support initial negb];
      unfold bind at 1;
      (match goal with
       |- context [for_each ?xs (monitor_step w ?cb checks_total) ?st] =>
         destruct (monitor_loop_polls w cb checks_total xs Ht Hprint st)
           as (s1 & L & Hrun & Hlog & Hpoll & Herr);
         [cbn; discriminate|]; rewrite Hrun end);
      cbn [try_except bind assign modify emit ret call_back get now log];
      (eexists; split; [reflexivity|]); cbn [now log];
      rewrite Hlog; cbn [log app];
      unfold labels in *;
      cbn [map filter fst polling];
      rewrite !map_app, !filter_app, Hpoll; cbn [map filter fst polling app];
      rewrite ?app_nil_r;
      (split; [reflexivity|]);
      (split; [cbn in Herr |- *; exact Herr|]);
      reflexivity. }
  destruct Hcore as (final & Hrun & Hpoll & Herr & Hst).
  exists final. split; [exact Hrun|]. split; [reflexivity|].
  split; [reflexivity|]. split; [exact Hpoll|]. split; [exact Herr|].
  split; [|exact Hst].
  intros Hb. destruct (all_batteries_poll w (Py.range checks_total) Hb) as [H1 H2].
  rewrite Hpoll, Herr. now split.
Qed.

(** The theorem at work on [steady]. *)
Lemma charging_test_polling_witness :
  initial_reading steady = Battery (Some true) 80 /\
  (forall pt, is_testing steady pt = true) /\
  (forall i, level_print_error steady i = None) /\
  exists final,
    charging_test true steady = (final, Normal tt) /\
    filter polling (labels (log final)) =
      flat_map (fun i => [LPlugged i; LPercent i; LSleep 2000]) (Py.range 30).
Proof.
  split; [reflexivity|]. split; [reflexivity|]. split; [reflexivity|].
  destruct (charging_test_polling true steady (Some true) 80 eq_refl
              (fun _ => eq_refl) (fun _ => eq_refl))
    as (final & Hrun & _ & _ & _ & _ & Hall & _).
  exists final. split; [exact Hrun|].
  apply Hall. intros i. now exists (Some true), 80.
Defined.

(** C2, as stated, fails: in [battery_lost_once] the test is never stopped
    and makes its 30 iterations, but the sixth reads nothing and does not
    sleep: the run sleeps 29 times. *)
Lemma lost_battery_iteration_does_not_sleep :
  (forall pt, is_testing battery_lost_once pt = true) /\
  initial_reading battery_lost_once = Battery (Some true) 80 /\
  reading_at battery_lost_once 5 = Absent /\
  let final := fst (charging_test true battery_lost_once) in
  status (res (now final)) = "Completed" /\
  List.length (filter is_sleep (labels (log final))) = 29%nat /\
  ~ In (LPlugged 5) (labels (log final)) /\
  ~ In (LPercent 5) (labels (log final)) /\
  errors (res (now final)) =
    [String.append "Error during monitoring: "
       "'NoneType' object has no attribute 'power_plugged'"].
Proof.
  split; [reflexivity|]. split; [reflexivity|]. split; [reflexivity|].
  vm_compute. repeat split; try reflexivity; intros H;
    repeat (destruct H as [H|H]; [discriminate|]); exact H.
Qed.

(** C3, as the code has it: there is no debouncing.  A sample that differs
    from the recorded state is recorded at once, and when the next sample
    is back at the old state that is recorded too: a flip seen in exactly
    one sample leaves two events. *)
Theorem single_sample_flip_records_two_events (w : env) callback total check
  (s : state store) p pc q qc :
  is_testing w (InLoop 0 check) = true ->
  is_testing w (InLoop 0 (check + 1)) = true ->
  reading_at w check = Battery p pc ->
  reading_at w (check + 1) = Battery q qc ->
  p <> last_charging_state (now s) ->
  q = last_charging_state (now s) ->
  let s1 := fst (monitor_step w callback total check s) in
  let s2 := fst (monitor_step w callback total (check + 1) s1) in
  charging_events (res (now s1)) =
    charging_events (res (now s)) ++ [event_for p pc] /\
  charging_events (res (now s2)) =
    charging_events (res (now s)) ++ [event_for p pc; event_for q qc].
Proof.
  intros Ht1 Ht2 Hr1 Hr2 Hp Hq s1 s2.
  pose proof (monitor_step_events w callback total check s) as H1.
  cbn zeta in H1. rewrite Ht1, Hr1 in H1. destruct H1 as [Hev1 Hlast1].
  apply differs_spec in Hp. rewrite Hp in Hev1.
  pose proof (monitor_step_events w callback total (check + 1) s1) as H2.
  cbn zeta in H2. rewrite Ht2, Hr2 in H2. destruct H2 as [Hev2 _].
  fold s1 in Hev1, Hlast1. fold s2 in Hev2.
  split; [exact Hev1|].
  rewrite Hev2, Hev1, Hlast1, <- app_assoc. cbn [app].
  assert (Hd : differs q p = true).
  { apply differs_spec. apply differs_spec in Hp. congruence. }
  now rewrite Hd.
Qed.

(** The theorem at work on the fourth and fifth samples of [flicker]. *)
Lemma single_sample_flip_records_two_events_witness :
  let s1 := fst (monitor_step flicker true 30 3
                   {| now := monitoring; log := [] |}) in
  let s2 := fst (monitor_step flicker true 30 4 s1) in
  map event (charging_events (res (now s2))) = ["unplugged"; "plugged_in"].
Proof.
  intros s1 s2.
  assert (Hne : Some false <> last_charging_state monitoring) by discriminate.
  destruct (single_sample_flip_records_two_events flicker true 30 3
              {| now := monitoring; log := [] |}
              (Some false) 80 (Some true) 80
              eq_refl eq_refl eq_refl eq_refl Hne eq_refl)
    as [_ H].
  change (3 + 1) with 4 in H. fold s1 in H. fold s2 in H.
  rewrite H. reflexivity.
Defined.

(** C3, as stated, fails: in [flicker] a single sample, the fourth, sees the
    charger unplugged; the run records an ['unplugged'] and a
    ['plugged_in'] event for it. *)
Lemma flicker_is_not_debounced :
  (forall check, check <> 3 -> reading_at flicker check = Battery (Some true) 80) /\
  reading_at flicker 3 = Battery (Some false) 80 /\
  initial_reading flicker = Battery (Some true) 80 /\
  map event (charging_events (res (now (fst (charging_test true flicker)))))
    = ["unplugged"; "plugged_in"].
Proof.
  split; [|split; [reflexivity|split; [reflexivity|]]].
  - intros check Hc. cbn. apply Z.eqb_neq in Hc. now rewrite Hc.
  - vm_compute. reflexivity.
Qed.

End ChargingFacts.

(** ** The update check *)

Module UpdateFacts.
Import UpdateManager.

Lemma emit_one_signal s : one_signal (emit s).
Proof. intros emitted. now exists s. Qed.

Lemma one_signal_weaken m : one_signal m -> one_signal_or_raise m.
Proof. intros H emitted. left. apply H. Qed.

(** A handler that emits makes one signal out of one signal or an earlier
    exception. *)
Lemma try_except_one_signal m (h : exn -> M unit) :
  one_signal_or_raise m -> (forall e, one_signal (h e)) ->
  one_signal (try_except m h).
Proof.
  intros Hm Hh emitted. unfold try_except.
  destruct (Hm emitted) as [[s ->]|[e ->]].
  - now exists s.
  - apply Hh.
Qed.

Lemma bind_lift_one_signal {A} (o : outcome A) (k : A -> M unit) :
  (forall a, one_signal_or_raise (k a)) ->
  one_signal_or_raise (bind (lift o) k).
Proof.
  intros Hk emitted. unfold bind, lift. destruct o as [a|e].
  - apply Hk.
  - right. now exists e.
Qed.

Lemma compare_versions_one_signal pk self release_data latest_version :
  one_signal (compare_versions pk self release_data latest_version).
Proof.
  unfold compare_versions. apply try_except_one_signal.
  - apply bind_lift_one_signal. intros latest.
    apply bind_lift_one_signal. intros current.
    destruct (gt pk latest current).
    + apply bind_lift_one_signal. intros info.
      apply one_signal_weaken, emit_one_signal.
    + apply one_signal_weaken, emit_one_signal.
  - intros e. apply emit_one_signal.
Qed.

Lemma read_release_one_signal pk self body :
  one_signal_or_raise (read_release pk self body).
Proof.
  unfold read_release.
  apply bind_lift_one_signal. intros release_data.
  apply bind_lift_one_signal. intros tag_name.
  apply bind_lift_one_signal. intros latest_version.
  destruct (String.eqb latest_version "").
  - apply one_signal_weaken, emit_one_signal.
  - apply one_signal_weaken, compare_versions_one_signal.
Qed.

Lemma query_github_one_signal pk self w :
  one_signal_or_raise (query_github pk self w).
Proof.
  unfold query_github.
  destruct (requests_get w (github_api_url self)) as [status body|e].
  - destruct (status =? 404); [apply one_signal_weaken, emit_one_signal|].
    destruct (status =? 403); [apply one_signal_weaken, emit_one_signal|].
    destruct (negb (status =? 200));
      [apply one_signal_weaken, emit_one_signal|].
    apply read_release_one_signal.
  - unfold is_connection_error, is_timeout, is_request_exception.
    destruct (exc e); try apply one_signal_weaken, emit_one_signal.
    intros emitted. right. now exists e.
Qed.

Lemma run_body_one_signal pk self w : one_signal (run_body pk self w).
Proof.
  unfold run_body. apply try_except_one_signal.
  - apply bind_lift_one_signal. intros [|]; cbn [negb].
    + apply query_github_one_signal.
    + apply one_signal_weaken, emit_one_signal.
  - intros e. apply emit_one_signal.
Qed.

Lemma run_connected pk self w :
  test_internet_connection w = Ok true ->
  run pk self w =
    fst (try_except (query_github pk self w)
           (fun e => emit (error_occurred
                             (String.append "Unexpected error: " (message e))))
           []).
Proof.
  intros Hc. unfold run, run_body, try_except, bind, lift. now rewrite Hc.
Qed.

(** C5: one execution of [run] emits exactly one signal.  Without
    connectivity it is the error 'No internet connection'; with it, a 404
    from the API gives 'Repository not found...', a 403 the rate-limit
    error, any other status but 200 'GitHub API error: HTTP ' and the
    status, and a connection error of the request 'No internet
    connection' again.  When the signal is an error there is no update
    signal. *)
Theorem run_emits_exactly_one_signal pk self (w : env) :
  (exists s, run pk self w = [s]) /\
  (test_internet_connection w = Ok false ->
   run pk self w = [error_occurred "No internet connection"]) /\
  (test_internet_connection w = Ok true ->
   forall status body,
     requests_get w (github_api_url self) = Response status body ->
     (status = 404 ->
      run pk self w =
        [error_occurred
           "Repository not found - please check the repository URL"]) /\
     (status = 403 ->
      run pk self w =
        [error_occurred "API rate limit exceeded - please try again later"]) /\
     (status <> 404 -> status <> 403 -> status <> 200 ->
      run pk self w =
        [error_occurred
           (String.append "GitHub API error: HTTP " (str status))])) /\
  (test_internet_connection w = Ok true ->
   forall e,
     requests_get w (github_api_url self) = Failed e ->
     is_connection_error e = true ->
     run pk self w = [error_occurred "No internet connection"]) /\
  (forall msg,
     In (error_occurred msg) (run pk self w) ->
     forall s, In s (run pk self w) -> is_update s = false).
Proof.
  assert (Hone : exists s, run pk self w = [s]).
  { destruct (run_body_one_signal pk self w []) as [s Hs].
    exists s. unfold run. now rewrite Hs. }
  split; [exact Hone|]. split; [|split; [|split]].
  - intros Hc. unfold run, run_body, try_except, bind, lift. now rewrite Hc.
  - intros Hc status body Hr. rewrite (run_connected _ _ _ Hc).
    unfold query_github, try_except. rewrite Hr. split; [|split].
    + intros ->. reflexivity.
    + intros ->. reflexivity.
    + intros H404 H403 H200.
      apply Z.eqb_neq in H404, H403, H200. now rewrite H404, H403, H200.
  - intros Hc e Hr He. rewrite (run_connected _ _ _ Hc).
    unfold query_github, try_except. now rewrite Hr, He.
  - destruct Hone as [s0 Hs0]. rewrite Hs0. intros msg [->|[]] s [<-|[]].
    reflexivity.
Qed.

(** The theorem at work: the releases API answers 404, 403 and 500, and
    there is no network. *)
Lemma run_emits_exactly_one_signal_witness :
  run plain_releases pc_checker (answering 404) =
    [error_occurred "Repository not found - please check the repository URL"] /\
  run plain_releases pc_checker (answering 403) =
    [error_occurred "API rate limit exceeded - please try again later"] /\
  run plain_releases pc_checker (answering 500) =
    [error_occurred "GitHub API error: HTTP 500"] /\
  run plain_releases pc_checker offline =
    [error_occurred "No internet connection"].
Proof.
  split; [|split; [|split]].
  - destruct (run_emits_exactly_one_signal plain_releases pc_checker (answering 404))
      as (_ & _ & H & _).
    apply (H eq_refl 404 (Ok JNull) eq_refl). reflexivity.
  - destruct (run_emits_exactly_one_signal plain_releases pc_checker (answering 403))
      as (_ & _ & H & _).
    apply (H eq_refl 403 (Ok JNull) eq_refl). reflexivity.
  - destruct (run_emits_exactly_one_signal plain_releases pc_checker (answering 500))
      as (_ & _ & H & _).
    apply (H eq_refl 500 (Ok JNull) eq_refl); discriminate.
  - destruct (run_emits_exactly_one_signal plain_releases pc_checker offline)
      as (_ & H & _).
    apply H. reflexivity.
Defined.

Lemma release_gt_irrefl v : release_gt v v = false.
Proof.
  induction v as [|x v IH]; [reflexivity|]. cbn.
  now rewrite N.ltb_irrefl, N.eqb_refl, IH.
Qed.




End UpdateFacts.

(** ** Strings *)

Module StringFacts.
Import UpdateManager UpdateFlow.

Lemma append_nil_r (s : string) : String.append s "" = s.
Proof. induction s as [|c s IH]; cbn; [reflexivity|now rewrite IH]. Qed.

Lemma append_assoc (a b c : string) :
  String.append (String.append a b) c = String.append a (String.append b c).
Proof. induction a as [|x a IH]; cbn; [reflexivity|now rewrite IH]. Qed.

Lemma length_append (a b : string) :
  String.length (String.append a b) = (String.length a + String.length b)%nat.
Proof. induction a as [|x a IH]; cbn; [reflexivity|now rewrite IH]. Qed.

(** Two ways of cutting one string before tails of the same length cut
    the same tail. *)
Lemma append_same_tail (p q a b : string) :
  String.length a = String.length b ->
  String.append p a = String.append q b -> a = b.
Proof.
  revert q. induction p as [|x p IH]; intros q Hlen Heq.
  - destruct q as [|y q]; [exact Heq|].
    cbn in Heq. apply (f_equal String.length) in Heq.
    cbn in Heq. rewrite length_append in Heq. lia.
  - destruct q as [|y q].
    + cbn in Heq. apply (f_equal String.length) in Heq.
      cbn in Heq. rewrite length_append in Heq. lia.
    + cbn in Heq. injection Heq as _ Heq. now apply (IH q).
Qed.

Lemma prefix_spec (a s : string) :
  String.prefix a s = true <-> exists q, s = String.append a q.
Proof.
  revert s. induction a as [|x a IH]; intros s.
  - cbn. destruct s; split; intros _; eauto.
  - destruct s as [|y s]; cbn.
    + split; [discriminate|]. intros [q Hq]. discriminate.
    + destruct (Ascii.ascii_dec x y) as [->|Hne].
      * rewrite IH. split; intros [q Hq]; exists q; congruence.
      * split; [discriminate|]. intros [q Hq]. congruence.
Qed.

Lemma contains_spec (sub s : string) :
  contains sub s = true <->
  exists p q, s = String.append p (String.append sub q).
Proof.
  induction s as [|c s IH].
  - cbn [contains]. rewrite orb_false_r, prefix_spec. split.
    + intros [q Hq]. exists "", q. exact Hq.
    + intros (p & q & H). destruct p; [now exists q|discriminate].
  - cbn [contains]. rewrite orb_true_iff, prefix_spec, IH. split.
    + intros [[q Hq]|(p & q & Hq)].
      * exists "", q. exact Hq.
      * exists (String c p), q. cbn. now rewrite Hq.
    + intros (p & q & Hq). destruct p as [|x p].
      * left. now exists q.
      * right. cbn in Hq. injection Hq as _ Hq. now exists p, q.
Qed.

Lemma ends_with_spec (suffix s : string) :
  ends_with suffix s = true <-> exists p, s = String.append p suffix.
Proof.
  induction s as [|c s IH].
  - cbn [ends_with]. rewrite orb_false_r, String.eqb_eq. split.
    + intros ->. now exists "".
    + intros [p H]. destruct p; [now cbn in H|discriminate].
  - cbn [ends_with]. rewrite orb_true_iff, String.eqb_eq, IH. split.
    + intros [->|[p Hp]]; [now exists ""|].
      exists (String c p). cbn. now rewrite Hp.
    + intros [p Hp]. destruct p as [|x p].
      * left. now cbn in Hp.
      * right. cbn in Hp. injection Hp as _ Hp. now exists p.
Qed.

(** A string has one ending of each length. *)
Lemma ends_with_same_length (a b s : string) :
  String.length a = String.length b ->
  ends_with a s = true -> ends_with b s = true -> a = b.
Proof.
  intros Hlen Ha Hb. apply ends_with_spec in Ha, Hb.
  destruct Ha as [p ->], Hb as [q Hq]. now apply (append_same_tail p q).
Qed.

Lemma ends_with_trans (a b s : string) :
  ends_with a b = true -> ends_with b s = true -> ends_with a s = true.
Proof.
  intros Ha Hb. apply ends_with_spec in Ha, Hb. apply ends_with_spec.
  destruct Ha as [p ->], Hb as [q ->]. exists (String.append q p).
  now rewrite append_assoc.
Qed.

Lemma contains_trans (a b s : string) :
  contains a b = true -> contains b s = true -> contains a s = true.
Proof.
  intros Ha Hb. apply contains_spec in Ha, Hb. apply contains_spec.
  destruct Ha as (p & q & ->), Hb as (p' & q' & ->).
  exists (String.append p' p), (String.append q q').
  now rewrite !append_assoc.
Qed.

Lemma lstrip_v_no_leading_v (s rest : string) :
  lstrip_v s <> String "v"%char rest.
Proof.
  induction s as [|c s IH]; [discriminate|].
  cbn [lstrip_v].
  destruct (Ascii.ascii_dec c "v"%char) as [->|Hne]; [exact IH|].
  assert (H : lstrip_v (String c s) = String c s).
  { destruct c as [[|] [|] [|] [|] [|] [|] [|] [|]]; try reflexivity.
    now contradiction Hne. }
  cbn [lstrip_v] in H. rewrite H. congruence.
Qed.

End StringFacts.

(** ** The update check and what follows it *)

Module UpdateFlowFacts.
Import UpdateManager UpdateFlow StringFacts.

(** *** The connectivity test *)

Lemma first_answering_skip w before rest :
  Forall (passes_over w) before ->
  first_answering w (before ++ rest) = first_answering w rest.
Proof.
  induction 1 as [|url before Hurl _ IH]; [reflexivity|].
  cbn [app first_answering].
  destruct Hurl as [(status & body & -> & Hs)|(e & -> & He)].
  - apply Z.eqb_neq in Hs. now rewrite Hs.
  - now rewrite He.
Qed.

Lemma first_answering_cases w urls :
  match first_answering w urls with
  | Ok true =>
      exists before url after,
        urls = before ++ url :: after /\
        Forall (passes_over w) before /\ answers_200 w url
  | Ok false => Forall (passes_over w) urls
  | Raise e =>
      exists before url after,
        urls = before ++ url :: after /\
        Forall (passes_over w) before /\ breaks_at w url e
  end.
Proof.
  induction urls as [|url rest IH]; [constructor|].
  cbn [first_answering].
  destruct (requests_get w url) as [status body|e] eqn:Hr.
  - destruct (status =? 200) eqn:Hs.
    + apply Z.eqb_eq in Hs. subst status.
      exists [], url, rest. repeat split; [constructor|now exists body].
    + assert (Hp : passes_over w url).
      { left. exists status, body. split; [exact Hr|now apply Z.eqb_neq]. }
      destruct (first_answering w rest) as [[|]|e'].
      * destruct IH as (b & u & a & -> & Hb & Hu).
        exists (url :: b), u, a. repeat split; [now constructor|exact Hu].
      * now constructor.
      * destruct IH as (b & u & a & -> & Hb & Hu).
        exists (url :: b), u, a. repeat split; try apply Hu. now constructor.
  - destruct (is_request_exception e) eqn:He.
    + assert (Hp : passes_over w url) by (right; now exists e).
      destruct (first_answering w rest) as [[|]|e'].
      * destruct IH as (b & u & a & -> & Hb & Hu).
        exists (url :: b), u, a. repeat split; [now constructor|exact Hu].
      * now constructor.
      * destruct IH as (b & u & a & -> & Hb & Hu).
        exists (url :: b), u, a. repeat split; try apply Hu. now constructor.
    + exists [], url, rest. repeat split; [constructor|exact Hr|exact He].
Qed.

(** X1: the connectivity test answers True exactly when one of its four
    addresses answers 200 and every address before it was passed over, on
    another status or a [RequestException]; it answers False exactly when
    all four are passed over; and it raises [e] exactly when a request
    raises [e], which is no [RequestException], before any address has
    answered 200. *)
Theorem connectivity_test_outcomes (w : env) :
  (test_internet_connection w = Ok true <->
   exists before url after,
     test_urls = before ++ url :: after /\
     Forall (passes_over w) before /\ answers_200 w url) /\
  (test_internet_connection w = Ok false <->
   Forall (passes_over w) test_urls) /\
  (forall e,
     test_internet_connection w = Raise e <->
     exists before url after,
       test_urls = before ++ url :: after /\
       Forall (passes_over w) before /\ breaks_at w url e).
Proof.
  unfold test_internet_connection.
  pose proof (first_answering_cases w test_urls) as Hcases.
  split; [|split].
  - split.
    + intros H. now rewrite H in Hcases.
    + intros (b & u & a & -> & Hb & body & Hu).
      rewrite first_answering_skip by exact Hb.
      cbn [first_answering]. now rewrite Hu.
  - split.
    + intros H. now rewrite H in Hcases.
    + intros H. rewrite <- (app_nil_r test_urls).
      now rewrite first_answering_skip.
  - intros e. split.
    + intros H. now rewrite H in Hcases.
    + intros (b & u & a & -> & Hb & Hu & He).
      rewrite first_answering_skip by exact Hb.
      cbn [first_answering]. now rewrite Hu, He.
Qed.

(** *** The asset that is offered *)




Lemma lower_append (a b : string) :
  lower (String.append a b) = String.append (lower a) (lower b).
Proof. induction a as [|c a IH]; cbn; [reflexivity|now rewrite IH]. Qed.

Lemma windows_asset_win (name : string) :
  contains "win" name = true -> windows_asset name = true.
Proof.
  intros H. unfold windows_asset. cbn [existsb]. rewrite H.
  now rewrite !orb_true_r.
Qed.

(** X3: an asset is taken for a Windows file as soon as its lower-cased
    name holds 'win' anywhere.  So an asset whose name holds 'darwin', in
    any mix of cases, is taken, and when it comes first in the release its
    address is the one offered, whatever follows it. *)
Theorem darwin_asset_is_offered release_data d rest p word q :
  py_get release_data "assets" (JList []) = Ok (JList (JDict d :: rest)) ->
  lookup "name" d = Some (JStr (String.append p (String.append word q))) ->
  lower word = "darwin" ->
  get_download_url release_data =
    Ok (match lookup "browser_download_url" d with
        | Some x => x
        | None => JNull
        end) /\
  get_download_size release_data =
    Ok (match lookup "size" d with Some x => x | None => JNum 0 end).
Proof.
  intros Ha Hn Hw. unfold get_download_url, get_download_size.
  rewrite Ha. cbn [and_then py_iter first_windows_asset py_get].
  rewrite Hn. cbn [py_lower and_then].
  rewrite !lower_append, Hw.
  rewrite windows_asset_win; [split; reflexivity|].
  apply contains_spec.
  exists (String.append (lower p) "dar"), (lower q).
  now rewrite append_assoc.
Qed.

Lemma darwin_asset_is_offered_witness :
  get_download_url mac_build_first = Ok (JStr "https://dl/mac") /\
  get_download_size mac_build_first = Ok (JNum 0).
Proof.
  exact (darwin_asset_is_offered mac_build_first
           [("name", JStr "PC-Checker-Darwin.dmg");
            ("browser_download_url", JStr "https://dl/mac")]
           [JDict [("name", JStr "PC-Checker-Setup.exe");
                   ("browser_download_url", JStr "https://dl/windows")]]
           "PC-Checker-" "Darwin" ".dmg" eq_refl eq_refl eq_refl).
Defined.

(** *** The signals of [run] *)

Ltac no_update :=
  cbn; unfold emit; cbn;
  let H := fresh in intros [H|[]]; discriminate H.

Lemma make_update_info_fields release_data latest_version info :
  make_update_info release_data latest_version = Ok info ->
  info_version info = latest_version /\
  get_download_url release_data = Ok (info_download_url info) /\
  get_download_size release_data = Ok (info_size info).
Proof.
  unfold make_update_info.
  destruct (py_get release_data "name" _) as [name|]; [|discriminate].
  destruct (py_get release_data "body" _) as [body|]; [|discriminate].
  destruct (py_get release_data "published_at" _) as [published|];
    [|discriminate].
  destruct (get_download_url release_data) as [url|]; [|discriminate].
  destruct (get_download_size release_data) as [size|]; [|discriminate].
  cbn. intros [= <-]. cbn. auto.
Qed.

(** Where an [update_available] comes from. *)
Lemma update_available_origin pk self w info :
  In (update_available info) (run pk self w) ->
  exists release_data tag latest current,
    test_internet_connection w = Ok true /\
    requests_get w (github_api_url self) = Response 200 (Ok release_data) /\
    py_get release_data "tag_name" (JStr "") = Ok (JStr tag) /\
    lstrip_v tag <> "" /\
    parse pk (lstrip_v tag) = Ok latest /\
    parse pk (current_version self) = Ok current /\
    gt pk latest current = true /\
    make_update_info release_data (lstrip_v tag) = Ok info.
Proof.
  unfold run, run_body, try_except, bind, lift.
  destruct (test_internet_connection w) as [[|]|e0] eqn:Hc; cbn [negb];
    try no_update.
  unfold query_github.
  destruct (requests_get w (github_api_url self)) as [status body|e] eqn:Hr;
    [|unfold is_connection_error, is_timeout, is_request_exception;
      destruct (exc e); no_update].
  destruct (status =? 404); [no_update|].
  destruct (status =? 403); [no_update|].
  destruct (status =? 200) eqn:H200; cbn [negb]; [|no_update].
  apply Z.eqb_eq in H200. subst status.
  unfold read_release, bind, lift.
  destruct body as [release_data|e]; [|no_update].
  destruct (py_get release_data "tag_name" (JStr "")) as [tag_name|e] eqn:Htag;
    [|no_update].
  destruct tag_name as [| | |tag| |]; cbn [py_lstrip_v]; try no_update.
  destruct (String.eqb (lstrip_v tag) "") eqn:Hne; [no_update|].
  apply String.eqb_neq in Hne.
  unfold compare_versions, try_except, bind, lift.
  destruct (parse pk (lstrip_v tag)) as [latest|e] eqn:Hl; [|no_update].
  destruct (parse pk (current_version self)) as [current|e] eqn:Hcur;
    [|no_update].
  destruct (gt pk latest current) eqn:Hgt; [|no_update].
  destruct (make_update_info release_data (lstrip_v tag)) as [info'|e] eqn:Hi;
    [|no_update].
  cbn. unfold emit. cbn. intros [[= <-]|[]].
  exists release_data, tag, latest, current. repeat split; assumption.
Qed.

(** X4: whenever [run] announces an update, the version it announces is
    not empty and does not start with 'v', it parses, the current version
    parses, and it is greater than the current one; the address and the
    size it announces are those of the release that the API sent. *)
Theorem announced_update_is_newer pk self (w : env) info :
  In (update_available info) (run pk self w) ->
  info_version info <> "" /\
  (forall rest, info_version info <> String "v"%char rest) /\
  (exists latest current,
     parse pk (info_version info) = Ok latest /\
     parse pk (current_version self) = Ok current /\
     gt pk latest current = true) /\
  (exists release_data,
     requests_get w (github_api_url self) = Response 200 (Ok release_data) /\
     get_download_url release_data = Ok (info_download_url info) /\
     get_download_size release_data = Ok (info_size info)).
Proof.
  intros Hin.
  destruct (update_available_origin _ _ _ _ Hin)
    as (release_data & tag & latest & current & _ & Hr & _ & Hne & Hl & Hcur
        & Hgt & Hi).
  destruct (make_update_info_fields _ _ _ Hi) as (Hv & Hurl & Hsize).
  rewrite Hv. split; [exact Hne|]. split; [|split].
  - intros rest. apply lstrip_v_no_leading_v.
  - now exists latest, current.
  - now exists release_data.
Qed.

Lemma announced_update_is_newer_witness :
  info_version newer_release_info <> "" /\
  (forall rest, info_version newer_release_info <> String "v"%char rest) /\
  (exists latest current,
     parse plain_releases (info_version newer_release_info) = Ok latest /\
     parse plain_releases (current_version pc_checker) = Ok current /\
     gt plain_releases latest current = true) /\
  (exists release_data,
     requests_get (online three_assets) (github_api_url pc_checker) =
       Response 200 (Ok release_data) /\
     get_download_url release_data =
       Ok (info_download_url newer_release_info) /\
     get_download_size release_data = Ok (info_size newer_release_info)).
Proof.
  exact (announced_update_is_newer plain_releases pc_checker
           (online three_assets) newer_release_info (or_introl eq_refl)).
Defined.

Lemma run_without_connection pk self w :
  test_internet_connection w = Ok false ->
  run pk self w = [error_occurred "No internet connection"].
Proof.
  intros Hc. unfold run, run_body, try_except, bind, lift. now rewrite Hc.
Qed.

Lemma run_failed_request pk self w e :
  test_internet_connection w = Ok true ->
  requests_get w (github_api_url self) = Failed e ->
  run pk self w =
    [error_occurred
       (if is_connection_error e then "No internet connection"
        else if is_timeout e then "GitHub API timeout - please try again"
        else if is_request_exception e
        then String.append "Failed to connect to GitHub: " (message e)
        else String.append "Unexpected error: " (message e))].
Proof.
  intros Hc Hr. rewrite (UpdateFacts.run_connected _ _ _ Hc).
  unfold query_github, try_except. rewrite Hr.
  unfold is_connection_error, is_timeout, is_request_exception.
  now destruct (exc e).
Qed.

Lemma run_status pk self w status body :
  test_internet_connection w = Ok true ->
  requests_get w (github_api_url self) = Response status body ->
  (status = 404 ->
   run pk self w =
     [error_occurred "Repository not found - please check the repository URL"]) /\
  (status = 403 ->
   run pk self w =
     [error_occurred "API rate limit exceeded - please try again later"]).
Proof.
  intros Hc Hr. rewrite (UpdateFacts.run_connected _ _ _ Hc).
  unfold query_github, try_except. rewrite Hr.
  split; intros ->; reflexivity.
Qed.

Lemma run_release pk self w body :
  test_internet_connection w = Ok true ->
  requests_get w (github_api_url self) = Response 200 body ->
  run pk self w =
    fst (try_except (read_release pk self body)
           (fun e => emit (error_occurred
                             (String.append "Unexpected error: " (message e))))
           []).
Proof.
  intros Hc Hr. rewrite (UpdateFacts.run_connected _ _ _ Hc).
  unfold query_github. now rewrite Hr.
Qed.

(** X5: an exception of the connectivity test that is no
    [RequestException] ends the check with 'Unexpected error: ' and its
    text.  With connectivity, a request to the releases API that raises
    ends it with 'No internet connection' for every [ConnectionError], a
    [ConnectTimeout] among them; with the timeout message for a [Timeout]
    that is no [ConnectionError]; with 'Failed to connect to GitHub: ' and
    the text for a [RequestException] that is neither; and with
    'Unexpected error: ' and the text for anything else. *)
Theorem failed_requests_are_reported pk self (w : env) e :
  (test_internet_connection w = Raise e ->
   run pk self w =
     [error_occurred (String.append "Unexpected error: " (message e))]) /\
  (test_internet_connection w = Ok true ->
   requests_get w (github_api_url self) = Failed e ->
   (is_connection_error e = true ->
    run pk self w = [error_occurred "No internet connection"]) /\
   (is_timeout e = true -> is_connection_error e = false ->
    run pk self w = [error_occurred "GitHub API timeout - please try again"]) /\
   (is_request_exception e = true ->
    is_connection_error e = false -> is_timeout e = false ->
    run pk self w =
      [error_occurred
         (String.append "Failed to connect to GitHub: " (message e))]) /\
   (is_request_exception e = false ->
    run pk self w =
      [error_occurred (String.append "Unexpected error: " (message e))])).
Proof.
  split.
  - intros Hc. unfold run, run_body, try_except, bind, lift. now rewrite Hc.
  - intros Hc Hr. rewrite (run_failed_request _ _ _ _ Hc Hr).
    split; [|split; [|split]].
    + intros ->. reflexivity.
    + intros Ht ->. now rewrite Ht.
    + intros Hq -> ->. now rewrite Hq.
    + unfold is_connection_error, is_timeout, is_request_exception.
      now destruct (exc e).
Qed.

(** The theorem at work: a read that times out, and a connection that
    does. *)
Lemma failed_requests_are_reported_witness :
  run plain_releases pc_checker timing_out =
    [error_occurred "GitHub API timeout - please try again"] /\
  run plain_releases pc_checker connect_timing_out =
    [error_occurred "No internet connection"].
Proof.
  split.
  - exact (proj1 (proj2 (proj2 (failed_requests_are_reported plain_releases
                                  pc_checker timing_out _)
                                  eq_refl eq_refl))
                 eq_refl eq_refl).
  - exact (proj1 (proj2 (failed_requests_are_reported plain_releases
                           pc_checker connect_timing_out _)
                           eq_refl eq_refl)
                 eq_refl).
Defined.

(** X6: what a 200 with an unusable body gives.  A body that [json()]
    cannot read, a body that is no dictionary and a tag that is no string
    end the check with 'Unexpected error: ' and the text of the exception;
    a missing tag ends it with 'Invalid version information from GitHub';
    a tag or a current version that does not parse ends it with 'Version
    comparison error: ' and the text of the exception. *)
Theorem unusable_release_is_reported pk self (w : env) body :
  test_internet_connection w = Ok true ->
  requests_get w (github_api_url self) = Response 200 body ->
  (forall e, body = Raise e ->
     run pk self w =
       [error_occurred (String.append "Unexpected error: " (message e))]) /\
  (forall v, body = Ok v -> (forall d, v <> JDict d) ->
     run pk self w =
       [error_occurred
          (String.append "Unexpected error: "
             (message (attribute_error v "get")))]) /\
  (forall d, body = Ok (JDict d) -> lookup "tag_name" d = None ->
     run pk self w =
       [error_occurred "Invalid version information from GitHub"]) /\
  (forall d t, body = Ok (JDict d) -> lookup "tag_name" d = Some t ->
     (forall tag, t <> JStr tag) ->
     run pk self w =
       [error_occurred
          (String.append "Unexpected error: "
             (message (attribute_error t "lstrip")))]) /\
  (forall d tag, body = Ok (JDict d) ->
     lookup "tag_name" d = Some (JStr tag) -> lstrip_v tag <> "" ->
     (forall e, parse pk (lstrip_v tag) = Raise e ->
        run pk self w =
          [error_occurred
             (String.append "Version comparison error: " (message e))]) /\
     (forall latest e, parse pk (lstrip_v tag) = Ok latest ->
        parse pk (current_version self) = Raise e ->
        run pk self w =
          [error_occurred
             (String.append "Version comparison error: " (message e))])).
Proof.
  intros Hc Hr. rewrite (run_release _ _ _ _ Hc Hr).
  unfold read_release, try_except, bind, lift.
  split; [|split; [|split; [|split]]].
  - intros e ->. reflexivity.
  - intros v -> Hv. destruct v; try reflexivity. now contradiction (Hv d).
  - intros d -> Hl. cbn [py_get]. rewrite Hl. reflexivity.
  - intros d t -> Hl Ht. cbn [py_get]. rewrite Hl.
    destruct t; try reflexivity. now contradiction (Ht s).
  - intros d tag -> Hl Hne. cbn [py_get]. rewrite Hl. cbn [py_lstrip_v].
    apply String.eqb_neq in Hne. rewrite Hne.
    unfold compare_versions, try_except, bind, lift. split.
    + intros e ->. reflexivity.
    + intros latest e -> ->. reflexivity.
Qed.

Lemma unusable_release_is_reported_witness :
  run plain_releases pc_checker garbled =
    [error_occurred
       "Unexpected error: Expecting value: line 1 column 1 (char 0)"] /\
  run plain_releases pc_checker (online (JList [])) =
    [error_occurred "Unexpected error: 'list' object has no attribute 'get'"] /\
  run plain_releases pc_checker (online (JDict [("tag_name", JStr "v1.3-beta")])) =
    [error_occurred "Version comparison error: Invalid version: '1.3-beta'"].
Proof.
  split; [|split].
  - exact (proj1 (unusable_release_is_reported plain_releases pc_checker
                    garbled _ eq_refl eq_refl) _ eq_refl).
  - refine (proj1 (proj2 (unusable_release_is_reported plain_releases pc_checker
                            (online (JList [])) _ eq_refl eq_refl))
                  (JList []) eq_refl _).
    intros d. discriminate.
  - assert (Hne : lstrip_v "v1.3-beta" <> "") by discriminate.
    exact (proj1 (proj2 (proj2 (proj2 (proj2
             (unusable_release_is_reported plain_releases pc_checker
                (online (JDict [("tag_name", JStr "v1.3-beta")])) _
                eq_refl eq_refl)))) _ "v1.3-beta" eq_refl eq_refl Hne)
             _ eq_refl).
Defined.

(** X7: what the user is shown for the errors of the check.  Without
    connectivity, and for a [ConnectionError] of the API request (a
    [ConnectTimeout] among them), the status label reads 'No internet
    connection' and the message box asks to check the connection; a
    [Timeout] of the API request that is no [ConnectionError] gives
    'Connection timeout'; a 403 gives 'API rate limit exceeded' and the
    advice to try again in a few minutes; a 404 gives the status 'Update
    check failed' and the message that the repository was not found.  The
    label is set only when the window has one, the box is shown only when
    messages are wanted. *)
Theorem errors_shown_to_the_user pk self (w : env) (mgr : manager) :
  (test_internet_connection w = Ok false ->
   map (on_signal mgr) (run pk self w) =
     [Some (shows mgr "No internet connection"
              (String.append "Unable to check for updates."
                 (String.append blank_line
                    "Please check your internet connection and try again.")))]) /\
  (test_internet_connection w = Ok true ->
   forall e,
     requests_get w (github_api_url self) = Failed e ->
     is_connection_error e = true ->
     map (on_signal mgr) (run pk self w) =
       [Some (shows mgr "No internet connection"
                (String.append "Unable to check for updates."
                   (String.append blank_line
                      "Please check your internet connection and try again.")))]) /\
  (test_internet_connection w = Ok true ->
   forall e,
     requests_get w (github_api_url self) = Failed e ->
     is_timeout e = true -> is_connection_error e = false ->
     map (on_signal mgr) (run pk self w) =
       [Some (shows mgr "Connection timeout"
                (String.append "Update check timed out."
                   (String.append blank_line
                      "Please check your internet connection and try again.")))]) /\
  (test_internet_connection w = Ok true ->
   forall status body,
     requests_get w (github_api_url self) = Response status body ->
     (status = 403 ->
      map (on_signal mgr) (run pk self w) =
        [Some (shows mgr "API rate limit exceeded"
                 (String.append "GitHub API rate limit exceeded."
                    (String.append blank_line
                       "Please try again in a few minutes.")))]) /\
     (status = 404 ->
      map (on_signal mgr) (run pk self w) =
        [Some (shows mgr "Update check failed"
                 (String.append "Repository not found."
                    (String.append blank_line
                       "The update source may have moved or be unavailable.")))])).
Proof.
  split; [|split; [|split]].
  - intros Hc. rewrite (run_without_connection _ _ _ Hc). reflexivity.
  - intros Hc e Hr He. rewrite (run_failed_request _ _ _ _ Hc Hr), He.
    reflexivity.
  - intros Hc e Hr Ht He. rewrite (run_failed_request _ _ _ _ Hc Hr), He, Ht.
    reflexivity.
  - intros Hc status body Hr.
    destruct (run_status pk self w status body Hc Hr) as [H404 H403].
    split; intros Hs.
    + rewrite (H403 Hs). reflexivity.
    + rewrite (H404 Hs). reflexivity.
Qed.

Lemma errors_shown_to_the_user_witness :
  map (on_signal {| has_status_label := true; show_no_update_message := false |})
      (run plain_releases pc_checker offline) =
    [Some {| status_text := Some "No internet connection";
             dialog_text := None |}] /\
  map (on_signal {| has_status_label := true; show_no_update_message := false |})
      (run plain_releases pc_checker connect_timing_out) =
    [Some {| status_text := Some "No internet connection";
             dialog_text := None |}] /\
  map (on_signal {| has_status_label := true; show_no_update_message := false |})
      (run plain_releases pc_checker timing_out) =
    [Some {| status_text := Some "Connection timeout";
             dialog_text := None |}] /\
  map (on_signal {| has_status_label := true; show_no_update_message := true |})
      (run plain_releases pc_checker (answering 404)) =
    [Some {| status_text := Some "Update check failed";
             dialog_text :=
               Some (String.append "Repository not found."
                       (String.append blank_line
                          "The update source may have moved or be unavailable.")) |}].
Proof.
  split; [|split; [|split]].
  - exact (proj1 (errors_shown_to_the_user plain_releases pc_checker offline
                    {| has_status_label := true;
                       show_no_update_message := false |}) eq_refl).
  - exact (proj1 (proj2 (errors_shown_to_the_user plain_releases pc_checker
                           connect_timing_out
                           {| has_status_label := true;
                              show_no_update_message := false |}))
                 eq_refl _ eq_refl eq_refl).
  - exact (proj1 (proj2 (proj2 (errors_shown_to_the_user plain_releases
                                  pc_checker timing_out
                                  {| has_status_label := true;
                                     show_no_update_message := false |})))
                 eq_refl _ eq_refl eq_refl eq_refl).
  - exact (proj2 (proj2 (proj2 (proj2 (errors_shown_to_the_user plain_releases
                                  pc_checker (answering 404)
                                  {| has_status_label := true;
                                     show_no_update_message := true |})))
                        eq_refl 404 (Ok JNull) eq_refl) eq_refl).
Defined.

(** *** From the announcement to the installation *)

Lemma ends_with_append (p suffix : string) :
  ends_with suffix (String.append p suffix) = true.
Proof. apply ends_with_spec. now exists p. Qed.

Lemma file_name_ends (v suffix : string) :
  ends_with suffix (String.append "pc-checker-" (String.append v suffix)) = true.
Proof. rewrite <- append_assoc. apply ends_with_append. Qed.

(** X8: the file a download is started under is installed, never left for
    a manual installation.  When the address ends in '.exe' the file is
    named 'pc-checker-<version>.exe' and the installer is started; for any
    other address the file is named 'pc-checker-<version>.zip' and is
    unpacked as an archive, whatever the address points to.  The path the
    downloader saves to ends in the file name. *)
Theorem started_download_is_installed info url file_name download_path :
  download_update info = Ok (StartDownload url file_name) ->
  ends_with file_name download_path = true ->
  url = info_download_url info /\
  (py_endswith url ".exe" = Ok true ->
   file_name =
     String.append "pc-checker-" (String.append (info_version info) ".exe") /\
   install_update download_path = RunInstaller) /\
  (py_endswith url ".exe" = Ok false ->
   file_name =
     String.append "pc-checker-" (String.append (info_version info) ".zip") /\
   install_update download_path = InstallFromZip) /\
  install_update download_path <> ManualInstallation.
Proof.
  unfold download_update. intros Hd Hp.
  destruct (negb (truthy (info_download_url info))); [discriminate|].
  destruct (py_endswith (info_download_url info) ".exe") as [is_exe|e] eqn:He;
    [|discriminate].
  cbn [and_then] in Hd. injection Hd as <- <-.
  split; [reflexivity|]. rewrite He.
  assert (Hexe : is_exe = true -> install_update download_path = RunInstaller).
  { intros ->. unfold install_update.
    now rewrite (ends_with_trans ".exe" _ download_path
                   (file_name_ends (info_version info) ".exe") Hp). }
  assert (Hzip : is_exe = false -> install_update download_path = InstallFromZip).
  { intros ->. unfold install_update.
    assert (Hz : ends_with ".zip" download_path = true).
    { exact (ends_with_trans ".zip" _ download_path
               (file_name_ends (info_version info) ".zip") Hp). }
    destruct (ends_with ".exe" download_path) eqn:Hx.
    - discriminate (ends_with_same_length ".exe" ".zip" download_path
                      eq_refl Hx Hz).
    - now rewrite Hz. }
  split; [|split].
  - intros [= ->]. split; [reflexivity|now apply Hexe].
  - intros [= ->]. split; [reflexivity|now apply Hzip].
  - destruct is_exe; [rewrite Hexe|rewrite Hzip]; congruence.
Qed.

Lemma started_download_is_installed_witness :
  JStr "https://dl/PC-Checker-Darwin.dmg" = info_download_url newer_release_info /\
  (py_endswith (JStr "https://dl/PC-Checker-Darwin.dmg") ".exe" = Ok true ->
   "pc-checker-1.3.0.zip" =
     String.append "pc-checker-"
       (String.append (info_version newer_release_info) ".exe") /\
   install_update "C:/Temp/pc-checker-1.3.0.zip" = RunInstaller) /\
  (py_endswith (JStr "https://dl/PC-Checker-Darwin.dmg") ".exe" = Ok false ->
   "pc-checker-1.3.0.zip" =
     String.append "pc-checker-"
       (String.append (info_version newer_release_info) ".zip") /\
   install_update "C:/Temp/pc-checker-1.3.0.zip" = InstallFromZip) /\
  install_update "C:/Temp/pc-checker-1.3.0.zip" <> ManualInstallation.
Proof.
  exact (started_download_is_installed newer_release_info
           (JStr "https://dl/PC-Checker-Darwin.dmg") "pc-checker-1.3.0.zip"
           "C:/Temp/pc-checker-1.3.0.zip" eq_refl eq_refl).
Defined.

(** *** The download *)

Lemma stream_size_nonneg items : 0 <= stream_size items.
Proof.
  induction items as [|[data|e] rest IH]; cbn [stream_size]; lia.
Qed.

Lemma currents_app a b : currents (a ++ b) = currents a ++ currents b.
Proof.
  induction a as [|[c t|p|m] a IH]; cbn; [reflexivity| |exact IH|exact IH].
  now rewrite IH.
Qed.


(** The signals of the loop: progress only, with counts that go up. *)
Lemma receive_progress w items written d total :
  forallb is_download_progress (fst (receive w items written d total)) = true /\
  increasing_from d (currents (fst (receive w items written d total))) /\
  Forall (fun c => c <= d + stream_size items)
    (currents (fst (receive w items written d total))).
Proof.
  revert written d.
  induction items as [|[data|e] rest IH]; intros written d;
    cbn [receive stream_size]; try (cbn; now auto).
  destruct data as [|b data].
  - cbn [List.length Z.of_nat]. replace (d + (0 + stream_size rest))
      with (d + stream_size rest) by lia. apply IH.
  - destruct (write_error w written); [cbn; now auto|].
    specialize (IH (S written) (d + Z.of_nat (List.length (b :: data)))).
    destruct (receive w rest (S written) _ total) as [signals ended].
    cbn [fst] in *. destruct IH as (Hp & Hi & Hb).
    pose proof (stream_size_nonneg rest). cbn [forallb is_download_progress currents increasing_from andb].
    split; [exact Hp|]. split.
    + split; [cbn [List.length]; lia|exact Hi].
    + constructor; [lia|].
      eapply Forall_impl; [|exact Hb]. cbn beta. intros c Hc. lia.
Qed.

Lemma receive_undisturbed w items written d total :
  (forall k, write_error w k = None) ->
  (forall e, ~ In (Broken e) items) ->
  snd (receive w items written d total) = None /\
  last (currents (fst (receive w items written d total))) d =
    d + stream_size items.
Proof.
  intros Hw. revert written d.
  induction items as [|[data|e] rest IH]; intros written d Hb;
    cbn [receive stream_size].
  - cbn. split; [reflexivity|lia].
  - assert (Hb' : forall e, ~ In (Broken e) rest).
    { intros e He. apply (Hb e). now right. }
    destruct data as [|b data].
    + cbn [List.length Z.of_nat]. replace (d + (0 + stream_size rest))
        with (d + stream_size rest) by lia. now apply IH.
    + rewrite Hw.
      specialize (IH (S written) (d + Z.of_nat (List.length (b :: data))) Hb').
      destruct (receive w rest (S written) _ total) as [signals ended].
      cbn [fst snd] in *. destruct IH as [-> Hl]. split; [reflexivity|].
      cbn [currents]. rewrite PyFacts.last_cons, Hl. lia.
  - exfalso. apply (Hb e). now left.
Qed.

(** X9: a download ends with exactly one signal that is not a progress
    report, [download_completed] with the path or [download_failed], and
    nothing follows it.  The byte counts of the progress reports go up
    strictly from above zero, and none exceeds the size of the stream.
    When nothing goes wrong the download completes, and the last count
    reported, if there is one, is the size of the stream. *)
Theorem download_signals_in_order download_path (w : download_env) :
  (exists progress final,
     download download_path w = progress ++ [final] /\
     forallb is_download_progress progress = true /\
     (final = download_completed download_path \/
      exists error_message, final = download_failed error_message)) /\
  increasing_from 0 (currents (download download_path w)) /\
  Forall (fun c => c <= stream_size (stream w))
    (currents (download download_path w)) /\
  (undisturbed w -> forall total_size,
   content_length w = Ok total_size ->
   exists progress,
     download download_path w =
       progress ++ [download_completed download_path] /\
     last (currents progress) 0 = stream_size (stream w)).
Proof.
  unfold download.
  destruct (get_error w) as [e|] eqn:Hg.
  { split; [|split; [|split]]; cbn; auto.
    - exists [], (download_failed (message e)). eauto.
    - intros (H & _). congruence. }
  destruct (status_error w) as [e|] eqn:Hs.
  { split; [|split; [|split]]; cbn; auto.
    - exists [], (download_failed (message e)). eauto.
    - intros (_ & H & _). congruence. }
  destruct (content_length w) as [total|e] eqn:Hc.
  2: { split; [|split; [|split]]; cbn; auto.
       - exists [], (download_failed (message e)). eauto.
       - intros _ t [=]. }
  destruct (open_error w) as [e|] eqn:Ho.
  { split; [|split; [|split]]; cbn; auto.
    - exists [], (download_failed (message e)). eauto.
    - intros (_ & _ & H & _). congruence. }
  destruct (receive_progress w (stream w) 0 0 total) as (Hp & Hi & Hb).
  pose proof (receive_undisturbed w (stream w) 0 0 total) as Hu.
  destruct (receive w (stream w) 0 0 total) as [signals ended].
  cbn [fst snd] in *.
  assert (Hcur : forall final, is_download_progress final = false ->
            currents (signals ++ [final]) = currents signals).
  { intros final Hf. rewrite currents_app.
    destruct final; [discriminate| |]; cbn; apply app_nil_r. }
  split; [|split; [|split]].
  - destruct ended as [e|].
    + exists signals, (download_failed (message e)). eauto.
    + exists signals, (download_completed download_path). eauto.
  - destruct ended; now rewrite Hcur.
  - destruct ended; now rewrite Hcur.
  - intros (_ & _ & _ & Hw & Hbr) t _.
    destruct (Hu Hw Hbr) as [-> Hl]. exists signals. split; [reflexivity|].
    exact Hl.
Qed.

Lemma download_signals_in_order_witness :
  exists progress,
    download "C:/Temp/pc-checker-1.3.0.zip" three_chunks =
      progress ++ [download_completed "C:/Temp/pc-checker-1.3.0.zip"] /\
    last (currents progress) 0 = stream_size (stream three_chunks).
Proof.
  refine (proj2 (proj2 (proj2 (download_signals_in_order
                                 "C:/Temp/pc-checker-1.3.0.zip" three_chunks)))
                _ 5 eq_refl).
  repeat split; try reflexivity.
  intros e [H|[H|[H|[]]]]; discriminate H.
Defined.








(** *** The reminder *)

(** X11: an update that [run] announced and the user postponed is shown
    again at the next start: the reminder file written for it makes
    [check_update_reminder] schedule the reminder with the very dictionary
    that was announced, and the file stays.  Once the program itself is at
    the announced version the reminder is outdated: nothing is shown and
    the file is removed, if it can be. *)
Theorem postponed_update_is_shown_again pk self (w : env) info reminder_date
  file removable :
  In (update_available info) (run pk self w) ->
  check_update_reminder pk self removable
    (set_update_reminder info reminder_date true file) =
    (set_update_reminder info reminder_date true file,
     Some (Ok (info_dict info))) /\
  (forall self',
     current_version self' = info_version info ->
     (forall v, gt pk v v = false) ->
     check_update_reminder pk self' removable
       (set_update_reminder info reminder_date true file) =
       (if removable then None
        else set_update_reminder info reminder_date true file, None)).
Proof.
  intros Hin.
  destruct (update_available_origin _ _ _ _ Hin)
    as (release_data & tag & latest & current & _ & _ & _ & _ & Hl & Hcur
        & Hgt & Hi).
  destruct (make_update_info_fields _ _ _ Hi) as (Hv & _).
  rewrite <- Hv in Hl.
  unfold check_update_reminder, set_update_reminder, reminder_is_newer.
  cbn [py_item lookup String.eqb Ascii.eqb Bool.eqb andb and_then parse_value].
  rewrite Hl. cbn [and_then]. split.
  - rewrite Hcur. cbn [and_then]. now rewrite Hgt.
  - intros self' Hself Hirr. rewrite Hself, Hl. cbn [and_then].
    now rewrite Hirr.
Qed.

Lemma postponed_update_is_shown_again_witness :
  check_update_reminder plain_releases pc_checker true
    (set_update_reminder newer_release_info "2025-01-01T09:00:00" true None) =
    (set_update_reminder newer_release_info "2025-01-01T09:00:00" true None,
     Some (Ok (info_dict newer_release_info))) /\
  check_update_reminder plain_releases
    {| current_version := "1.3.0"; github_repo := "bibekchandsah/pc-checker" |}
    true
    (set_update_reminder newer_release_info "2025-01-01T09:00:00" true None) =
    (None, None).
Proof.
  pose proof (postponed_update_is_shown_again plain_releases pc_checker
                (online three_assets) newer_release_info
                "2025-01-01T09:00:00" None true (or_introl eq_refl)) as [H1 H2].
  split; [exact H1|].
  exact (H2 {| current_version := "1.3.0";
               github_repo := "bibekchandsah/pc-checker" |}
            eq_refl UpdateFacts.release_gt_irrefl).
Defined.

End UpdateFlowFacts.

(** ** More on the runs of the workers *)

Module RunFacts.
Import Worker WorkerFacts Runs.

Ltac crunch :=
  unfold try_except, bind, assign, modify, emit, ret, raise, get, call_back,
    lift, bind;
  cbn [now log fst snd negb andb];
  repeat
    (match goal with
     | |- context [if ?b then _ else _] => destruct b eqn:?
     | |- context [match ?o with Some _ => _ | None => _ end] =>
         destruct o eqn:?
     end;
     cbn [now log fst snd negb andb]).

(** A property of the store that every iteration keeps is kept by the
    loop. *)
Lemma for_each_now {S X} (J : S -> Prop) (xs : list X) (body : X -> M S ctl) :
  (forall x s, J (now s) -> J (now (fst (body x s)))) ->
  forall s, J (now s) -> J (now (fst (for_each xs body s))).
Proof.
  intros Hb. induction xs as [|x xs IH]; intros s Hs; [exact Hs|].
  cbn [for_each]. specialize (Hb x s Hs).
  destruct (body x s) as [s' [[|]|e]]; cbn [fst] in *; auto.
Qed.

Lemma returns_for_each {S X} (xs : list X) (body : X -> M S ctl) :
  (forall x, returns (body x)) -> returns (for_each xs body).
Proof.
  intros Hb. induction xs as [|x xs IH]; intros s.
  - now exists s, tt.
  - cbn [for_each]. destruct (Hb x s) as (s1 & [|] & ->).
    + apply IH.
    + now exists s1, tt.
Qed.

Section ChargingEvents.
Import ChargingTest.

Lemma alternates_snoc previous states x :
  alternates previous states -> x <> last states previous ->
  alternates previous (states ++ [x]).
Proof.
  revert previous. induction states as [|y states IH]; intros previous Ha Hx.
  - cbn in *. auto.
  - destruct Ha as [Hy Ha]. rewrite PyFacts.last_cons in Hx.
    split; [exact Hy|]. now apply IH.
Qed.

Lemma differs_false (x y : option bool) : differs x y = false -> x = y.
Proof. destruct x as [[|]|], y as [[|]|]; cbn; congruence. Qed.

Lemma differs_true (x y : option bool) : differs x y = true -> x <> y.
Proof. destruct x as [[|]|], y as [[|]|]; cbn; congruence. Qed.

Lemma same_events_alternate initial_state (s s' : store) :
  same_events s s' -> events_alternate initial_state s ->
  events_alternate initial_state s'.
Proof.
  unfold same_events, events_alternate, event_states.
  intros [-> ->]. auto.
Qed.

Lemma monitor_step_alternates (w : env) callback total initial_state check
  (s : state store) :
  events_alternate initial_state (now s) ->
  events_alternate initial_state
    (now (fst (monitor_step w callback total check s))).
Proof.
  intros Hs.
  pose proof (ChargingFacts.monitor_step_events w callback total check s) as H.
  cbn zeta in H.
  destruct (is_testing w (InLoop 0 check));
    [|now apply (same_events_alternate _ (now s))].
  destruct (reading_at w check) as [|plugged percent|msg];
    try now apply (same_events_alternate _ (now s)).
  destruct H as [Hev Hlast]. destruct Hs as (Ha & Hl & Hf).
  unfold events_alternate, event_states in *. rewrite Hev, Hlast.
  destruct (differs plugged (last_charging_state (now s))) eqn:Hd.
  - apply differs_true in Hd. rewrite map_app. cbn [map event_for charging_state].
    split; [|split].
    + apply alternates_snoc; [exact Ha|]. now rewrite Hl.
    + apply last_last.
    + apply Forall_app. split; [exact Hf|]. constructor; [|constructor].
      destruct plugged as [[|]|]; reflexivity.
  - apply differs_false in Hd. rewrite app_nil_r. subst plugged. auto.
Qed.

Lemma monitor_step_initial_state (w : env) callback total check
  (s : state store) :
  initial_charging_state (res (now (fst (monitor_step w callback total check s)))) =
  initial_charging_state (res (now s)).
Proof.
  unfold monitor_step, sample, detect_state_change, track_level_change,
    print_level_change,
    throttled_callback.
  destruct (reading_at w check); crunch; reflexivity.
Qed.

(** X12: the charging events of a run never repeat a state: each recorded
    event has a charging state different from the one recorded before it,
    and the first differs from the state found when the test started.
    The label of an event is 'plugged_in' for the state True and
    'unplugged' for False and for None.  This holds for every run, stopped,
    failed or complete. *)
Theorem charging_events_alternate callback (w : env) :
  let final := now (fst (charging_test callback w)) in
  alternates (initial_charging_state (res final)) (event_states (res final)) /\
  Forall (fun e =>
            event e =
              match charging_state e with
              | Some true => "plugged_in"
              | _ => "unplugged"
              end)
         (charging_events (res final)).
Proof.
  cbn zeta.
  remember (fst (charging_test callback w)) as final eqn:Hfinal.
  assert (H : events_alternate (initial_charging_state (res (now final)))
                (now final) \/
              charging_events (res (now final)) = []).
  2: { destruct H as [(Ha & _ & Hf)|H]; [now split|].
       unfold event_states. rewrite H. split; constructor. }
  unfold charging_test, run, charging_test_worker, detect_battery in Hfinal.
  revert Hfinal. generalize (Py.range checks_total). intros xs Hfinal.
  destruct (initial_reading w) as [|plugged percent|msg].
  - right. subst final. destruct callback; reflexivity.
  - left. unfold try_except at 1 in Hfinal.
    set (J := fun st : store =>
                events_alternate plugged st /\
                initial_charging_state (res st) = plugged).
    assert (Hstep : forall cb x (s : state store),
              J (now s) -> J (now (fst (monitor_step w cb checks_total x s)))).
    { intros cb x s [H1 H2]. split.
      - now apply monitor_step_alternates.
      - now rewrite monitor_step_initial_state. }
    destruct callback;
      cbn [try_except bind assign modify emit ret call_back get now log
           instructions_given res with_res set_instructions_given
           set_initial_battery_level set_initial_charging_state
           set_battery_support initial negb] in Hfinal;
      unfold bind at 1 in Hfinal;
      (match type of Hfinal with
       | context [for_each xs (monitor_step w ?cb checks_total) ?st] =>
         pose proof (for_each_now J xs (monitor_step w cb checks_total)
                       (Hstep cb) st) as Hloop;
         destruct (for_each xs (monitor_step w cb checks_total) st)
           as [s1 [[]|e]]
       end);
      cbn [fst] in Hloop;
      (destruct Hloop as [H1 H2];
       [split; [repeat split; constructor|reflexivity]|]);
      subst final; cbn; rewrite H2; exact H1.
  - right. subst final. destruct callback; reflexivity.
Qed.

End ChargingEvents.

Section DiskSpeeds.
Import DiskTest.

Lemma write_step_returns w size cb i :
  write_error w i = None -> returns (write_step w size cb i).
Proof.
  intros He. unfold write_step. rewrite He. cbn [attempt].
  repeat returns_step.
Qed.

Lemma read_step_returns w size cb i :
  read_error w i = None -> returns (read_step w size cb i).
Proof.
  intros He. unfold read_step. rewrite He. cbn [attempt].
  repeat returns_step.
Qed.

Lemma write_step_keeps_error w size cb i (s : state results) :
  error (now s) = None ->
  error (now (fst (write_step w size cb i s))) = None.
Proof.
  intros Hs. unfold write_step, attempt.
  destruct (write_error w i); crunch; exact Hs.
Qed.

Lemma read_step_keeps_write_speed w size cb i v (s : state results) :
  write_speed_mbps (now s) = v /\ error (now s) = None ->
  write_speed_mbps (now (fst (read_step w size cb i s))) = v /\
  error (now (fst (read_step w size cb i s))) = None.
Proof.
  intros Hs. unfold read_step, attempt.
  destruct (read_error w i); crunch; exact Hs.
Qed.

Lemma speed_positive_time size t :
  (0 < t)%Q -> speed size t = (inject_Z size / t)%Q.
Proof.
  intros Ht. unfold speed.
  destruct (Qle_bool t 0) eqn:E; [|reflexivity].
  apply Qle_bool_iff in E. exfalso. apply (Qlt_not_le _ _ Ht E).
Qed.

Lemma speed_no_time size t : (t <= 0)%Q -> speed size t = 0%Q.
Proof.
  intros Ht. unfold speed.
  apply Qle_bool_iff in Ht. now rewrite Ht.
Qed.

(** A run in which no file operation raises ends with both speeds set from
    the requested size and the two measured times. *)
Lemma disk_run_speeds size callback (w : env) :
  tempfile_error w = None ->
  (forall k, open_error w k = None) ->
  (forall i, write_error w i = None) ->
  (forall i, read_error w i = None) ->
  exists final,
    disk_speed_test size callback w = (final, Normal tt) /\
    write_speed_mbps (now final) = speed size (write_time w) /\
    read_speed_mbps (now final) = speed size (read_time w) /\
    status (now final) =
      (if is_testing w AtEnd then "Completed" else "Stopped") /\
    progress (now final) = 100 /\
    error (now final) = None.
Proof.
  intros Htmp Hopen Hw Hr.
  unfold disk_speed_test, run, disk_test_worker, try_except.
  rewrite Htmp, !Hopen.
  cbn [attempt]. unfold bind at 1. unfold ret at 1. unfold bind at 1.
  unfold ret at 1. unfold bind at 1.
  destruct (returns_for_each (Py.range size) (write_step w size callback)
              (fun i => write_step_returns w size callback i (Hw i))
              {| now := initial size; log := [] |}) as (s1 & [] & Hrun1).
  pose proof (for_each_now (fun r => error r = None) (Py.range size)
                (write_step w size callback)
                (write_step_keeps_error w size callback)
                {| now := initial size; log := [] |} eq_refl) as Herr.
  rewrite Hrun1 in *. cbn [fst] in Herr.
  cbn [bind modify ret now log]. unfold bind at 1.
  match goal with |- context [for_each _ _ ?st] =>
    destruct (returns_for_each (Py.range size) (read_step w size callback)
                (fun i => read_step_returns w size callback i (Hr i)) st)
      as (s2 & [] & Hrun2);
    pose proof (for_each_now
                  (fun r => write_speed_mbps r = speed size (write_time w) /\
                            error r = None)
                  (Py.range size) (read_step w size callback)
                  (fun i s => read_step_keeps_write_speed w size callback i
                                _ s) st (conj eq_refl Herr)) as [Hkeep Herr2]
  end.
  rewrite Hrun2 in *. cbn [fst] in Hkeep, Herr2.
  destruct callback;
    cbn [bind assign modify emit lift ret call_back now log];
    (eexists; split; [reflexivity|]); cbn; repeat split; assumption.
Qed.

(** X13: the speeds of the disk test are the requested size over the time
    each phase took, whatever was transferred.  In every run in which no
    file operation raises, be it complete or stopped at any chunk, the
    worker ends without an error; 'write_speed_mbps' is the quotient
    [test_file_size_mb / write_time] when the write time is positive and 0
    when it is not; 'read_speed_mbps' is [test_file_size_mb / read_time]
    when the read time is positive and 0 when it is not; and the status is
    'Completed' or 'Stopped' as the flag says at the end. *)
Theorem disk_speeds_ignore_stop size callback (w : env) :
  tempfile_error w = None ->
  (forall k, open_error w k = None) ->
  (forall i, write_error w i = None) ->
  (forall i, read_error w i = None) ->
  exists final,
    disk_speed_test size callback w = (final, Normal tt) /\
    ((0 < write_time w)%Q ->
     write_speed_mbps (now final) = (inject_Z size / write_time w)%Q) /\
    ((write_time w <= 0)%Q -> write_speed_mbps (now final) = 0%Q) /\
    ((0 < read_time w)%Q ->
     read_speed_mbps (now final) = (inject_Z size / read_time w)%Q) /\
    ((read_time w <= 0)%Q -> read_speed_mbps (now final) = 0%Q) /\
    status (now final) =
      (if is_testing w AtEnd then "Completed" else "Stopped") /\
    progress (now final) = 100 /\
    error (now final) = None.
Proof.
  intros Htmp Hopen Hw Hr.
  destruct (disk_run_speeds size callback w Htmp Hopen Hw Hr)
    as (final & Hrun & Hws & Hrs & Hrest).
  exists final. split; [exact Hrun|].
  split; [intros Ht; rewrite Hws; now apply speed_positive_time|].
  split; [intros Ht; rewrite Hws; now apply speed_no_time|].
  split; [intros Ht; rewrite Hrs; now apply speed_positive_time|].
  split; [intros Ht; rewrite Hrs; now apply speed_no_time|].
  exact Hrest.
Qed.

(** The theorem at work: nothing is written and nothing is read, and the
    test reports ten megabytes in a hundredth of a second, that is 1000
    megabytes per second, in both directions. *)
Lemma disk_speeds_ignore_stop_witness :
  exists final,
    disk_speed_test 10 true stopped_before_writing = (final, Normal tt) /\
    write_speed_mbps (now final) = (inject_Z 10 / (1 # 100))%Q /\
    (write_speed_mbps (now final) == 1000)%Q /\
    read_speed_mbps (now final) = (inject_Z 10 / (1 # 100))%Q /\
    (read_speed_mbps (now final) == 1000)%Q /\
    status (now final) = "Stopped" /\
    filter is_write (labels (log final)) = [] /\
    filter is_read (labels (log final)) = [].
Proof.
  destruct (disk_speeds_ignore_stop 10 true stopped_before_writing eq_refl
              (fun _ => eq_refl) (fun _ => eq_refl) (fun _ => eq_refl))
    as (final & Hrun & Hws & _ & Hrs & _ & Hst & _).
  exists final. split; [exact Hrun|].
  split; [exact (Hws eq_refl)|].
  split; [rewrite (Hws eq_refl); reflexivity|].
  split; [exact (Hrs eq_refl)|].
  split; [rewrite (Hrs eq_refl); reflexivity|].
  split; [exact Hst|].
  replace final with (fst (disk_speed_test 10 true stopped_before_writing))
    by (now rewrite Hrun).
  split; reflexivity.
Defined.

End DiskSpeeds.

Section CpuStatistics.
Import CpuTest.

Lemma usage_total_snoc samples sample :
  usage_total (samples ++ [sample]) =
  (usage_total samples + usage sample)%Q.
Proof. unfold usage_total. now rewrite map_app, fold_left_app. Qed.

Lemma Qlt_bool_true x y : Qlt_bool x y = true -> (x < y)%Q.
Proof.
  unfold Qlt_bool. intros H. apply Qnot_le_lt. intros Hle.
  apply Qle_bool_iff in Hle. rewrite Hle in H. discriminate.
Qed.

Lemma Qlt_bool_false x y : Qlt_bool x y = false -> (y <= x)%Q.
Proof.
  unfold Qlt_bool. intros H. apply Qle_bool_iff.
  now destruct (Qle_bool y x).
Qed.

(** Lines 63-73 keep the books. *)
Lemma record_usage_statistics w i (s : state store) :
  cpu_statistics w i (now s) ->
  exists s',
    record_usage w i s = (s', Normal tt) /\ log s' = log s /\
    cpu_statistics w (i + 1) (now s').
Proof.
  intros (Hi & Hc & Hu & Ht & Hm & Hin).
  unfold record_usage, bind, modify, get. cbn [now log].
  set (sample := {| sample_time := (usage_time w i - start_time w)%Q;
                    usage := cpu_percent w i |}).
  assert (Hus : map usage (cpu_usage_samples (res (now s)) ++ [sample]) =
                map (cpu_percent w) (Py.range (i + 1))).
  { rewrite PyFacts.range_succ by exact Hi. now rewrite !map_app, Hu. }
  cbn [res with_res count_sample max_usage append_usage_sample].
  destruct (Qlt_bool (max_usage (res (now s))) (cpu_percent w i)) eqn:Hlt.
  - apply Qlt_bool_true in Hlt.
    eexists. split; [reflexivity|]. split; [reflexivity|].
    unfold cpu_statistics.
    cbn [now res sample_count total_usage cpu_usage_samples max_usage
         with_res count_sample set_max_usage append_usage_sample].
    split; [lia|]. split; [lia|]. split; [exact Hus|].
    split; [now rewrite usage_total_snoc, Ht|]. split.
    + apply Forall_app. split.
      * eapply Forall_impl; [|exact Hm]. cbn. intros u Hle.
        apply Qle_trans with (max_usage (res (now s))); [exact Hle|].
        now apply Qlt_le_weak.
      * constructor; [apply Qle_refl|constructor].
    + right. rewrite map_app. apply in_or_app. right. now left.
  - apply Qlt_bool_false in Hlt.
    eexists. split; [reflexivity|]. split; [reflexivity|].
    unfold cpu_statistics.
    cbn [now res sample_count total_usage cpu_usage_samples max_usage
         with_res count_sample set_max_usage append_usage_sample].
    split; [lia|]. split; [lia|]. split; [exact Hus|].
    split; [now rewrite usage_total_snoc, Ht|]. split.
    + apply Forall_app. split; [exact Hm|].
      constructor; [exact Hlt|constructor].
    + destruct Hin as [H0|Hin]; [now left|right].
      rewrite map_app. apply in_or_app. now left.
Qed.

(** An iteration that ends adds one sample; one that raises adds none. *)
Lemma monitor_step_statistics w dur cb i (s : state store) :
  cpu_statistics w i (now s) ->
  match monitor_step w dur cb i s with
  | (s', Normal _) => cpu_statistics w (i + 1) (now s')
  | (s', Raised _) => cpu_statistics w i (now s')
  end.
Proof.
  intros Hs. unfold monitor_step, update_progress.
  destruct (dur =? 0); [exact Hs|].
  unfold bind at 1. unfold assign, bind, modify, emit. cbn [now log].
  match goal with |- context [record_usage w i ?st] =>
    destruct (record_usage_statistics w i st) as (s1 & Hrun & _ & H1);
    [exact Hs|rewrite Hrun] end.
  unfold record_temperature.
  destruct (coretemp w i) as [[t temp]|]; destruct cb; exact H1.
Qed.

Lemma monitor_loop_statistics fuel w dur cb :
  forall i (s : state store),
    cpu_statistics w i (now s) ->
    exists n, cpu_statistics w n (now (fst (monitor_loop fuel w dur cb i s))).
Proof.
  induction fuel as [|fuel IH]; intros i s Hs; cbn [monitor_loop].
  - exists i. now destruct (guard w dur i).
  - destruct (guard w dur i); [|now exists i].
    unfold bind. pose proof (monitor_step_statistics w dur cb i s Hs) as H1.
    destruct (monitor_step w dur cb i s) as [s1 [[]|e]].
    + now apply IH.
    + now exists i.
Qed.

(** X14: the bookkeeping of the CPU monitor, in every run, however it
    ends.  There is one usage sample for each iteration that was
    completed, holding the reading of that iteration; [sample_count] is
    their number and [total_usage] their sum; 'max_usage' is at least
    every sample, and it is one of them or the 0 it started with.  When
    the worker reaches its end, 'avg_usage' is the sum of the samples
    over their number, and 0 when there is none. *)
Theorem cpu_usage_statistics fuel dur callback (w : env) :
  let final := now (fst (cpu_stress_test fuel dur callback w)) in
  cpu_statistics w (sample_count final) final /\
  (snd (cpu_stress_test fuel dur callback w) = Normal true ->
   avg_usage (res final) =
     if 0 <? sample_count final
     then (usage_total (cpu_usage_samples (res final)) /
           inject_Z (sample_count final))%Q
     else 0%Q).
Proof.
  cbn zeta.
  destruct (cpu_stress_test fuel dur callback w) as [final r] eqn:Hrun.
  cbn [fst snd].
  unfold cpu_stress_test, run, monitor_worker in Hrun.
  destruct (monitor_loop_statistics fuel w dur callback 0
              {| now := initial dur; log := [] |}) as (n & Hn).
  { unfold cpu_statistics. cbn. repeat split; try lia; auto. }
  unfold bind at 1 in Hrun.
  destruct (monitor_loop fuel w dur callback 0 _) as [s1 [[|]|e]];
    cbn [fst] in Hn;
    assert (Hc : sample_count (now s1) = n) by apply Hn.
  - destruct Hn as (H0 & _ & Hu & Ht & Hm & Hin).
    destruct callback; cbn in Hrun; injection Hrun as <- <-;
      cbn [now res sample_count total_usage cpu_usage_samples max_usage
           avg_usage with_res set_status set_progress set_avg_usage];
      (split; [|intros _]);
      try (unfold average; now rewrite Ht);
      rewrite Hc; unfold cpu_statistics;
      cbn [now res sample_count total_usage cpu_usage_samples max_usage
           avg_usage with_res set_status set_progress set_avg_usage];
      repeat split; assumption.
  - cbn in Hrun. injection Hrun as <- <-. rewrite Hc.
    split; [exact Hn|discriminate].
  - injection Hrun as <- <-. rewrite Hc. split; [exact Hn|discriminate].
Qed.

(** The theorem at work: two iterations at 40% load. *)
Lemma cpu_usage_statistics_witness :
  avg_usage (res (now (fst (cpu_stress_test 5 4 true steady)))) =
    (usage_total
       (cpu_usage_samples (res (now (fst (cpu_stress_test 5 4 true steady))))) /
     inject_Z 2)%Q /\
  map usage (cpu_usage_samples (res (now (fst (cpu_stress_test 5 4 true steady))))) =
    [40%Q; 40%Q].
Proof.
  split.
  - exact (proj2 (cpu_usage_statistics 5 4 true steady) eq_refl).
  - reflexivity.
Defined.

End CpuStatistics.

End RunFacts.

(** ** The network speed test *)

Module NetworkFacts.
Import Worker WorkerFacts NetworkTest.

(** X15: the network test cannot be stopped.  When nothing raises, the
    worker measures download, upload and ping to the end whatever the
    Stop flag says: the three results are there, converted to Mbit/s, and
    only the final status tells a stopped run, as 'Stopped', from a
    complete one.  The three intermediate statuses are assigned, and seen
    by the callback, only when there is a callback; without one the status
    goes from 'Running' to the final one directly. *)
Theorem network_test_measures_to_the_end callback (w : env) server
  download_speed upload_speed :
  speedtest_error w = None ->
  best_server w = Normal server ->
  download w = Normal download_speed ->
  upload w = Normal upload_speed ->
  exists final,
    network_speed_test callback w = (final, Normal tt) /\
    download_mbps (now final) = (download_speed / 1000000)%Q /\
    upload_mbps (now final) = (upload_speed / 1000000)%Q /\
    ping_ms (now final) = ping w /\
    server_info (now final) = server /\
    error (now final) = None /\
    status (now final) =
      (if is_testing w AtEnd then "Completed" else "Stopped") /\
    statuses_seen (log final) =
      (if callback
       then ["Finding best server..."; "Testing download speed...";
             "Testing upload speed...";
             if is_testing w AtEnd then "Completed" else "Stopped"]
       else []) /\
    map (fun e => status (snd e)) (filter (fun e => match fst e with
                                                   | LStatus => true
                                                   | _ => false
                                                   end) (log final)) =
      (if callback
       then ["Finding best server..."; "Testing download speed...";
             "Testing upload speed..."]
       else []) ++
      [if is_testing w AtEnd then "Completed" else "Stopped"].
Proof.
  intros Hs Hb Hd Hu.
  unfold network_speed_test, run, network_test_worker, try_except, announce.
  rewrite Hs, Hb, Hd, Hu.
  destruct callback;
    cbn [bind assign modify emit lift ret raise call_back attempt now log];
    (eexists; split; [reflexivity|]);
    cbn [now log download_mbps upload_mbps ping_ms server_info status error
         set_download_mbps set_upload_mbps set_ping_ms set_server_info
         set_status set_error initial].
  all: repeat split; reflexivity.
Qed.

Lemma network_test_measures_to_the_end_witness :
  exists final,
    network_speed_test true stopped_during_download = (final, Normal tt) /\
    download_mbps (now final) = (80000000 / 1000000)%Q /\
    upload_mbps (now final) = (20000000 / 1000000)%Q /\
    status (now final) = "Stopped".
Proof.
  destruct (network_test_measures_to_the_end true stopped_during_download
              _ _ _ eq_refl eq_refl eq_refl eq_refl)
    as (final & Hrun & Hd & Hu & _ & _ & _ & Hst & _).
  exists final. repeat split; assumption.
Defined.

(** X16: a failure of the network test.  The first operation that raises
    ends the measurements: the status becomes 'Error', 'error' holds the
    text of the exception, the callback, if there is one, is called once
    more and sees 'Error', and the worker itself does not raise.  What was
    measured before stays in the dictionary and what was not stays 0: the
    upload and the ping are 0 after every failure, the download is 0
    unless it is the upload that failed. *)
Theorem network_test_failure callback (w : env) e :
  first_failure w = Some e ->
  exists final,
    network_speed_test callback w = (final, Normal tt) /\
    status (now final) = "Error" /\
    error (now final) = Some e /\
    upload_mbps (now final) = 0%Q /\
    ping_ms (now final) = 0%Q /\
    (upload w <> Raised e -> download_mbps (now final) = 0%Q) /\
    (forall download_speed,
       speedtest_error w = None -> download w = Normal download_speed ->
       (exists server, best_server w = Normal server) ->
       download_mbps (now final) = (download_speed / 1000000)%Q) /\
    last (statuses_seen (log final)) "Error" = "Error".
Proof.
  unfold first_failure, network_speed_test, run, network_test_worker,
    try_except, announce.
  destruct (speedtest_error w) as [e0|];
    [|destruct (best_server w) as [server|e1];
      [destruct (download w) as [d|e2];
       [destruct (upload w) as [u|e3]|]|]];
    intros [= <-]; destruct callback;
    cbn [bind assign modify emit lift ret raise call_back attempt now log];
    (eexists; split; [reflexivity|]);
    cbn [now log download_mbps upload_mbps ping_ms server_info status error
         set_download_mbps set_upload_mbps set_ping_ms set_server_info
         set_status set_error initial];
    (split; [reflexivity|]); (split; [reflexivity|]);
    (split; [reflexivity|]); (split; [reflexivity|]);
    (split; [first [intros _; reflexivity
                   |let H := fresh in intros H; now contradiction H]|]);
    (split; [let H1 := fresh in let H2 := fresh in let H3 := fresh in
             intros ? H1 H2 [? H3];
             first [discriminate H1 | discriminate H2 | discriminate H3
                   |injection H2 as <-; reflexivity]
            |]);
    reflexivity.
Qed.

Lemma network_test_failure_witness :
  exists final,
    network_speed_test true upload_fails = (final, Normal tt) /\
    status (now final) = "Error" /\
    error (now final) = Some "HTTP Error 403: Forbidden" /\
    upload_mbps (now final) = 0%Q.
Proof.
  destruct (network_test_failure true upload_fails _ eq_refl)
    as (final & Hrun & Hst & He & Hu & _).
  exists final. repeat split; assumption.
Defined.

End NetworkFacts.

(** ** The stability test *)

Module StabilityFacts.
Import Worker WorkerFacts StabilityTest.

Lemma gt_true x y : gt x y = true -> (y < x)%Q.
Proof.
  unfold gt. intros H. apply Qnot_le_lt. intros Hle.
  apply Qle_bool_iff in Hle. rewrite Hle in H. discriminate.
Qed.

Lemma gt_false x y : gt x y = false -> (x <= y)%Q.
Proof.
  unfold gt. intros H. apply Qle_bool_iff. now destruct (Qle_bool x y).
Qed.

Lemma gt_of_lt x y : (y < x)%Q -> gt x y = true.
Proof.
  intros H. destruct (gt x y) eqn:E; [reflexivity|].
  apply gt_false in E. apply Qle_not_lt in E. contradiction.
Qed.

Lemma gt_of_le x y : (x <= y)%Q -> gt x y = false.
Proof.
  intros H. destruct (gt x y) eqn:E; [|reflexivity].
  apply gt_true in E. apply Qle_not_lt in H. contradiction.
Qed.

Lemma mentions_snoc kind errors m :
  mentions kind (errors ++ [m]) = mentions kind errors || String.prefix kind m.
Proof. unfold mentions. rewrite existsb_app. cbn. now rewrite orb_false_r. Qed.


Lemma prefix_own (kind t : string) :
  String.prefix kind (String.append kind t) = true.
Proof. apply StringFacts.prefix_spec. now exists t. Qed.

(** A message of one kind is of no other kind. *)
Ltac kinds :=
  rewrite ?prefix_own;
  repeat match goal with
  | |- context [String.prefix ?k (String.append ?p ?t)] =>
      change (String.prefix k (String.append p t)) with false
  end.

Ltac fields :=
  cbn [duration cpu_stable memory_stable disk_stable temperature_stable
       max_temperature errors status set_cpu_stable set_memory_stable
       set_disk_stable set_temperature_stable set_max_temperature
       append_error set_status].

Lemma sound_cpu r t :
  sound r ->
  sound (append_error (String.append "High CPU usage: " t)
           (set_cpu_stable false r)).
Proof.
  intros [(Hc & Hm & Hd & Ht) Hx]. unfold sound, flags_explained,
    temperature_flag_is_threshold. fields. rewrite !mentions_snoc. kinds.
  rewrite !orb_false_r, orb_true_r. repeat split; assumption.
Qed.

Lemma sound_memory r t :
  sound r ->
  sound (append_error (String.append "High memory usage: " t)
           (set_memory_stable false r)).
Proof.
  intros [(Hc & Hm & Hd & Ht) Hx]. unfold sound, flags_explained,
    temperature_flag_is_threshold. fields. rewrite !mentions_snoc. kinds.
  rewrite !orb_false_r, orb_true_r. repeat split; assumption.
Qed.

Lemma sound_disk r t :
  sound r ->
  sound (append_error (String.append "High disk usage: " t)
           (set_disk_stable false r)).
Proof.
  intros [(Hc & Hm & Hd & Ht) Hx]. unfold sound, flags_explained,
    temperature_flag_is_threshold. fields. rewrite !mentions_snoc. kinds.
  rewrite !orb_false_r, orb_true_r. repeat split; assumption.
Qed.

Lemma sound_other r e :
  sound r -> sound (append_error (String.append "Stability test error: " e) r).
Proof.
  intros [(Hc & Hm & Hd & Ht) Hx]. unfold sound, flags_explained,
    temperature_flag_is_threshold. fields. rewrite !mentions_snoc. kinds.
  rewrite !orb_false_r. repeat split; assumption.
Qed.

Lemma sound_status r v : sound r -> sound (set_status v r).
Proof. intros H. exact H. Qed.

(** One entry of a sensor, seen from the dictionary. *)
Lemma sound_entry r (current : reading) :
  sound r ->
  let r1 := if gt (value current) (max_temperature r)
            then set_max_temperature (value current) r else r in
  sound (if gt (value current) 80
         then append_error
                (String.append "High temperature: "
                   (String.append (text current) degrees_c))
                (set_temperature_stable false r1)
         else r1).
Proof.
  intros [(Hc & Hm & Hd & Ht) Hx]. cbn zeta.
  unfold sound, flags_explained, temperature_flag_is_threshold in *.
  destruct (gt (value current) (max_temperature r)) eqn:Hmax;
    destruct (gt (value current) 80) eqn:H80; fields;
    rewrite ?mentions_snoc; kinds; rewrite ?orb_false_r, ?orb_true_r;
    repeat split; try assumption; try reflexivity.
  - now rewrite H80.
  - rewrite H80, Hx. apply gt_true in Hmax. apply gt_false in H80.
    rewrite gt_of_le; [reflexivity|].
    apply Qlt_le_weak in Hmax. now apply Qle_trans with (value current).
  - apply gt_false in Hmax. apply gt_true in H80.
    rewrite gt_of_lt; [reflexivity|].
    now apply Qlt_le_trans with (value current).
Qed.

Lemma check_cpu_sound w i : preserves sound (check_cpu w i).
Proof.
  intros s [Hs Hl]. unfold check_cpu, bind, lift, modify, ret.
  destruct (cpu_percent w i) as [r|e]; [|now split].
  destruct (gt (value r) 95); split; cbn [fst now log]; try assumption.
  now apply sound_cpu.
Qed.

Lemma check_memory_sound w i : preserves sound (check_memory w i).
Proof.
  intros s [Hs Hl]. unfold check_memory, bind, lift, modify, ret.
  destruct (virtual_memory w i) as [r|e]; [|now split].
  destruct (gt (value r) 90); split; cbn [fst now log]; try assumption.
  now apply sound_memory.
Qed.

Lemma check_partition_sound p : preserves sound (check_partition p).
Proof.
  intros s [Hs Hl]. unfold check_partition, bind, lift, modify, ret.
  destruct (disk_usage p) as [r|e]; [|now split].
  destruct (gt (value r) 95); split; cbn [fst now log]; try assumption.
  now apply sound_disk.
Qed.

Lemma check_entry_sound entry : preserves sound (check_entry entry).
Proof.
  intros s [Hs Hl]. unfold check_entry, bind, lift, modify, ret, get.
  destruct entry as [current|e]; [|now split].
  cbn [now log].
  pose proof (sound_entry (now s) current Hs) as H. cbn zeta in H.
  destruct (gt (value current) (max_temperature (now s)));
    cbn [now log max_temperature set_max_temperature] in *;
    destruct (gt (value current) 80); split; cbn [fst now log];
    assumption.
Qed.

Lemma stability_step_sound w cb i : preserves sound (stability_step w cb i).
Proof.
  unfold stability_step. apply preserves_try_except.
  - apply preserves_bind; [apply check_cpu_sound|]. intros _.
    apply preserves_bind; [apply check_memory_sound|]. intros _.
    apply preserves_bind.
    { unfold check_disks. apply preserves_bind; [apply preserves_lift|].
      intros ps. apply preserves_for_each. intros p _.
      apply check_partition_sound. }
    intros _. apply preserves_bind.
    { unfold check_temperature. apply preserves_try_except.
      - apply preserves_bind; [apply preserves_lift|]. intros es.
        apply preserves_for_each. intros e _. apply check_entry_sound.
      - intros _. apply preserves_ret. }
    intros _. repeat preserves_step.
  - intros e. apply preserves_modify. intros r Hr. now apply sound_other.
Qed.

Lemma stability_loop_sound fuel w dur cb :
  forall i, preserves sound (stability_loop fuel w dur cb i).
Proof.
  induction fuel as [|fuel IH]; intros i; cbn [stability_loop];
    destruct (guard w dur i); try apply preserves_ret.
  apply preserves_bind; [apply stability_step_sound|]. intros _. apply IH.
Qed.

Lemma stability_test_sound fuel dur cb w :
  good sound (fst (system_stability_test fuel dur cb w)).
Proof.
  apply preserves_run.
  - unfold stability_test_worker.
    apply preserves_bind; [apply stability_loop_sound|]. intros [|].
    + repeat preserves_step. assumption.
    + apply preserves_ret.
  - repeat split.
Qed.

(** X17: the four flags of the stability test and its list of errors tell
    the same story.  In the final dictionary and in every dictionary a
    callback was given, 'cpu_stable' is False exactly when [errors] holds
    a message 'High CPU usage: ...', and likewise 'memory_stable' with
    'High memory usage: ', 'disk_stable' with 'High disk usage: ' and
    'temperature_stable' with 'High temperature: '.  No flag goes back
    to True, and no other message, 'Stability test error: ...' among
    them, clears or sets a flag. *)
Theorem stability_flags_match_errors fuel dur callback (w : env) :
  let final := fst (system_stability_test fuel dur callback w) in
  flags_explained (now final) /\
  Forall (fun e => flags_explained (snd e)) (log final).
Proof.
  cbn zeta. destruct (stability_test_sound fuel dur callback w) as [Hn Hl].
  split; [apply Hn|]. eapply Forall_impl; [|exact Hl]. now intros e [H _].
Qed.

(** X18: 'temperature_stable' is False exactly when 'max_temperature' is
    above 80, in the final dictionary and in every dictionary a callback
    was given: the highest temperature recorded is the one the flag is
    judged by. *)
Theorem temperature_flag_follows_maximum fuel dur callback (w : env) :
  let final := fst (system_stability_test fuel dur callback w) in
  temperature_stable (now final) = negb (gt (max_temperature (now final)) 80) /\
  Forall (fun e => temperature_stable (snd e) =
                   negb (gt (max_temperature (snd e)) 80)) (log final) /\
  (forall x y, gt x y = true <-> (y < x)%Q).
Proof.
  cbn zeta. destruct (stability_test_sound fuel dur callback w) as [Hn Hl].
  split; [apply Hn|]. split.
  - eapply Forall_impl; [|exact Hl]. now intros e [_ H].
  - intros x y. split; [apply gt_true|apply gt_of_lt].
Qed.

Lemma check_partitions_quiet ps (s : state results) :
  exists s', for_each ps check_partition s = (s', Normal tt) /\ log s' = log s.
Proof.
  revert s. induction ps as [|p ps IH]; intros s; [now exists s|].
  cbn [for_each]. unfold check_partition at 1.
  destruct (disk_usage p) as [r|e]; [|apply IH].
  unfold bind, modify, ret. destruct (gt (value r) 95); cbn [now log].
  - destruct (IH {| now := append_error
                             (String.append "High disk usage: "
                                (String.append (text r)
                                   (String.append "% on " (device p))))
                             (set_disk_stable false (now s));
                    log := log s |}) as (s' & -> & Hl). now exists s'.
  - apply IH.
Qed.

Lemma check_entries_quiet es (s : state results) :
  exists s' r, for_each es check_entry s = (s', r) /\ log s' = log s.
Proof.
  revert s. induction es as [|entry es IH]; intros s;
    [now exists s, (Normal tt)|].
  cbn [for_each]. unfold check_entry at 1.
  destruct entry as [current|e]; unfold bind, lift, get, modify, ret;
    [|now exists s, (Raised e)].
  cbn [now log].
  destruct (gt (value current) (max_temperature (now s)));
    cbn [now log max_temperature set_max_temperature];
    destruct (gt (value current) 80); cbn [now log];
    match goal with |- context [for_each es check_entry ?st] =>
      destruct (IH st) as (s' & r & -> & Hl); now exists s', r end.
Qed.

Lemma check_temperature_quiet w i (s : state results) :
  exists s', check_temperature w i s = (s', Normal tt) /\ log s' = log s.
Proof.
  unfold check_temperature, try_except, bind, lift, ret.
  destruct (sensors_temperatures w i) as [es|e]; [|now exists s].
  destruct (check_entries_quiet es s) as (s' & r & -> & Hl).
  destruct r as [[]|e]; now exists s'.
Qed.

Lemma check_cpu_quiet w i r (s : state results) :
  cpu_percent w i = Normal r ->
  exists s', check_cpu w i s = (s', Normal tt) /\ log s' = log s.
Proof.
  intros Hr. unfold check_cpu, bind, lift, modify, ret. rewrite Hr.
  destruct (gt (value r) 95); eexists; split; reflexivity.
Qed.

Lemma check_memory_quiet w i r (s : state results) :
  virtual_memory w i = Normal r ->
  exists s', check_memory w i s = (s', Normal tt) /\ log s' = log s.
Proof.
  intros Hr. unfold check_memory, bind, lift, modify, ret. rewrite Hr.
  destruct (gt (value r) 90); eexists; split; reflexivity.
Qed.

(** X19: an iteration of the stability test pauses only when its
    readings succeed.  When the CPU reading, the memory reading or the
    list of partitions raises, the iteration appends 'Stability test
    error: ' and the text to [errors] and ends at once: no callback, no
    five-second sleep, so the loop goes round again immediately.
    Otherwise, whatever the partitions and the sensors do, the iteration
    calls the callback, if there is one, and then sleeps five seconds. *)
Theorem failed_iteration_does_not_pause (w : env) callback i
  (s : state results) :
  match iteration_failure w i with
  | Some e =>
      exists s',
        stability_step w callback i s = (s', Normal tt) /\
        log s' = log s /\
        last (errors (now s')) "" = String.append "Stability test error: " e
  | None =>
      exists s',
        stability_step w callback i s = (s', Normal tt) /\
        log s' = log s ++ (if callback then [(LCallback, now s')] else [])
                       ++ [(LSleep 5000, now s')]
  end.
Proof.
  unfold iteration_failure, stability_step.
  destruct (cpu_percent w i) as [c|e] eqn:Hc.
  2: { unfold try_except, bind at 1, check_cpu, bind, lift. rewrite Hc.
       eexists. split; [reflexivity|]. split; [reflexivity|]. cbn.
       apply last_last. }
  destruct (check_cpu_quiet w i c s Hc) as (s1 & H1 & L1).
  rewrite (try_except_bind_normal _ _ _ _ _ _ H1).
  destruct (virtual_memory w i) as [m|e] eqn:Hm.
  2: { unfold try_except, bind at 1, check_memory, bind, lift. rewrite Hm.
       eexists. split; [reflexivity|]. split; [exact L1|]. cbn.
       apply last_last. }
  destruct (check_memory_quiet w i m s1 Hm) as (s2 & H2 & L2).
  rewrite (try_except_bind_normal _ _ _ _ _ _ H2).
  destruct (disk_partitions w i) as [ps|e] eqn:Hd.
  2: { unfold try_except, bind at 1, check_disks, bind, lift. rewrite Hd.
       eexists. split; [reflexivity|]. split; [cbn [log]; now rewrite L2|]. cbn.
       apply last_last. }
  assert (H3 : exists s3, check_disks w i s2 = (s3, Normal tt) /\
                          log s3 = log s2).
  { unfold check_disks, bind, lift. rewrite Hd. apply check_partitions_quiet. }
  destruct H3 as (s3 & H3 & L3).
  rewrite (try_except_bind_normal _ _ _ _ _ _ H3).
  destruct (check_temperature_quiet w i s3) as (s4 & H4 & L4).
  rewrite (try_except_bind_normal _ _ _ _ _ _ H4).
  unfold try_except, bind, call_back, emit, ret.
  destruct callback; eexists; (split; [reflexivity|]); cbn [now log];
    rewrite L4, L3, L2, L1, <- ?app_assoc; reflexivity.
Qed.

(** The invariants at work: three iterations of [hot_spell]. *)
Example hot_spell_run :
  let final := now (fst (system_stability_test 10 15 true hot_spell)) in
  errors final =
    ["High CPU usage: 97.0%";
     String.append "High temperature: 85.0" degrees_c] /\
  cpu_stable final = false /\ memory_stable final = true /\
  disk_stable final = true /\ temperature_stable final = false /\
  max_temperature final = 85%Q /\ status final = "Completed".
Proof. vm_compute. repeat split; reflexivity. Qed.

End StabilityFacts.

(** ** The brightness test *)

Module BrightnessFacts.
Import Worker WorkerFacts BrightnessTest.

#[local] Arguments Py.int : simpl never.
#[local] Arguments Py.truediv : simpl never.
#[local] Arguments UpdateManager.str : simpl never.

Ltac run_step :=
  unfold try_except, bind, assign, modify, emit, ret, raise, get, call_back,
    lift;
  cbn [now log fst snd negb res commands with_res issue levels_tested
       original_brightness brightness_levels_tested brightness_support
       status progress errors error set_original_brightness
       set_brightness_support append_level append_error set_status
       set_progress set_error level map].

(** One iteration that is not stopped: one command, one entry. *)
Lemma level_step_run (w : env) callback i lvl (s : state store) :
  is_testing w (InLoop 0 i) = true ->
  exists s',
    level_step w callback (i, lvl) s = (s', Normal Continue) /\
    levels_tested (now s') = levels_tested (now s) ++ [lvl] /\
    commands (now s') = commands (now s) ++ [lvl] /\
    original_brightness (res (now s')) = original_brightness (res (now s)) /\
    status (res (now s')) = status (res (now s)) /\
    error (res (now s')) = error (res (now s)).
Proof.
  intros Ht. unfold level_step. rewrite Ht. cbn [negb].
  destruct (set_level w lvl) as [r|e]; [destruct (returncode r =? 0) eqn:Hr|];
    destruct callback; run_step; rewrite ?Hr; run_step;
    (eexists; split; [reflexivity|]); unfold levels_tested; run_step;
    rewrite ?map_app; repeat split; reflexivity.
Qed.

Lemma level_step_stopped (w : env) callback i lvl (s : state store) :
  is_testing w (InLoop 0 i) = false ->
  level_step w callback (i, lvl) s = (s, Normal Break).
Proof. intros Ht. unfold level_step. now rewrite Ht. Qed.

(** The loop tests a first part of the levels, all of them unless it is
    stopped. *)
Lemma level_loop (w : env) callback xs :
  forall s : state store,
  exists s' n,
    for_each xs (level_step w callback) s = (s', Normal tt) /\
    levels_tested (now s') = levels_tested (now s) ++ map snd (firstn n xs) /\
    commands (now s') = commands (now s) ++ map snd (firstn n xs) /\
    original_brightness (res (now s')) = original_brightness (res (now s)) /\
    status (res (now s')) = status (res (now s)) /\
    error (res (now s')) = error (res (now s)) /\
    ((forall i, is_testing w (InLoop 0 i) = true) -> n = List.length xs).
Proof.
  induction xs as [|[i lvl] xs IH]; intros s.
  - exists s, 0%nat. cbn. rewrite !app_nil_r. repeat split.
  - cbn [for_each]. destruct (is_testing w (InLoop 0 i)) eqn:Ht.
    + destruct (level_step_run w callback i lvl s Ht)
        as (s1 & -> & Hl1 & Hc1 & Ho1 & Hs1 & He1).
      destruct (IH s1) as (s' & n & -> & Hl & Hc & Ho & Hs & He & Hn).
      exists s', (S n). cbn [firstn map snd].
      split; [reflexivity|].
      rewrite Hl, Hl1, Hc, Hc1, <- !app_assoc. cbn [app].
      repeat split; try congruence. intros Hall. cbn. f_equal. auto.
    + rewrite (level_step_stopped w callback i lvl s Ht).
      exists s, 0%nat. cbn [firstn map]. rewrite !app_nil_r.
      repeat split. intros Hall. rewrite Hall in Ht. discriminate.
Qed.

Lemma enumerate_snd {A} (l : list A) : map snd (MemoryTest.enumerate l) = l.
Proof.
  unfold MemoryTest.enumerate.
  assert (H : forall (xs : list Z) (ys : list A),
            List.length xs = List.length ys -> map snd (combine xs ys) = ys).
  { induction xs as [|x xs IH]; intros [|y ys] Hlen; try discriminate;
      [reflexivity|]. cbn. f_equal. apply IH. now injection Hlen. }
  apply H. rewrite PyFacts.length_range. lia.
Qed.

(** X20: the brightness test puts the brightness back.  On a machine
    whose brightness was detected, every run ends without an exception,
    and the last command it gives the screen is the brightness it found at
    the start: after all five levels, after a stop at any level, and
    whatever the commands in between return or raise.  The levels are
    tried in the order 20, 40, 60, 80, 100, each at most once, and every
    level tried leaves exactly one entry in 'brightness_levels_tested'. *)
Theorem brightness_is_restored callback (w : env) original :
  win32 w = true ->
  current_brightness w = Detected original ->
  exists final n,
    brightness_test callback w = (final, Normal tt) /\
    levels_tested (now final) = firstn n test_levels /\
    commands (now final) = firstn n test_levels ++ [original] /\
    original_brightness (res (now final)) = Some original /\
    status (res (now final)) =
      (if is_testing w AtEnd then "Completed" else "Stopped") /\
    progress (res (now final)) = 100 /\
    error (res (now final)) = None /\
    ((forall i, is_testing w (InLoop 0 i) = true) -> n = 5%nat).
Proof.
  intros Hw Hd.
  unfold brightness_test, run, brightness_test_worker, detect.
  rewrite Hw, Hd. unfold try_except at 1.
  cbn [try_except bind modify get ret now log res with_res
       brightness_support set_brightness_support set_original_brightness
       initial negb].
  unfold bind at 1.
  match goal with |- context [for_each ?xs (level_step w callback) ?st] =>
    destruct (level_loop w callback xs st)
      as (s1 & n & -> & Hl & Hc & Ho & Hs & He & Hn) end.
  cbn [now res commands levels_tested brightness_levels_tested map app
       original_brightness status error] in Hl, Hc, Ho, Hs, He.
  rewrite <- firstn_map, enumerate_snd in Hl, Hc.
  unfold restore_brightness. unfold bind at 1, get at 1. unfold bind at 1.
  rewrite Ho.
  destruct (restore w) as [r|e]; [destruct (returncode r =? 0) eqn:Hr|];
    destruct callback; run_step; rewrite ?Hr; run_step;
    (eexists _, n; split; [reflexivity|]); unfold levels_tested; run_step;
    rewrite ?Hc; fold (levels_tested (now s1)); rewrite ?Hl;
    repeat split; try assumption; try reflexivity;
    intros Hall; rewrite (Hn Hall); reflexivity.
Qed.

(** The theorem at work: Stop is pressed while the second level is shown,
    and the brightness goes back to 70. *)
Lemma brightness_is_restored_witness :
  exists final,
    brightness_test true stopped_at_40 = (final, Normal tt) /\
    commands (now final) = [20; 40; 70] /\
    levels_tested (now final) = [20; 40] /\
    status (res (now final)) = "Stopped".
Proof.
  destruct (brightness_is_restored true stopped_at_40 70 eq_refl eq_refl)
    as (final & n & Hrun & _ & _ & _ & Hst & _).
  exists final. split; [exact Hrun|]. split; [|split; [|exact Hst]];
    replace final with (fst (brightness_test true stopped_at_40))
      by (now rewrite Hrun); reflexivity.
Defined.

(** X21: a screen whose brightness cannot be read is left alone.  Off
    Windows, when the query finds nothing and when it raises, the worker
    gives the screen no command at all and tests no level; it records one
    message that says why, and it ends with the status 'Completed', not
    'Error', and progress 100. *)
Theorem unreadable_screen_is_left_alone callback (w : env) :
  win32 w = false \/ (forall v, current_brightness w <> Detected v) ->
  exists final,
    brightness_test callback w = (final, Normal tt) /\
    commands (now final) = [] /\
    brightness_levels_tested (res (now final)) = [] /\
    brightness_support (res (now final)) = false /\
    status (res (now final)) = "Completed" /\
    progress (res (now final)) = 100 /\
    error (res (now final)) = None /\
    errors (res (now final)) =
      [if win32 w then
         match current_brightness w with
         | DetectionRaises msg =>
             String.append "Error detecting brightness: " msg
         | _ => "Could not detect current brightness level"
         end
       else "Brightness test only supported on Windows"] /\
    labels (log final) =
      [LStatus; LProgress; LSetTesting false] ++ cb_labels callback.
Proof.
  intros H.
  unfold brightness_test, run, brightness_test_worker, detect.
  destruct (win32 w); [destruct H as [H|H]; [discriminate|]|clear H].
  - destruct (current_brightness w) as [v| |msg];
      [now contradiction (H v)| |];
      destruct callback; run_step; (eexists; split; [reflexivity|]);
      repeat split.
  - destruct callback; run_step; (eexists; split; [reflexivity|]);
      repeat split.
Qed.

Lemma unreadable_screen_is_left_alone_witness :
  exists final,
    brightness_test true no_backlight = (final, Normal tt) /\
    commands (now final) = [] /\
    status (res (now final)) = "Completed" /\
    errors (res (now final)) = ["Could not detect current brightness level"].
Proof.
  assert (H : win32 no_backlight = false \/
              (forall v, current_brightness no_backlight <> Detected v))
    by (right; intros v; discriminate).
  destruct (unreadable_screen_is_left_alone true no_backlight H)
    as (final & Hrun & Hc & _ & _ & Hst & _ & _ & He & _).
  exists final. repeat split; assumption.
Defined.

(** *** Progress *)

Lemma level_step_bounded (w : env) callback il :
  In il (MemoryTest.enumerate test_levels) ->
  preserves bounded (level_step w callback il).
Proof.
  intros Hin. destruct il as [i lvl].
  assert (Hi : 0 <= i < 5).
  { apply (in_map fst) in Hin. rewrite MemoryFacts.enumerate_fst in Hin.
    now apply PyFacts.In_range in Hin. }
  unfold level_step. destruct (negb _); [apply preserves_ret|].
  repeat preserves_step; try assumption.
  unfold bounded. cbn. apply PyFacts.percent_progress;
    unfold total_steps; cbn; lia.
Qed.

Lemma level_step_stays_running (w : env) callback il :
  preserves running (level_step w callback il).
Proof.
  destruct il as [i lvl]. unfold level_step.
  destruct (negb _); [apply preserves_ret|].
  repeat preserves_step; assumption.
Qed.

Lemma brightness_bounded callback (w : env) :
  preserves bounded (brightness_test_worker callback w).
Proof.
  unfold brightness_test_worker, detect, restore_brightness.
  apply preserves_try_except; [|intros e; repeat preserves_step; assumption].
  apply preserves_bind.
  { apply preserves_try_except.
    - destruct (win32 w); [destruct (current_brightness w)|];
        repeat preserves_step; assumption.
    - intros e. repeat preserves_step; assumption. }
  intros _. apply preserves_bind; [apply preserves_get|intros s0].
  destruct (negb _).
  - repeat preserves_step; try assumption. unfold bounded. cbn. lia.
  - apply preserves_bind.
    { apply preserves_for_each. intros il Hin. now apply level_step_bounded. }
    intros _. apply preserves_bind.
    { apply preserves_bind; [apply preserves_get|intros s1].
      destruct (original_brightness (res s1)); repeat preserves_step;
        assumption. }
    intros _. repeat preserves_step; try assumption.
    unfold bounded. cbn. lia.
Qed.

Lemma brightness_failure_settled callback e (s : state store) :
  good running s ->
  good settled_at_100
    (fst ((modify (with_res (set_error e)) ;;
           assign LStatus (with_res (set_status "Error")) ;;
           emit (LSetTesting false) ;;
           call_back callback)%worker s)).
Proof.
  intros Hs.
  apply (ProgressFacts.good_impl _ _ _ ProgressFacts.running_settled_at_100)
    in Hs.
  destruct callback; cbn [bind assign modify emit ret call_back now log fst];
    rewrite <- ?app_assoc; cbn [app];
    (apply ProgressFacts.good_extend; [exact Hs| |ProgressFacts.settle]);
    repeat (apply Forall_cons || apply Forall_nil); ProgressFacts.settle.
Qed.

(** Once the brightness has been detected, progress is 100 before the
    status is assigned. *)
Lemma brightness_levels_settled callback (w : env) (s : state store) :
  good running s ->
  good settled_at_100
    (fst (try_except
       (for_each (MemoryTest.enumerate test_levels) (level_step w callback) ;;
        restore_brightness w ;;
        assign LProgress (with_res (set_progress 100)) ;;
        assign LStatus
          (with_res (set_status
                       (if is_testing w AtEnd then "Completed" else "Stopped"))) ;;
        emit (LSetTesting false) ;;
        call_back callback)%worker
       (fun e =>
          modify (with_res (set_error e)) ;;
          assign LStatus (with_res (set_status "Error")) ;;
          emit (LSetTesting false) ;;
          call_back callback)%worker s)).
Proof.
  revert s.
  match goal with |- forall s, _ -> _ (fst (try_except ?m ?h s)) =>
    change (closes running (good settled_at_100) m h) end.
  pose proof (brightness_failure_settled callback) as Hfail.
  apply ProgressFacts.closes_bind; [|intros _|exact Hfail].
  { apply preserves_for_each. intros il _. apply level_step_stays_running. }
  apply ProgressFacts.closes_bind; [|intros _|exact Hfail].
  { unfold restore_brightness.
    apply preserves_bind; [apply preserves_get|intros s1].
    destruct (original_brightness (res s1)); repeat preserves_step;
      assumption. }
  intros s Hs.
  apply (ProgressFacts.good_impl _ _ _ ProgressFacts.running_settled_at_100)
    in Hs.
  unfold try_except.
  destruct callback; cbn [bind assign modify emit ret call_back now log fst];
    rewrite <- ?app_assoc; cbn [app];
    (apply ProgressFacts.good_extend; [exact Hs| |ProgressFacts.settle]);
    repeat (apply Forall_cons || apply Forall_nil); ProgressFacts.settle.
Qed.

(** X22: the progress of the brightness test.  In the final dictionary
    and in every dictionary a callback was given, 'progress' lies in
    0..100; and from the statement after the one that sets the status to
    'Completed' or 'Stopped' on, the final callback included, it is 100.
    On a screen whose brightness was detected progress is 100 already
    when that status is set; on one that is left alone the status is set
    first. *)
Theorem brightness_progress_contract callback (w : env) :
  let final := fst (brightness_test callback w) in
  good bounded final /\
  full_when_reported final /\
  (win32 w = true -> (exists v, current_brightness w = Detected v) ->
   full_when_status_set final).
Proof.
  cbn zeta. split; [|split].
  - apply preserves_run; [apply brightness_bounded|]. unfold bounded. cbn. lia.
  - unfold brightness_test, run, brightness_test_worker, detect.
    destruct (win32 w) eqn:Hw;
      [destruct (current_brightness w) as [v| |msg] eqn:Hd|].
    + apply ProgressFacts.good_full_when_reported.
      unfold try_except at 1.
      cbn [try_except bind modify get ret now log res with_res
           brightness_support set_brightness_support set_original_brightness
           initial negb].
      apply (brightness_levels_settled callback w).
      split; [reflexivity|constructor].
    + destruct callback; run_step;
        (split; [ProgressFacts.settle|]);
        intros l r Hin Hl; cbn in Hin;
        repeat (destruct Hin as [Hin|Hin];
                [injection Hin as <- <-; try congruence; ProgressFacts.settle|]);
        destruct Hin.
    + destruct callback; run_step;
        (split; [ProgressFacts.settle|]);
        intros l r Hin Hl; cbn in Hin;
        repeat (destruct Hin as [Hin|Hin];
                [injection Hin as <- <-; try congruence; ProgressFacts.settle|]);
        destruct Hin.
    + destruct callback; run_step;
        (split; [ProgressFacts.settle|]);
        intros l r Hin Hl; cbn in Hin;
        repeat (destruct Hin as [Hin|Hin];
                [injection Hin as <- <-; try congruence; ProgressFacts.settle|]);
        destruct Hin.
  - intros Hw [v Hd].
    apply ProgressFacts.good_full_when_status_set.
    unfold brightness_test, run, brightness_test_worker, detect.
    rewrite Hw, Hd. unfold try_except at 1.
    cbn [try_except bind modify get ret now log res with_res
         brightness_support set_brightness_support set_original_brightness
         initial negb].
    apply (brightness_levels_settled callback w).
    split; [reflexivity|constructor].
Qed.

Lemma brightness_progress_contract_witness :
  full_when_status_set (fst (brightness_test true stopped_at_40)).
Proof.
  exact (proj2 (proj2 (brightness_progress_contract true stopped_at_40))
           eq_refl (ex_intro _ 70 eq_refl)).
Defined.

End BrightnessFacts.

(** ** The callback of the window *)

Module CallbackFacts.
Import TestCallback.





End CallbackFacts.

(** ** The recommendations *)

Module RecommendationFacts.
Import Worker Recommendations.

Ltac evaluate :=
  unfold get_test_recommendations, run, recommend, try_except, bind, lift,
    append, modify;
  cbn [now log fst app].

(** X24: [get_test_recommendations] never raises and never returns an
    empty list, whatever it is given.  It returns either five
    recommendations, the last three of them the same for every machine,
    or at most two lines of which the last is 'Error generating
    recommendations: ' and the text of an exception.  Missing 'cpu' and
    'memory' sections count as one core and no memory: the short CPU test
    and the small memory test are recommended.  A 'cores_physical' of
    None, which is what psutil gives when it cannot tell, leaves the error
    line alone. *)
Theorem recommendations_are_never_empty (hardware_info : value) :
  get_test_recommendations hardware_info <> [] /\
  ((exists cpu memory,
      get_test_recommendations hardware_info =
        [cpu; memory] ++ general_recommendations) \/
   (exists before e,
      get_test_recommendations hardware_info =
        before ++ [String.append "Error generating recommendations: " e] /\
      (List.length before <= 1)%nat)) /\
  (forall d, hardware_info = VDict d ->
     lookup "cpu" d = None -> lookup "memory" d = None ->
     get_test_recommendations hardware_info =
       ["Run CPU stress test for 30 seconds (fewer cores detected)";
        "Run memory test with 100MB (limited RAM detected)"]
       ++ general_recommendations) /\
  (forall d cpu, hardware_info = VDict d ->
     lookup "cpu" d = Some (VDict cpu) ->
     lookup "cores_physical" cpu = Some VNone ->
     get_test_recommendations hardware_info =
       ["Error generating recommendations: '>=' not supported between instances of 'NoneType' and 'int'"]).
Proof.
  assert (Hshape :
    (exists cpu memory,
      get_test_recommendations hardware_info =
        [cpu; memory] ++ general_recommendations) \/
    (exists before e,
      get_test_recommendations hardware_info =
        before ++ [String.append "Error generating recommendations: " e] /\
      (List.length before <= 1)%nat)).
  { evaluate.
    destruct (py_get hardware_info "cpu" (VDict [])) as [cpu|e];
      [|right; exists [], e; split; [reflexivity|cbn; lia]].
    destruct (py_get cpu "cores_physical" (VInt 1)) as [cores|e];
      [|right; exists [], e; split; [reflexivity|cbn; lia]].
    destruct (py_ge cores 4) as [many|e];
      [|right; exists [], e; split; [reflexivity|cbn; lia]].
    destruct (py_get hardware_info "memory" (VDict [])) as [memory|e];
      [|right; destruct many; eexists [_], e; split;
        [reflexivity|cbn; lia|reflexivity|cbn; lia]].
    destruct (py_get memory "total" (VInt 0)) as [total|e];
      [|right; destruct many; eexists [_], e; split;
        [reflexivity|cbn; lia|reflexivity|cbn; lia]].
    destruct (py_ge total 8) as [much|e];
      [|right; destruct many; eexists [_], e; split;
        [reflexivity|cbn; lia|reflexivity|cbn; lia]].
    left. destruct many, much; eexists _, _; reflexivity. }
  split; [|split; [exact Hshape|split]].
  - destruct Hshape as [(c & m & ->)|(b & e & -> & _)]; [discriminate|].
    now destruct b.
  - intros d -> Hc Hm. evaluate. cbn [py_get]. rewrite Hc, Hm. reflexivity.
  - intros d cpu -> Hc Hn. evaluate. cbn [py_get]. rewrite Hc.
    cbn [py_get]. rewrite Hn. reflexivity.
Qed.

Lemma recommendations_are_never_empty_witness :
  get_test_recommendations (VDict []) =
    ["Run CPU stress test for 30 seconds (fewer cores detected)";
     "Run memory test with 100MB (limited RAM detected)"]
    ++ general_recommendations /\
  get_test_recommendations cores_unknown =
    ["Error generating recommendations: '>=' not supported between instances of 'NoneType' and 'int'"].
Proof.
  split.
  - exact (proj1 (proj2 (proj2 (recommendations_are_never_empty (VDict []))))
             [] eq_refl eq_refl eq_refl).
  - exact (proj2 (proj2 (proj2 (recommendations_are_never_empty cores_unknown)))
             _ _ eq_refl eq_refl eq_refl).
Defined.

End RecommendationFacts.

(** ** The counters of the memory test *)

Module MemoryCountFacts.
Import Worker WorkerFacts MemoryTest MemoryCounts.

#[local] Arguments random_block : simpl never.
#[local] Arguments Py.int : simpl never.
#[local] Arguments Py.truediv : simpl never.
#[local] Arguments Py.range : simpl never.

Ltac counts :=
  unfold allocated, verified, labels;
  cbn [now log]; rewrite ?map_app, ?filter_app, ?length_app;
  cbn [map filter fst is_alloc is_verify List.length app].

Lemma allocate_step_counts (w : env) size cb a (s : state store) :
  allocating a s ->
  match allocate_step w size cb (Z.of_nat a) s with
  | (s', Normal Continue) => allocating (S a) s'
  | (s', _) => allocating a s'
  end.
Proof.
  intros (Hb & Hl & Ha & He & Hv). unfold allocate_step.
  destruct (negb _); [now repeat split|].
  unfold new_block. destruct (alloc_error w (Z.of_nat a)); [now repeat split|].
  destruct cb;
    cbn [bind assign modify emit lift ret call_back now log fst snd];
    unfold allocating; counts;
    cbn [res memory_blocks with_res set_blocks_tested set_progress
         append_memory_usage append_block blocks_tested errors_found];
    unfold allocated, verified, labels in Ha, Hv;
    rewrite ?length_app, ?Ha, ?Hv, ?Hl; cbn [List.length];
    repeat split; try lia; assumption.
Qed.

Lemma allocate_loop_counts (w : env) size cb n :
  forall a (s : state store),
    allocating a s ->
    exists a',
      (a' <= a + n)%nat /\
      allocating a' (fst (for_each (map Z.of_nat (seq a n))
                            (allocate_step w size cb) s)).
Proof.
  induction n as [|n IH]; intros a s Hs; [exists a; split; [lia|exact Hs]|].
  cbn [seq map for_each].
  pose proof (allocate_step_counts w size cb a s Hs) as H1.
  destruct (allocate_step w size cb (Z.of_nat a) s) as [s1 [[|]|e]];
    cbn [fst]; try (exists a; split; [lia|exact H1]).
  destruct (IH (S a) s1 H1) as (a' & Ha' & H2).
  exists a'. split; [lia|exact H2].
Qed.

Lemma test_step_counts (w : env) len cb ib (s : state store) :
  counted s ->
  counted (fst (test_step w len cb ib s)) /\
  allocated (fst (test_step w len cb ib s)) = allocated s /\
  (verified (fst (test_step w len cb ib s)) <= S (verified s))%nat.
Proof.
  intros (Hb & He). destruct ib as [i block]. unfold test_step, verify_block, py_sum.
  destruct (negb _); [unfold ret; cbn [fst]; repeat split; try assumption; lia|].
  destruct (sum_raises w i); destruct cb;
    unfold call_back, try_except, assign, bind, modify, emit, lift, ret;
    rewrite ?Z.eqb_refl;
    cbn [negb now log fst snd];
    unfold counted; counts;
    cbn [res memory_blocks with_res set_progress incr_errors_found
         blocks_tested errors_found];
    unfold allocated, verified, labels in *;
    repeat split; try lia.
Qed.

Lemma test_loop_counts (w : env) len cb xs :
  forall s : state store,
    counted s ->
    counted (fst (for_each xs (test_step w len cb) s)) /\
    allocated (fst (for_each xs (test_step w len cb) s)) = allocated s /\
    (verified (fst (for_each xs (test_step w len cb) s))
     <= verified s + List.length xs)%nat.
Proof.
  induction xs as [|ib xs IH]; intros s Hs.
  - cbn. repeat split; try apply Hs. lia.
  - cbn [for_each List.length].
    destruct (test_step_counts w len cb ib s Hs) as (H1 & H2 & H3).
    destruct (test_step w len cb ib s) as [s1 [[|]|e]]; cbn [fst] in *.
    + destruct (IH s1 H1) as (H4 & H5 & H6).
      split; [exact H4|]. split; [congruence|lia].
    + split; [exact H1|]. split; [exact H2|lia].
    + split; [exact H1|]. split; [exact H2|lia].
Qed.

Lemma length_enumerate {A} (l : list A) :
  List.length (enumerate l) = List.length l.
Proof.
  unfold enumerate. rewrite length_combine, PyFacts.length_range. lia.
Qed.

(** X25: what the counters of the memory test count, in every run,
    complete, stopped or failed.  'blocks_tested' is the number of blocks
    that were allocated, whether or not they were verified afterwards; it
    never exceeds the requested size.  No more blocks are verified than
    were allocated, and 'errors_found' never exceeds the number of blocks
    verified. *)
Theorem memory_counters size callback (w : env) :
  let final := fst (memory_test size callback w) in
  blocks_tested (res (now final)) = Z.of_nat (allocated final) /\
  0 <= errors_found (res (now final)) <= Z.of_nat (verified final) /\
  (verified final <= allocated final)%nat /\
  Z.of_nat (allocated final) <= Z.max 0 size.
Proof.
  cbn zeta.
  destruct (memory_test size callback w) as [final r] eqn:Hrun. cbn [fst].
  unfold memory_test, run, memory_test_worker, Py.range in Hrun.
  destruct (allocate_loop_counts w size callback (Z.to_nat size) 0
              {| now := initial size; log := [] |}) as (a & Ha & Hs1).
  { repeat split. }
  unfold try_except in Hrun. unfold bind at 1 in Hrun.
  destruct (for_each (map Z.of_nat (seq 0 (Z.to_nat size))) _ _)
    as [s1 [[]|e]]; cbn [fst] in Hs1;
    destruct Hs1 as (Hb & Hl & Hal & He & Hv).
  - unfold bind at 1, get at 1 in Hrun. unfold bind at 1 in Hrun.
    assert (Hc : counted s1).
    { unfold counted. rewrite Hb, Hal, He, Hv. lia. }
    destruct (test_loop_counts w
                (Z.of_nat (List.length (memory_blocks (now s1)))) callback
                (enumerate (memory_blocks (now s1))) s1 Hc)
      as ((Hb2 & He2) & Ha2 & Hv2).
    destruct (for_each (enumerate (memory_blocks (now s1))) _ s1)
      as [s2 [[]|e]]; cbn [fst] in *;
      rewrite length_enumerate, Hl, Hv in Hv2;
      destruct callback;
      unfold call_back, assign, bind, modify, emit, ret in Hrun;
      cbn [now log] in Hrun; injection Hrun as <- _;
      counts;
      cbn [res with_res set_progress set_status set_error del_memory_blocks
           blocks_tested errors_found];
      unfold allocated, verified, labels in *;
      rewrite ?Nat.add_0_r; repeat split; lia.
  - destruct callback;
      unfold call_back, assign, bind, modify, emit, ret in Hrun;
      cbn [now log] in Hrun; injection Hrun as <- _;
      counts;
      cbn [res with_res set_progress set_status set_error del_memory_blocks
           blocks_tested errors_found];
      unfold allocated, verified, labels in *;
      rewrite ?Nat.add_0_r; repeat split; lia.
Qed.

(** The theorem at work: the third block cannot be allocated; two blocks
    are counted as tested though none was verified. *)
Example out_of_memory_run :
  let final := fst (memory_test 3 true out_of_memory) in
  status (res (now final)) = "Error" /\
  error (res (now final)) = Some "MemoryError" /\
  blocks_tested (res (now final)) = 2 /\
  verified final = 0%nat.
Proof.
  cbn zeta. unfold memory_test, run, memory_test_worker.
  unfold Py.range. cbn [Z.to_nat Pos.to_nat Pos.iter_op Nat.add seq map for_each].
  unfold allocate_step, new_block.
  cbn [out_of_memory is_testing alloc_error negb Z.of_nat Pos.of_succ_nat
       Pos.succ Z.eqb Pos.eqb].
  unfold try_except, call_back, assign, bind, modify, emit, lift, ret.
  cbn [now log].
  repeat split.
Qed.

End MemoryCountFacts.
